(** * phantom-tester: a model of [lib/phantom-tester.js]

    The orchestrator runs inside PhantomJS.  It is callback driven: the page
    driver calls back into the script when a page is initialised, when its
    load finishes and when a page-side error is raised.  The model below
    keeps that shape: every callback of the source is a computation in a
    state-and-exception monad over the script's heap (the exported module
    object, the pages created so far and everything written to the console
    or asked of the driver), and the driver is a list of events that are
    dispatched to those callbacks one at a time. *)

From Stdlib Require Import ZArith String Ascii DecimalString.
From stdpp Require Import base option list gmap strings.

Local Open Scope string_scope.
Local Open Scope Z_scope.
Local Open Scope list_scope.

(** ** JavaScript values and strings *)

(** A JavaScript string is a sequence of UTF-16 code units.  It is written
    here as the Rocq string of its UTF-8 bytes: one byte for a code unit
    below 128, two or three bytes for the other units of the basic plane,
    and four bytes for the two units, a surrogate pair, of a character
    outside it.  Comparing, joining and replacing come to the same on the
    bytes as on the code units, and so does searching, as the script only
    asks whether [indexOf] has found something and never uses the index; the
    two places where the script looks at single code units, [slice] and the
    [.] of a regular expression, are spelled out on the bytes below. *)

(** The values a configuration field or a test argument can hold. *)
Inductive jsval :=
| JUndefined
| JNull
| JBool (b : bool)
| JNum (z : Z)
| JStr (s : string)
| JObj (keys : list string).

(** ToBoolean. *)
Definition truthy (v : jsval) : bool :=
  match v with
  | JUndefined | JNull => false
  | JBool b => b
  | JNum z => negb (Z.eqb z 0)
  | JStr s => negb (String.eqb s "")
  | JObj _ => true
  end.

(** [s.indexOf(sub)], with -1 when [sub] does not occur. *)
Definition indexOf (s sub : string) : Z :=
  match String.index 0 sub s with
  | Some i => Z.of_nat i
  | None => -1
  end.

(** [a.indexOf(x)] on an array, comparing with [eqb]. *)
Fixpoint array_indexOf_from {A} (eqb : A -> A -> bool) (i : Z) (a : list A) (x : A) : Z :=
  match a with
  | [] => -1
  | y :: a' => if eqb y x then i else array_indexOf_from eqb (i + 1) a' x
  end.

Definition array_indexOf {A} (eqb : A -> A -> bool) (a : list A) (x : A) : Z :=
  array_indexOf_from eqb 0 a x.

(** The bytes of a character in UTF-8: a byte [10xxxxxx] continues the
    character that a byte before it started, a byte [1xxxxxxx] that does not
    continue one starts a character of several bytes, and a byte [1111xxxx]
    starts a character of four bytes, which is two code units. *)
Definition is_cont (c : ascii) : bool :=
  match c with Ascii _ _ _ _ _ _ b6 b7 => b7 && negb b6 end.
Definition is_multi (c : ascii) : bool :=
  match c with Ascii _ _ _ _ _ _ _ b7 => b7 end.
Definition is_lead4 (c : ascii) : bool :=
  match c with Ascii _ _ _ _ b4 b5 b6 b7 => b7 && b6 && b5 && b4 end.

(** What is left of a character of four bytes when its first code unit is
    cut off: its second unit alone, a low surrogate [110111yy yyxxxxxx],
    written as the three bytes [11101101 1011yyyy 10xxxxxx] of that unit.
    The argument holds the three bytes after the first one. *)
Definition lone_low (s : string) : string :=
  match s with
  | String _ (String (Ascii y0 y1 y2 y3 _ _ _ _) (String b3 rest)) =>
      String "237" (String (Ascii y0 y1 y2 y3 true true false true) (String b3 rest))
  | _ => EmptyString
  end.

(** [drop_units inside n s]: [s] without its first [n] code units.  With
    [inside] the character entered last is being left, and its continuation
    bytes go with it. *)
Fixpoint drop_units (inside : bool) (n : nat) (s : string) : string :=
  match s with
  | EmptyString => EmptyString
  | String c s' =>
      if inside && is_cont c then drop_units true n s'
      else
        match n with
        | O => s
        | S n' =>
            if is_lead4 c then
              match n' with
              | O => lone_low s'
              | S n'' => drop_units true n'' s'
              end
            else drop_units (is_multi c) n' s'
        end
  end.

(** [s.slice(n)] for a non-negative [n]: the string from code unit [n] on. *)
Definition slice (n : nat) (s : string) : string := drop_units false n s.

(** [a.join(sep)]. *)
Definition join (sep : string) (a : list string) : string := String.concat sep a.

(** Number to string, for the integers the script prints. *)
Definition str_of_Z (z : Z) : string := NilZero.string_of_int (Z.to_int z).
Definition str_of_nat (n : nat) : string := NilZero.string_of_uint (Nat.to_uint n).

Definition LF : ascii := "010"%char.
Definition CR : ascii := "013"%char.
Definition nl : string := String LF EmptyString.

(** [s.replace(/\n/g, by)]. *)
Fixpoint replace_newlines (by_ : string) (s : string) : string :=
  match s with
  | EmptyString => EmptyString
  | String c s' =>
      if Ascii.eqb c LF then by_ +:+ replace_newlines by_ s'
      else String c (replace_newlines by_ s')
  end.

(** The line separator U+2028 and the paragraph separator U+2029. *)
Definition LS : string := String "226" (String "128" (String "168" EmptyString)).
Definition PS : string := String "226" (String "128" (String "169" EmptyString)).

(** The string starts with a line terminator, one of the four characters
    that the [.] of a regular expression does not match. *)
Definition terminator_at (s : string) : bool :=
  match s with
  | EmptyString => false
  | String c _ =>
      Ascii.eqb c LF || Ascii.eqb c CR || String.prefix LS s || String.prefix PS s
  end.

(** [(.+)]: the longest run of characters up to a line terminator. *)
Fixpoint take_line (s : string) : string :=
  match s with
  | EmptyString => EmptyString
  | String c s' =>
      if terminator_at s then EmptyString else String c (take_line s')
  end.

(** [arg.match(/\-\-xunitName=(.+)/)]: the capture of the leftmost match. *)
Fixpoint match_xunitName (arg : string) : option string :=
  match arg with
  | EmptyString => None
  | String _ rest =>
      if String.prefix "--xunitName=" arg then
        let cap := take_line (slice 12 arg) in
        if String.eqb cap "" then match_xunitName rest else Some cap
      else match_xunitName rest
  end.

(** ** Command line *)

Record cfg := {
  cfg_color : bool;
  cfg_debug : bool;
  cfg_verbose : bool;
  cfg_xunitName : string
}.

(** What the script asks of the page driver, writes to the console, and the
    two moments of the schedule that leave no other mark: a page is created
    for a suite, and a suite's completion callback is entered. *)
Inductive inject_site := Polyfill | UserScript.

Inductive event :=
| console_log (s : string)
| console_error (s : string)
| webpage_create (pid suiteId : nat)
| page_open (pid : nat) (url : string)
| page_injectJs (pid : nat) (site : inject_site) (path : string) (injected : bool)
| page_evaluate_xunit (pid : nat) (name : string)
| page_evaluate_test (pid : nat) (testName : string) (ok : jsval)
| page_evaluate_tally (pid : nat) (name : string)
| phantom_exit (code : Z)
| suite_done (n : nat) (exitCode : Z)
| uncaught (msg : string).

(** [parseCommandLineCfg]: the configuration and what it prints. *)
Definition parseCommandLineCfg (aCmdArgs : list string) : cfg * list event :=
  let bGlobalColor := array_indexOf String.eqb aCmdArgs "--color" >? -1 in
  let bGlobalDebug := array_indexOf String.eqb aCmdArgs "--debug" >? -1 in
  let bGlobalVerbose := array_indexOf String.eqb aCmdArgs "--verbose" >? -1 in
  let sxunitVarName :=
    fold_left (fun acc arg =>
                 match match_xunitName arg with
                 | Some m => Some m
                 | None => acc
                 end) aCmdArgs None in
  ({| cfg_color := bGlobalColor;
      cfg_debug := bGlobalDebug;
      cfg_verbose := bGlobalVerbose;
      cfg_xunitName := default "assert" sxunitVarName |},
   if bGlobalDebug
   then [console_log ("PhantomJS command line args : " +:+ join " " aCmdArgs)]
   else []).

(** ** The page side *)

(** The assertion library's counters, [window[xunitVarName]]. *)
Record Tally := { _goodAsserts : Z; _badAsserts : Z }.

(** The page's global object, as far as the script reads it. *)
Definition Window := gmap string Tally.

(** A test body runs inside the page: it gets the test arguments, may change
    the page and either returns or throws. *)
Inductive outcome := Returns | Throws (msg : string).
Definition test_fn := jsval -> Window -> outcome * Window.

Record test := { testName : string; testFn : test_fn }.

(** A gathering function, by the calls [test(name, fn)] it makes. *)
Definition feeder := list (string * test_fn).

(** A frame of a page error's trace. *)
Record frame := {
  fr_file : option string;
  fr_sourceURL : option string;
  fr_line : Z;
  fr_function : option string
}.

(** ** Collaborators the source only requires *)

Record colors := {
  green : string -> string;
  red : string -> string;
  yellow : string -> string;
  bold : string -> string
}.

Record env := {
  system_args : list string;
  colors_lib : colors;
  (** [page.injectJs(path)]: the page after a successful injection. *)
  injectJs : nat -> string -> Window -> option Window;
  (** [client.xunit], evaluated in the page with the variable name. *)
  client_xunit : string -> Window -> Window;
  (** [page.evaluate(client.wrapWithTryCatch(), testFn, testArgs)]: what
      the call returns to the script, and the page after it. *)
  client_wrapWithTryCatch : test_fn -> jsval -> Window -> jsval * Window
}.

(** Modelled from the spec: [client.wrapWithTryCatch] is defined in
    [lib/client.js], whose text is missing here.  The returned function
    evaluates the body behind a failure barrier: a thrown error is caught and
    reported as a failure, a run that does not throw is reported OK. *)
Definition spec_wrapWithTryCatch (body : test_fn) (testArgs : jsval) (w : Window)
  : jsval * Window :=
  match body testArgs w with
  | (Returns, w') => (JBool true, w')
  | (Throws _, w') => (JBool false, w')
  end.

(** Modelled from the spec: [client.xunit] is in [lib/client.js] too.  Once
    installed under the configured name the library exposes two counters,
    both zero before any test has run. *)
Definition spec_xunit (name : string) (w : Window) : Window :=
  <[name := {| _goodAsserts := 0; _badAsserts := 0 |}]> w.

(** ** The script's heap *)

(** The closure returned by [_getSuiteDoneCb(n)]. *)
Record done_cb := { cb_n : nat; cb_nSuites : nat }.

(** An entry of [_registeredSuites]: the arguments array of the
    [registerSuite] call, and what [_startSuite] has pushed onto it. *)
Record suite_args := {
  a_url : string;
  a_feed : feeder;
  a_pushed : list (nat * done_cb)
}.

Record phantom_cfg := {
  ph_debug : jsval;
  ph_verbose : jsval;
  ph_ignoredErrors : option (list string)
}.

Record config := { cf_phantom : option phantom_cfg }.

(** The exported module object. *)
Record tester := {
  _xunit : option (string -> Window -> Window);
  _config : config;
  _testArgs : jsval;
  _polyfillPaths : option (list string);
  _userScriptPaths : option (list string);
  _registeredSuites : list suite_args;
  _exitCodes : list Z
}.

(** A page made by [openAndTest], with the variables its callbacks close
    over. *)
Record page := {
  pg_url : string;
  pg_feed : feeder;
  pg_suiteId : nat;
  pg_done : done_cb;
  pg_bDebug : jsval;
  pg_bVerbose : jsval;
  pg_ignoredErrors : option (list string);
  pg_testArgs : jsval;
  pg_window : Window;
  (** the callback given to [page.open] has not been called yet *)
  pg_loading : bool
}.

Record state := {
  this : tester;
  pages : list page;
  (** newest first *)
  out : list event;
  exited : option Z
}.

(** ** Computations of the script

    A callback changes the heap and either returns or throws; what it did
    before throwing stays done. *)

Inductive res (A : Type) :=
| Ok (a : A)
| Throw (msg : string).
Arguments Ok {A} a.
Arguments Throw {A} msg.

Definition M (A : Type) : Type := state -> res A * state.

Definition ret {A} (a : A) : M A := fun st => (Ok a, st).

Definition bind {A B} (c : M A) (k : A -> M B) : M B :=
  fun st =>
    match c st with
    | (Ok a, st') => k a st'
    | (Throw msg, st') => (Throw msg, st')
    end.

Definition throw {A} (msg : string) : M A := fun st => (Throw msg, st).

Declare Scope js_scope.
Delimit Scope js_scope with js.
Notation "x <- c ;; k" := (bind c (fun x => k))
  (at level 100, c at next level, right associativity) : js_scope.
Notation "c ;; k" := (bind c (fun _ => k))
  (at level 100, right associativity) : js_scope.
Local Open Scope js_scope.

Definition set_this (t : tester) (st : state) : state :=
  {| this := t; pages := pages st; out := out st; exited := exited st |}.
Definition set_pages (ps : list page) (st : state) : state :=
  {| this := this st; pages := ps; out := out st; exited := exited st |}.
Definition set_out (o : list event) (st : state) : state :=
  {| this := this st; pages := pages st; out := o; exited := exited st |}.
Definition set_exited (x : option Z) (st : state) : state :=
  {| this := this st; pages := pages st; out := out st; exited := x |}.

Definition get_this : M tester := fun st => (Ok (this st), st).
Definition put_this (t : tester) : M unit := fun st => (Ok tt, set_this t st).
Definition emit (e : event) : M unit := fun st => (Ok tt, set_out (e :: out st) st).

(** [phantom.exit(code)]. *)
Definition phantom_exit_call (code : Z) : M unit :=
  fun st => (Ok tt, set_exited (Some code) (set_out (phantom_exit code :: out st) st)).

Definition set_window (w : Window) (p : page) : page :=
  {| pg_url := pg_url p; pg_feed := pg_feed p; pg_suiteId := pg_suiteId p;
     pg_done := pg_done p; pg_bDebug := pg_bDebug p; pg_bVerbose := pg_bVerbose p;
     pg_ignoredErrors := pg_ignoredErrors p; pg_testArgs := pg_testArgs p;
     pg_window := w; pg_loading := pg_loading p |}.

Definition set_loading (b : bool) (p : page) : page :=
  {| pg_url := pg_url p; pg_feed := pg_feed p; pg_suiteId := pg_suiteId p;
     pg_done := pg_done p; pg_bDebug := pg_bDebug p; pg_bVerbose := pg_bVerbose p;
     pg_ignoredErrors := pg_ignoredErrors p; pg_testArgs := pg_testArgs p;
     pg_window := pg_window p; pg_loading := b |}.

(** Run [f] inside page [pid]. *)
Definition in_page {A} (pid : nat) (f : Window -> A * Window) : M A :=
  fun st =>
    match pages st !! pid with
    | Some p =>
        let '(a, w) := f (pg_window p) in
        (Ok a, set_pages (<[pid := set_window w p]> (pages st)) st)
    | None => (Throw "phantom-tester: no such page", st)
    end.

Definition set_polyfillPaths (v : option (list string)) (t : tester) : tester :=
  {| _xunit := _xunit t; _config := _config t; _testArgs := _testArgs t;
     _polyfillPaths := v; _userScriptPaths := _userScriptPaths t;
     _registeredSuites := _registeredSuites t; _exitCodes := _exitCodes t |}.
Definition set_userScriptPaths (v : option (list string)) (t : tester) : tester :=
  {| _xunit := _xunit t; _config := _config t; _testArgs := _testArgs t;
     _polyfillPaths := _polyfillPaths t; _userScriptPaths := v;
     _registeredSuites := _registeredSuites t; _exitCodes := _exitCodes t |}.
Definition set_config (v : config) (t : tester) : tester :=
  {| _xunit := _xunit t; _config := v; _testArgs := _testArgs t;
     _polyfillPaths := _polyfillPaths t; _userScriptPaths := _userScriptPaths t;
     _registeredSuites := _registeredSuites t; _exitCodes := _exitCodes t |}.
Definition set_testArgs (v : jsval) (t : tester) : tester :=
  {| _xunit := _xunit t; _config := _config t; _testArgs := v;
     _polyfillPaths := _polyfillPaths t; _userScriptPaths := _userScriptPaths t;
     _registeredSuites := _registeredSuites t; _exitCodes := _exitCodes t |}.
Definition set_xunit (v : option (string -> Window -> Window)) (t : tester) : tester :=
  {| _xunit := v; _config := _config t; _testArgs := _testArgs t;
     _polyfillPaths := _polyfillPaths t; _userScriptPaths := _userScriptPaths t;
     _registeredSuites := _registeredSuites t; _exitCodes := _exitCodes t |}.
Definition set_registeredSuites (v : list suite_args) (t : tester) : tester :=
  {| _xunit := _xunit t; _config := _config t; _testArgs := _testArgs t;
     _polyfillPaths := _polyfillPaths t; _userScriptPaths := _userScriptPaths t;
     _registeredSuites := v; _exitCodes := _exitCodes t |}.
Definition set_exitCodes (v : list Z) (t : tester) : tester :=
  {| _xunit := _xunit t; _config := _config t; _testArgs := _testArgs t;
     _polyfillPaths := _polyfillPaths t; _userScriptPaths := _userScriptPaths t;
     _registeredSuites := _registeredSuites t; _exitCodes := v |}.

(** The module object as the source file leaves it. *)
Definition module_exports : tester :=
  {| _xunit := None;
     _config := {| cf_phantom := None |};
     _testArgs := JObj [];
     _polyfillPaths := Some [];
     _userScriptPaths := Some [];
     _registeredSuites := [];
     _exitCodes := [] |}.

(** [Array(11).join("-")]. *)
Definition br : string := "----------".

(** What the page driver tells the script. *)
Inductive driver_event :=
| Initialized (pid : nat)
| LoadFinished (pid : nat) (status : string)
| PageError (pid : nat) (msg : string) (trace : option (list frame))
| ConsoleMessage (pid : nat) (msg : string).

(** The calls a test script makes on the module before [start()]. *)
Inductive api_call :=
| call_userScript (path : string)
| call_polyfill (path : string)
| call_setConfig (cfgObj : config)
| call_setTestArgs (args : jsval)
| call_setXUnit (xunit : string -> Window -> Window)
| call_registerSuite (url : string) (gatherTests : feeder).

Definition magicString : string := "ASSERT_FAIL".

Definition empty_phantom : phantom_cfg :=
  {| ph_debug := JUndefined; ph_verbose := JUndefined; ph_ignoredErrors := None |}.

(** Truthiness and printing of a property that is a string when present. *)
Definition opt_truthy (o : option string) : bool :=
  match o with
  | Some s => negb (String.eqb s "")
  | None => false
  end.
Definition opt_str (o : option string) : string := default "undefined" o.

Definition site_name (site : inject_site) : string :=
  match site with
  | Polyfill => "polyfill"
  | UserScript => "userscript"
  end.

(** ** What the specification says, for comparison *)

(** The message "with the marker text stripped": the message without the
    first occurrence of the marker. *)
Fixpoint spec_strip_marker (msg : string) : string :=
  match msg with
  | EmptyString => EmptyString
  | String c rest =>
      if String.prefix magicString msg then slice (String.length magicString) msg
      else String c (spec_strip_marker rest)
  end.


(** The registrations made by a test script, in order. *)
Definition registered (setup : list api_call) : list suite_args :=
  omap (fun c =>
          match c with
          | call_registerSuite url gatherTests =>
              Some {| a_url := url; a_feed := gatherTests; a_pushed := [] |}
          | _ => None
          end) setup.

(** ** Sample collaborators and suites *)

Definition plain : colors :=
  {| green := id; red := id; yellow := id; bold := id |}.

(** A driver whose injections succeed except for the file [bad]. *)
Definition inject_except (bad : string) (pid : nat) (path : string) (w : Window)
  : option Window :=
  if String.eqb path bad then None else Some w.

Definition sample_env (args : list string) (bad : string) : env :=
  {| system_args := args;
     colors_lib := plain;
     injectJs := inject_except bad;
     client_xunit := spec_xunit;
     client_wrapWithTryCatch := spec_wrapWithTryCatch |}.

(** An assertion that holds, and one that does not, on the counters that
    [spec_xunit] installs under the name [assert]. *)
Definition bump (good bad : Z) (w : Window) : Window :=
  match w !! "assert" with
  | Some t =>
      <["assert" := {| _goodAsserts := _goodAsserts t + good;
                       _badAsserts := _badAsserts t + bad |}]> w
  | None => w
  end.

Definition passing : test_fn := fun _ w => (Returns, bump 1 0 w).
Definition failing : test_fn :=
  fun _ w => (Throws "Error: ASSERT_FAIL: 1 != 2", bump 0 1 w).

(** A page with the debug flag on and one ignored error, whose counters
    read 2 good and 1 bad asserts, and a heap that holds just this page. *)
Definition sample_page : page :=
  {| pg_url := "http://a/"; pg_feed := []; pg_suiteId := 0;
     pg_done := {| cb_n := 0; cb_nSuites := 1 |};
     pg_bDebug := JBool true; pg_bVerbose := JBool false;
     pg_ignoredErrors := Some ["ResizeObserver"]; pg_testArgs := JObj [];
     pg_window := {["assert" := {| _goodAsserts := 2; _badAsserts := 1 |}]};
     pg_loading := false |}.

Definition sample_state : state :=
  {| this :=
       set_config
         {| cf_phantom :=
              Some {| ph_debug := JBool false; ph_verbose := JUndefined;
                      ph_ignoredErrors := None |} |}
         module_exports;
     pages := [sample_page];
     out := [];
     exited := None |}.

Definition sample_frame : frame :=
  {| fr_file := Some "a.js"; fr_sourceURL := None; fr_line := 12;
     fr_function := Some "f" |}.

(** A frame that names no file and no function. *)
Definition bare_frame : frame :=
  {| fr_file := None; fr_sourceURL := Some "http://a/lib.js"; fr_line := 3;
     fr_function := None |}.

(** A heap whose configuration turns the debug flag on and ignores one
    error. *)
Definition debug_state : state :=
  {| this :=
       set_config
         {| cf_phantom :=
              Some {| ph_debug := JBool true; ph_verbose := JUndefined;
                      ph_ignoredErrors := Some ["ResizeObserver"] |} |}
         module_exports;
     pages := [sample_page];
     out := [];
     exited := None |}.

Definition one_suite : list api_call :=
  [call_polyfill "pf.js"; call_userScript "us.js";
   call_registerSuite "http://a/" [("t1", passing); ("t2", failing); ("t3", passing)]].

Definition two_suites : list api_call :=
  [call_polyfill "pf.js"; call_userScript "us.js";
   call_registerSuite "http://a/" [("t1", failing)];
   call_registerSuite "http://b/" [("t1", passing); ("t2", passing); ("t3", passing)]].

(** A script whose two suites hold passing tests only. *)
Definition green_suites : list api_call :=
  [call_polyfill "pf.js"; call_userScript "us.js";
   call_registerSuite "http://a/" [("t1", passing)];
   call_registerSuite "http://b/" [("t1", passing)]].



Section PhantomTester.

Variable E : env.

(** [var CFG = parseCommandLineCfg();] *)
Definition CFG : cfg := fst (parseCommandLineCfg (system_args E)).

(** The [colors] getters on strings; [colors.mode = "none"] turns them off. *)
Definition styled (f : colors -> string -> string) (s : string) : string :=
  if cfg_color CFG then f (colors_lib E) s else s.

Definition console_log_call (s : string) : M unit := emit (console_log s).
Definition console_error_call (s : string) : M unit := emit (console_error s).

(** ** [getTestRunner] *)

(** [testRunner(testName, testFn)] on the queue [pendingTests]. *)
Definition testRunner (pendingTests : list test) (name : string) (fn : test_fn)
  : list test :=
  pendingTests ++ [ {| testName := name; testFn := fn |} ].

(** [feedRunnerWithTests(testRunner)]. *)
Definition feedRunnerWithTests (f : feeder) (pendingTests : list test) : list test :=
  fold_left (fun q d => testRunner q (fst d) (snd d)) f pendingTests.

Definition page_evaluate_test_call (pid : nat) (t : test) (testArgs : jsval) : M jsval :=
  ok <- in_page pid (client_wrapWithTryCatch E (testFn t) testArgs) ;;
  emit (page_evaluate_test pid (testName t) ok) ;;
  ret ok.

(** [testRunner.start()]: the loop shifts the head off the queue. *)
Fixpoint testRunner_start (pid : nat) (testArgs : jsval) (pendingTests : list test)
  : M unit :=
  match pendingTests with
  | [] => ret tt
  | t :: pendingTests' =>
      ok <- page_evaluate_test_call pid t testArgs ;;
      console_log_call
        ((if truthy ok then styled bold (styled green " [ OK ] ")
          else styled bold (styled red " [FAIL] ")) +:+ testName t) ;;
      testRunner_start pid testArgs pendingTests'
  end.

(** ** [openAndTest] *)

Definition verbose_log (bVerbose : jsval) (msg : string) : M unit :=
  if truthy bVerbose then console_log_call msg else ret tt.

Definition webpage_create_call (p : page) : M nat :=
  fun st =>
    let pid := length (pages st) in
    (Ok pid,
     set_out (webpage_create pid (pg_suiteId p) :: out st)
       (set_pages (pages st ++ [p]) st)).

Definition page_open_call (pid : nat) (url : string) : M unit :=
  fun st =>
    match pages st !! pid with
    | Some p =>
        (Ok tt,
         set_out (page_open pid url :: out st)
           (set_pages (<[pid := set_loading true p]> (pages st)) st))
    | None => (Throw "phantom-tester: no such page", st)
    end.

Definition openAndTest (url : string) (feed : feeder) (suiteId : nat) (done : done_cb)
  : M unit :=
  t <- get_this ;;
  let userConf_phantom := default empty_phantom (cf_phantom (_config t)) in
  put_this (set_config {| cf_phantom := Some userConf_phantom |} t) ;;
  let bDebug :=
    match ph_debug userConf_phantom with
    | JUndefined => JBool (cfg_debug CFG)
    | v => v
    end in
  let bVerbose :=
    match ph_verbose userConf_phantom with
    | JUndefined => JBool (cfg_verbose CFG)
    | v => v
    end in
  let testArgs := if truthy (_testArgs t) then _testArgs t else JObj [] in
  let ignoredErrors := ph_ignoredErrors userConf_phantom in
  pid <- webpage_create_call
           {| pg_url := url; pg_feed := feed; pg_suiteId := suiteId; pg_done := done;
              pg_bDebug := bDebug; pg_bVerbose := bVerbose;
              pg_ignoredErrors := ignoredErrors; pg_testArgs := testArgs;
              pg_window := ∅; pg_loading := false |} ;;
  page_open_call pid url.

(** [page.onConsoleMessage]. *)
Definition onConsoleMessage (msg : string) : M unit :=
  let padding := "  >>> " in
  console_log_call (padding +:+ replace_newlines (nl +:+ padding) msg).

(** One line of the stack printed by [page.onError]. *)
Definition render_frame (t : frame) : string :=
  " -> " +:+ opt_str (if opt_truthy (fr_file t) then fr_file t else fr_sourceURL t)
  +:+ ": " +:+ str_of_Z (fr_line t)
  +:+ (if opt_truthy (fr_function t)
       then " (in function " +:+ opt_str (fr_function t) +:+ ")"
       else "").

(** [page.onError]. *)
Definition onError (p : page) (msg : string) (trace : option (list frame)) : M unit :=
  let isAssertFail := indexOf msg magicString >=? 0 in
  (if truthy (pg_bDebug p) && negb isAssertFail then
     let ignore :=
       match pg_ignoredErrors p with
       | Some l => existsb (fun ignoredMsg => indexOf msg ignoredMsg >? -1) l
       | None => false
       end in
     if negb ignore then
       let msgStack := ["PHANTOM ERROR: " +:+ msg] in
       let msgStack :=
         match trace with
         | Some (f :: tr) => msgStack ++ map render_frame (f :: tr) ++ [""]
         | _ => msgStack
         end in
       console_error_call (join nl msgStack)
     else ret tt
   else ret tt) ;;
  if isAssertFail then
    let strip := 7%nat in
    console_error_call (slice strip msg)
  else ret tt.

Definition page_injectJs_call (pid : nat) (site : inject_site) (path : string) : M bool :=
  fun st =>
    match pages st !! pid with
    | Some p =>
        match injectJs E pid path (pg_window p) with
        | Some w =>
            (Ok true,
             set_out (page_injectJs pid site path true :: out st)
               (set_pages (<[pid := set_window w p]> (pages st)) st))
        | None => (Ok false, set_out (page_injectJs pid site path false :: out st) st)
        end
    | None => (Throw "phantom-tester: no such page", st)
    end.

(** The injection loop of [page.onInitialized] and of the [page.open]
    callback. *)
Fixpoint inject_loop (pid : nat) (site : inject_site) (bVerbose : jsval)
  (paths : list string) : M unit :=
  match paths with
  | [] => ret tt
  | path :: paths' =>
      verbose_log bVerbose
        (" * Injecting the " +:+ site_name site +:+ "... (" +:+ path +:+ ")") ;;
      injected <- page_injectJs_call pid site path ;;
      if injected : bool then inject_loop pid site bVerbose paths'
      else throw ("Can't inject " +:+ site_name site +:+ " into the page...")
  end.

(** [page.onInitialized]. *)
Definition onInitialized (pid : nat) (p : page) : M unit :=
  t <- get_this ;;
  match _polyfillPaths t with
  | None => throw "phantom-tester: _polyfillPaths is not defined"
  | Some pfPaths => inject_loop pid Polyfill (pg_bVerbose p) pfPaths
  end.

(** ** [onTestSuiteFinished] *)

Definition page_evaluate_tally_call (pid : nat) (xunitVarName : string)
  : M (option Tally) :=
  asserts <- in_page pid (fun w => (w !! xunitVarName, w)) ;;
  emit (page_evaluate_tally pid xunitVarName) ;;
  ret asserts.

Definition onTestSuiteFinished (pid : nat) (suite_id suite_count : nat)
  (done : Z -> M unit) : M unit :=
  asserts <- page_evaluate_tally_call pid (cfg_xunitName CFG) ;;
  match asserts with
  | None => throw "TypeError: undefined is not an object (evaluating asserts._badAsserts)"
  | Some asserts =>
      let hasFailures := _badAsserts asserts >? 0 in
      let msg :=
        nl +:+ "  Test suite " +:+ str_of_nat (suite_id + 1) +:+ "/"
        +:+ str_of_nat suite_count +:+ " finished: " in
      let msg :=
        msg +:+ styled bold (styled green (str_of_Z (_goodAsserts asserts) +:+ " asserts OK")) in
      let msg :=
        if hasFailures
        then msg +:+ "; "
             +:+ styled bold (styled red (str_of_Z (_badAsserts asserts) +:+ " asserts KO"))
        else msg in
      console_log_call (msg +:+ nl) ;;
      done (if hasFailures then 99 else 0)
  end.

(** ** The exported module *)

Definition userScript (userScriptPath : string) : M unit :=
  t <- get_this ;;
  match _userScriptPaths t with
  | Some l => put_this (set_userScriptPaths (Some (l ++ [userScriptPath])) t)
  | None => throw "TypeError: undefined is not an object (evaluating this._userScriptPaths.push)"
  end.

Definition polyfill (polyfillPath : string) : M unit :=
  t <- get_this ;;
  match _polyfillPaths t with
  | Some l => put_this (set_polyfillPaths (Some (l ++ [polyfillPath])) t)
  | None => throw "TypeError: undefined is not an object (evaluating this._polyfillPaths.push)"
  end.

Definition setConfig (cfgObj : config) : M unit :=
  t <- get_this ;; put_this (set_config cfgObj t).

Definition setTestArgs (args : jsval) : M unit :=
  t <- get_this ;; put_this (set_testArgs args t).

Definition setXUnit (xunit : string -> Window -> Window) : M unit :=
  t <- get_this ;; put_this (set_xunit (Some xunit) t).

(** [registerSuite], called as documented: with a url and a gathering
    function.  The entry is the arguments array; [_startSuite] pushes the
    suite number and the completion callback onto that same array. *)
Definition registerSuite (url : string) (gatherTests : feeder) : M unit :=
  t <- get_this ;;
  put_this
    (set_registeredSuites
       (_registeredSuites t ++ [ {| a_url := url; a_feed := gatherTests; a_pushed := [] |} ])
       t).

Definition _getSuiteDoneCb (n : nat) : M done_cb :=
  t <- get_this ;;
  ret {| cb_n := n; cb_nSuites := length (_registeredSuites t) |}.

Definition _startSuite (n : nat) : M unit :=
  t <- get_this ;;
  let nSuites := length (_registeredSuites t) in
  match _registeredSuites t !! n with
  | None => throw "TypeError: undefined is not an object (evaluating args[0])"
  | Some args =>
      let url := a_url args in
      (if (0 <? n)%nat then console_log_call (br +:+ nl) else ret tt) ;;
      console_log_call
        ("Starting test suite " +:+ str_of_nat (n + 1) +:+ "/" +:+ str_of_nat nSuites
         +:+ ": " +:+ styled yellow url +:+ nl) ;;
      cb <- _getSuiteDoneCb n ;;
      let pushed := a_pushed args ++ [(n, cb)] in
      t' <- get_this ;;
      put_this
        (set_registeredSuites
           (<[n := {| a_url := url; a_feed := a_feed args; a_pushed := pushed |}]>
              (_registeredSuites t'))
           t') ;;
      let third_fourth := hd (n, cb) pushed in
      openAndTest url (a_feed args) (fst third_fourth) (snd third_fourth)
  end.

(** The function returned by [_getSuiteDoneCb(n)]. *)
Definition suiteDoneCb (cb : done_cb) (exitCode : Z) : M unit :=
  emit (suite_done (cb_n cb) exitCode) ;;
  t <- get_this ;;
  put_this (set_exitCodes (_exitCodes t ++ [exitCode]) t) ;;
  let nextSuiteId := (cb_n cb + 1)%nat in
  if (nextSuiteId <? cb_nSuites cb)%nat then _startSuite nextSuiteId
  else
    t' <- get_this ;;
    let hasError := array_indexOf Z.eqb (_exitCodes t') 99 >? -1 in
    let msg := "All suites finished; " in
    let msg :=
      if hasError then styled red (msg +:+ "there were some failures.")
      else styled green (msg +:+ "OK") in
    console_log_call msg ;;
    phantom_exit_call (if hasError then 99 else 0).

Definition start : M unit :=
  t <- get_this ;;
  if (0 <? length (_registeredSuites t))%nat then _startSuite 0
  else
    console_error_call "No suites registered!" ;;
    phantom_exit_call 98.

(** The callback given to [page.open]. *)
Definition page_evaluate_xunit_call (pid : nat) (xunit : string -> Window -> Window)
  (name : string) : M unit :=
  in_page pid (fun w => (tt, xunit name w)) ;;
  emit (page_evaluate_xunit pid name).

Definition open_callback (pid : nat) (p : page) (status : string) : M unit :=
  let log := verbose_log (pg_bVerbose p) in
  log " Initializing the test:" ;;
  log (" * Page loaded with status " +:+ status) ;;
  t <- get_this ;;
  match _userScriptPaths t with
  | None => throw "phantom-tester: _userScriptPaths is not defined"
  | Some usPaths =>
      inject_loop pid UserScript (pg_bVerbose p) usPaths ;;
      log " * Injecting the unit test utils... " ;;
      t1 <- get_this ;;
      match _xunit t1 with
      | Some _ => log " * Using user-supplied xunit... "
      | None => ret tt
      end ;;
      page_evaluate_xunit_call pid (default (client_xunit E) (_xunit t1))
        (cfg_xunitName CFG) ;;
      log (" * Starting the tests... " +:+ nl) ;;
      let pendingTests := feedRunnerWithTests (pg_feed p) [] in
      testRunner_start pid (pg_testArgs p) pendingTests ;;
      t2 <- get_this ;;
      onTestSuiteFinished pid (pg_suiteId p) (length (_registeredSuites t2))
        (suiteDoneCb (pg_done p))
  end.

(** ** The event loop *)

Definition call (c : api_call) : M unit :=
  match c with
  | call_userScript path => userScript path
  | call_polyfill path => polyfill path
  | call_setConfig cfgObj => setConfig cfgObj
  | call_setTestArgs args => setTestArgs args
  | call_setXUnit xunit => setXUnit xunit
  | call_registerSuite url gatherTests => registerSuite url gatherTests
  end.

Definition clear_loading (pid : nat) : M unit :=
  fun st =>
    (Ok tt, set_pages (alter (set_loading false) pid (pages st)) st).

(** The callback of an event: a page's [onInitialized], [onError] and
    [onConsoleMessage] handlers whenever the driver calls them, the callback
    given to [page.open] once, when the load finishes. *)
Definition dispatch (ev : driver_event) : M unit :=
  fun st =>
    match ev with
    | Initialized pid =>
        match pages st !! pid with
        | Some p => onInitialized pid p st
        | None => (Ok tt, st)
        end
    | LoadFinished pid status =>
        match pages st !! pid with
        | Some p =>
            if pg_loading p
            then (clear_loading pid ;; open_callback pid p status) st
            else (Ok tt, st)
        | None => (Ok tt, st)
        end
    | PageError pid msg trace =>
        match pages st !! pid with
        | Some p => onError p msg trace st
        | None => (Ok tt, st)
        end
    | ConsoleMessage pid msg =>
        match pages st !! pid with
        | Some _ => onConsoleMessage msg st
        | None => (Ok tt, st)
        end
    end.

(** One turn of the script: nothing runs once [phantom.exit] was called.  An
    error that no callback catches unwinds the turn it was thrown in and no
    more: PhantomJS reports it and goes on with the next event, and the
    script installs no [phantom.onError] that would exit. *)
Definition turn (c : M unit) (st : state) : state :=
  match exited st with
  | Some _ => st
  | None =>
      match c st with
      | (Ok _, st') => st'
      | (Throw msg, st') => set_out (uncaught msg :: out st') st'
      end
  end.

Definition step (st : state) (ev : driver_event) : state := turn (dispatch ev) st.

Definition initial_state : state :=
  {| this := module_exports;
     pages := [];
     out := rev (snd (parseCommandLineCfg (system_args E)));
     exited := None |}.

(** The test script: its calls on the module, in order. *)
Definition configure (setup : list api_call) : M unit :=
  fold_right (fun c k => call c ;; k) (ret tt) setup.

(** A run: the test script configures the module and calls [start()], then
    the page driver's events arrive. *)
Definition run (setup : list api_call) (events : list driver_event) : state :=
  fold_left step events (turn (configure setup ;; start) initial_state).

(** Everything observed so far, oldest first. *)
Definition trace (st : state) : list event := rev (out st).

(** The line [testRunner.start] prints for a test. *)
Definition verdict_line (ok : jsval) (name : string) : string :=
  (if truthy ok then styled bold (styled green " [ OK ] ")
   else styled bold (styled red " [FAIL] ")) +:+ name.

(** What the specification asks of a drain: each declared test, in
    declaration order, is evaluated once, in the page its predecessors left,
    and prints one line, whatever the verdicts of the tests before it. *)
Fixpoint spec_drain (pid : nat) (testArgs : jsval) (decls : feeder) (w : Window)
  : list event * Window :=
  match decls with
  | [] => ([], w)
  | d :: rest =>
      let r := client_wrapWithTryCatch E (snd d) testArgs w in
      let r' := spec_drain pid testArgs rest (snd r) in
      (page_evaluate_test pid (fst d) (fst r)
         :: console_log (verdict_line (fst r) (fst d)) :: fst r',
       snd r')
  end.

(** The names of the tests evaluated in a stretch of the trace. *)
Definition evaluated_tests (evs : list event) : list string :=
  omap (fun e => match e with page_evaluate_test _ n _ => Some n | _ => None end) evs.

(** The lines printed with [console.log] in a stretch of the trace. *)
Definition logged_lines (evs : list event) : list string :=
  omap (fun e => match e with console_log s => Some s | _ => None end) evs.

(** ** The schedule of a run *)

(** The events that make up the schedule of the suites. *)
Definition is_sched (e : event) : bool :=
  match e with
  | webpage_create _ _ | page_open _ _ | suite_done _ _ | phantom_exit _ => true
  | _ => false
  end.

(** What a callback may do while no page waits for its load: print, and
    inject polyfills. *)
Definition is_calm (e : event) : bool :=
  match e with
  | console_log _ | console_error _ | page_injectJs _ Polyfill _ _ | uncaught _ => true
  | _ => false
  end.

(** What the [page.open] callback may do before it reads the counters. *)
Definition is_prelude (e : event) : bool :=
  match e with
  | console_log _ | page_injectJs _ UserScript _ _ | page_evaluate_xunit _ _
  | page_evaluate_test _ _ _ => true
  | _ => false
  end.

(** The schedule of the suites from number [n] on, with the urls of the
    suites started and the exit codes of the suites finished: one page per
    suite, and the next one only after the callback of the one before. *)
Fixpoint schedule (n : nat) (urls : list string) (codes : list Z) : list event :=
  match urls with
  | [] => []
  | u :: urls' =>
      webpage_create n n :: page_open n u
        :: match codes with
           | [] => []
           | c :: codes' => suite_done n c :: schedule (S n) urls' codes'
           end
  end.

(** The pages created, with the suite each is for; the pages opened, with
    their urls; the completion callbacks entered, with their exit codes. *)
Definition creations (evs : list event) : list (nat * nat) :=
  omap (fun e => match e with webpage_create pid n => Some (pid, n) | _ => None end) evs.
Definition opens (evs : list event) : list (nat * string) :=
  omap (fun e => match e with page_open pid u => Some (pid, u) | _ => None end) evs.
Definition dones (evs : list event) : list (nat * Z) :=
  omap (fun e => match e with suite_done n c => Some (n, c) | _ => None end) evs.

(** The injections asked of the driver at a call site, with their results. *)
Definition injections (site : inject_site) (evs : list event) : list (string * bool) :=
  omap (fun e =>
          match e with
          | page_injectJs _ s path ok =>
              match site, s with
              | Polyfill, Polyfill | UserScript, UserScript => Some (path, ok)
              | _, _ => None
              end
          | _ => None
          end) evs.

(** The lines of the log. *)
Definition is_log (e : event) : bool :=
  match e with
  | console_log _ => true
  | _ => false
  end.

(** What a callback leaves in the output when an injection fails: lines
    of the verbose log, the injections asked for, the error. *)
Definition is_abort (e : event) : bool :=
  match e with
  | console_log _ | page_injectJs _ _ _ _ | uncaught _ => true
  | _ => false
  end.

(** The exit code of the run, from the recorded codes. *)
Definition final_code (codes : list Z) : Z :=
  if array_indexOf Z.eqb codes 99 >? -1 then 99 else 0.

(** The closure that [_getSuiteDoneCb(i)] returns when [N] suites are
    registered, and a registry entry once [_startSuite(i)] has run. *)
Definition cb_of (N i : nat) : done_cb := {| cb_n := i; cb_nSuites := N |}.

Definition started_args (N i : nat) (a : suite_args) : suite_args :=
  {| a_url := a_url a; a_feed := a_feed a;
     a_pushed := a_pushed a ++ [(i, cb_of N i)] |}.

Definition started_upto (k : nat) (regs : list suite_args) : list suite_args :=
  imap (fun i a => if (i <? k)%nat then started_args (length regs) i a else a) regs.

(** What the schedule needs to know of a page. *)
Definition pinfo (p : page) : nat * done_cb * bool :=
  (pg_suiteId p, pg_done p, pg_loading p).

(** The part of the [page.open] callback before the counters are read. *)
Definition open_callback_prelude (pid : nat) (p : page) (status : string) : M unit :=
  let log := verbose_log (pg_bVerbose p) in
  log " Initializing the test:" ;;
  log (" * Page loaded with status " +:+ status) ;;
  t <- get_this ;;
  match _userScriptPaths t with
  | None => throw "phantom-tester: _userScriptPaths is not defined"
  | Some usPaths =>
      inject_loop pid UserScript (pg_bVerbose p) usPaths ;;
      log " * Injecting the unit test utils... " ;;
      t1 <- get_this ;;
      match _xunit t1 with
      | Some _ => log " * Using user-supplied xunit... "
      | None => ret tt
      end ;;
      page_evaluate_xunit_call pid (default (client_xunit E) (_xunit t1))
        (cfg_xunitName CFG) ;;
      log (" * Starting the tests... " +:+ nl) ;;
      testRunner_start pid (pg_testArgs p) (feedRunnerWithTests (pg_feed p) [])
  end.

(** The last statement of the function that [_getSuiteDoneCb] returns. *)
Definition finalize : M unit :=
  t' <- get_this ;;
  let hasError := array_indexOf Z.eqb (_exitCodes t') 99 >? -1 in
  let msg := "All suites finished; " in
  let msg :=
    if hasError then styled red (msg +:+ "there were some failures.")
    else styled green (msg +:+ "OK") in
  console_log_call msg ;;
  phantom_exit_call (if hasError then 99 else 0).

(** What [phantom.exit] adds to the schedule. *)
Definition exit_tail (x : option Z) : list event :=
  match x with
  | Some c => [phantom_exit c]
  | None => []
  end.

(** The states of a run after [start()], for the registrations [regs]:
    suites 0 to [m] have been started, each with a page of its own, only the
    page of suite [m] may still wait for its load ([b]), and the output
    holds the schedule of these suites with the codes recorded so far. *)
Definition Inv_at (regs : list suite_args) (m : nat) (b : bool) (st : state) : Prop :=
  (m < length regs)%nat
  /\ map pinfo (pages st)
     = map (fun i => (i, cb_of (length regs) i, false)) (seq 0 m)
         ++ [(m, cb_of (length regs) m, b)]
  /\ _registeredSuites (this st) = started_upto (S m) regs
  /\ List.filter is_sched (trace st)
     = schedule 0 (map a_url (take (S m) regs)) (_exitCodes (this st))
         ++ exit_tail (exited st)
  /\ match exited st with
     | None => length (_exitCodes (this st)) = m
     | Some c =>
         b = false /\ S m = length regs
         /\ length (_exitCodes (this st)) = S m
         /\ c = final_code (_exitCodes (this st))
     end.

Definition Inv (regs : list suite_args) (st : state) : Prop :=
  exists (m : nat) (b : bool), Inv_at regs m b st.

(** ** More of the script, for its further properties *)

(** The lines of a text: the pieces between its line feeds. *)
Fixpoint lines (s : string) : list string :=
  match s with
  | EmptyString => [EmptyString]
  | String c s' =>
      if Ascii.eqb c LF then EmptyString :: lines s'
      else match lines s' with
           | l :: ls => String c l :: ls
           | [] => [String c EmptyString]
           end
  end.

(** What a test script has configured when it is done: the paths given to
    [polyfill] and to [userScript], in call order, and the object of its
    last [setConfig]. *)
Definition polyfills_of (setup : list api_call) : list string :=
  omap (fun c => match c with call_polyfill path => Some path | _ => None end) setup.

Definition userScripts_of (setup : list api_call) : list string :=
  omap (fun c => match c with call_userScript path => Some path | _ => None end) setup.

Definition config_of (setup : list api_call) : config :=
  fold_left (fun acc c => match c with call_setConfig cfgObj => cfgObj | _ => acc end)
    setup {| cf_phantom := None |}.

Definition xunit_of (setup : list api_call) : option (string -> Window -> Window) :=
  fold_left (fun acc c => match c with call_setXUnit x => Some x | _ => acc end)
    setup None.

(** A string without line terminators. *)
Fixpoint one_line (s : string) : bool :=
  match s with
  | EmptyString => true
  | String c s' => negb (terminator_at s) && one_line s'
  end.

(** What the module object holds besides the registry, the exit codes and
    the configuration object. *)
Definition settings (t : tester)
  : option (string -> Window -> Window) * jsval * option (list string)
    * option (list string) :=
  (_xunit t, _testArgs t, _polyfillPaths t, _userScriptPaths t).

(** [regular_on P st c]: run from [st], the computation [c] adds events
    that satisfy [P] to the output, leaves the settings alone, and does the
    same whatever the output held before. *)
Definition regular_on {A} (P : event -> bool) (st : state) (c : M A) : Prop :=
  exists evs,
    out (snd (c st)) = evs ++ out st
    /\ forallb P evs = true
    /\ settings (this (snd (c st))) = settings (this st)
    /\ forall o, c (set_out o st) = (fst (c st), set_out (evs ++ o) (snd (c st))).

(** The lines printed with [console.log] or [console.error]. *)
Definition is_console (e : event) : bool :=
  match e with
  | console_log _ | console_error _ => true
  | _ => false
  end.

(** What the [page.open] callback may do from the reading of the counters
    on. *)
Definition is_tail (e : event) : bool :=
  match e with
  | console_log _ | console_error _ | page_evaluate_tally _ _ | suite_done _ _
  | webpage_create _ _ | page_open _ _ | phantom_exit _ | uncaught _ => true
  | _ => false
  end.

(** The events of the driver that only report: page errors and console
    messages. *)
Definition is_noise (ev : driver_event) : bool :=
  match ev with
  | PageError _ _ _ | ConsoleMessage _ _ => true
  | _ => false
  end.




(** [qrel P st st']: from [st] to [st'] the module object, the exit status
    and the pages' bindings are the same, and what was added to the output
    satisfies [P]. *)
Definition qrel (P : event -> bool) (st st' : state) : Prop :=
  this st' = this st
  /\ exited st' = exited st
  /\ map pinfo (pages st') = map pinfo (pages st)
  /\ exists evs, out st' = evs ++ out st /\ forallb P evs = true.

Definition quiet {A} (P : event -> bool) (c : M A) : Prop :=
  forall st, qrel P st (snd (c st)).

(** * Properties *)

(** ** Strings and arrays *)

Lemma prefix_app (sub s : string) :
  String.prefix sub s = true <-> exists post, s = sub +:+ post.
Proof.
  revert s; induction sub as [|a sub IH]; intros s; simpl.
  - split; [intros _; exists s; reflexivity | intros _; now destruct s].
  - destruct s as [|b s]; simpl.
    + split; [discriminate | intros [post H]; discriminate].
    + destruct (ascii_dec a b) as [->|Hne].
      * rewrite IH. split; intros [post H]; exists post; [now rewrite H | now inversion H].
      * split; [discriminate | intros [post H]; inversion H; congruence].
Qed.

Lemma index0_cons (sub : string) (b : ascii) (s : string) :
  String.index 0 sub (String b s)
  = if String.prefix sub (String b s) then Some 0%nat
    else match String.index 0 sub s with
         | Some n => Some (S n)
         | None => None
         end.
Proof. reflexivity. Qed.

(** [indexOf] finds [sub] exactly when [s] contains it. *)
Lemma indexOf_contains (s sub : string) :
  indexOf s sub >= 0 <-> exists pre post, s = pre +:+ sub +:+ post.
Proof.
  unfold indexOf.
  assert (H : (exists i, String.index 0 sub s = Some i)
              <-> exists pre post, s = pre +:+ sub +:+ post).
  { induction s as [|b s IH]; [simpl | rewrite index0_cons].
    - destruct sub as [|a sub].
      + split; [intros _; exists "", ""; reflexivity | intros _; eauto].
      + split; [intros [i Hi]; discriminate|].
        intros (pre & post & H). destruct pre; discriminate.
    - destruct (String.prefix sub (String b s)) eqn:Hp.
      + split; [intros _ | eauto].
        apply prefix_app in Hp as [post Hp]. exists "", post. exact Hp.
      + split.
        * intros [i Hi]. destruct (String.index 0 sub s) as [j|] eqn:Hj; [|discriminate].
          destruct IH as [IH _]. destruct IH as (pre & post & H); [eauto|].
          exists (String b pre), post. simpl. now rewrite H.
        * intros (pre & post & H). destruct pre as [|c pre].
          -- simpl in H. assert (String.prefix sub (String b s) = true) as Hp'
               by (apply prefix_app; eauto). congruence.
          -- simpl in H. inversion H; subst.
             destruct IH as [_ IH]. destruct IH as [j Hj]; [eauto|].
             rewrite Hj. eauto. }
  destruct (String.index 0 sub s) as [i|].
  - split; [intros _; apply H; eauto | lia].
  - split; [lia | intros H'; apply H in H' as [i Hi]; discriminate].
Qed.

(** [a.indexOf(x) > -1] says that [x] is an element of [a]. *)
Lemma array_indexOf_In {A} (eqb : A -> A -> bool) (a : list A) (x : A) :
  (forall y z, eqb y z = true <-> y = z) ->
  (array_indexOf eqb a x >? -1) = true <-> In x a.
Proof.
  intros Heqb. unfold array_indexOf.
  assert (H : forall i, 0 <= i ->
                (array_indexOf_from eqb i a x >? -1) = true <-> In x a).
  { induction a as [|y a IH]; intros i Hi; simpl.
    - split; [intros H; lia | tauto].
    - destruct (eqb y x) eqn:Hyx.
      + apply Heqb in Hyx. split; [auto | intros _; lia].
      + rewrite IH by lia. split; [auto|]. intros [H|H]; [|exact H].
        apply Heqb in H. congruence. }
  apply H. lia.
Qed.

(** ** The heap *)

(** Running the monad's plumbing. *)
Ltac msimpl :=
  cbv beta iota zeta
    delta [bind ret emit throw get_this put_this console_log_call
           console_error_call phantom_exit_call];
  cbn [this pages out exited set_this set_pages set_out set_exited fst snd].

Lemma set_pages_id st : set_pages (pages st) st = st.
Proof. now destruct st. Qed.

Lemma set_this_id st : set_this (this st) st = st.
Proof. now destruct st. Qed.

Lemma set_window_id p : set_window (pg_window p) p = p.
Proof. now destruct p. Qed.

(** Reading from a page leaves the heap as it was. *)
Lemma in_page_read {A} (f : Window -> A) pid p st :
  pages st !! pid = Some p ->
  in_page pid (fun w => (f w, w)) st = (Ok (f (pg_window p)), st).
Proof.
  intros Hp. unfold in_page. rewrite Hp, set_window_id.
  now rewrite list_insert_id, set_pages_id.
Qed.

(** ** The Result Aggregator *)

(** C1: [onTestSuiteFinished] reads the counters of the page, prints one
    summary line and calls [done] with 99 exactly when the count of bad
    asserts is greater than 0, and with 0 otherwise; for the pair (0,0) the
    code is 0. *)
Theorem onTestSuiteFinished_exit_code
  (pid suite_id suite_count : nat) (done : Z -> M unit) (st : state) (p : page)
  (good bad : Z) :
  pages st !! pid = Some p ->
  pg_window p !! cfg_xunitName CFG
    = Some {| _goodAsserts := good; _badAsserts := bad |} ->
  exists code line,
    onTestSuiteFinished pid suite_id suite_count done st
    = done code
        (set_out (console_log line
                    :: page_evaluate_tally pid (cfg_xunitName CFG) :: out st) st)
    /\ (code = 99 <-> bad > 0)
    /\ (code = 0 <-> ~ bad > 0)
    /\ (good = 0 -> bad = 0 -> code = 0).
Proof.
  intros Hp Hw.
  unfold onTestSuiteFinished, page_evaluate_tally_call, bind at 1 2.
  rewrite (in_page_read (fun w => w !! cfg_xunitName CFG) pid p st Hp), Hw.
  cbn [emit bind ret console_log_call _badAsserts _goodAsserts set_out out].
  destruct (bad >? 0) eqn:Hb.
  - eexists 99, _. split; [reflexivity|]. lia.
  - eexists 0, _. split; [reflexivity|]. lia.
Qed.

(** ** The Error Classifier *)

Lemma indexOf_skip (sub : string) (b : ascii) (s : string) :
  String.prefix sub (String b s) = false ->
  indexOf (String b s) sub >= 0 -> indexOf s sub >= 0.
Proof.
  unfold indexOf. rewrite index0_cons. intros ->.
  destruct (String.index 0 sub s); lia.
Qed.

(** The marker does not start inside a leading "Error: ". *)
Lemma marker_after_Error (rest : string) :
  indexOf ("Error: " +:+ rest) magicString >= 0 -> indexOf rest magicString >= 0.
Proof.
  intros H. cbv [String.append] in H.
  do 7 (apply indexOf_skip in H; [|reflexivity]). exact H.
Qed.

(** C4, as the code has it: for a message that contains the marker,
    [page.onError] prints exactly one line, whatever the debug flag, the
    ignore-list and the trace; for a message that starts with "Error: ", the
    prefix that the source strips, the line is the message without that
    prefix, and the marker is still in it. *)
Theorem onError_assert_fail (p : page) (msg : string) (trace : option (list frame))
  (st : state) :
  indexOf msg magicString >= 0 ->
  exists line,
    onError p msg trace st = (Ok tt, set_out (console_error line :: out st) st)
    /\ (forall rest,
           msg = "Error: " +:+ rest ->
           line = rest /\ indexOf rest magicString >= 0).
Proof.
  intros Hm. unfold onError.
  assert ((indexOf msg magicString >=? 0) = true) as -> by lia.
  rewrite andb_false_r. exists (slice 7 msg). split; [reflexivity|].
  intros rest ->. split.
  - destruct rest; reflexivity.
  - now apply marker_after_Error.
Qed.





(** ** The flags of a page *)

(** C10: the debug flag that the callbacks of a page use is the suite
    configuration's [phantom.debug] whenever that field is defined, also
    when it is [false] and [--debug] is on the command line, and the command
    line's [--debug] otherwise; the verbose flag follows [phantom.verbose]
    and [--verbose] in the same way. *)
Theorem openAndTest_flags (url : string) (feed : feeder) (suiteId : nat)
  (done : done_cb) (st : state) :
  exists p st',
    openAndTest url feed suiteId done st = (Ok tt, st')
    /\ pages st' = pages st ++ [p]
    /\ (ph_debug (default empty_phantom (cf_phantom (_config (this st)))) <> JUndefined ->
        pg_bDebug p = ph_debug (default empty_phantom (cf_phantom (_config (this st)))))
    /\ (ph_debug (default empty_phantom (cf_phantom (_config (this st)))) = JBool false ->
        pg_bDebug p = JBool false)
    /\ (ph_debug (default empty_phantom (cf_phantom (_config (this st)))) = JUndefined ->
        pg_bDebug p = JBool (cfg_debug CFG))
    /\ (cfg_debug CFG = true <-> In "--debug" (system_args E))
    /\ (ph_verbose (default empty_phantom (cf_phantom (_config (this st)))) <> JUndefined ->
        pg_bVerbose p = ph_verbose (default empty_phantom (cf_phantom (_config (this st)))))
    /\ (ph_verbose (default empty_phantom (cf_phantom (_config (this st)))) = JBool false ->
        pg_bVerbose p = JBool false)
    /\ (ph_verbose (default empty_phantom (cf_phantom (_config (this st)))) = JUndefined ->
        pg_bVerbose p = JBool (cfg_verbose CFG))
    /\ (cfg_verbose CFG = true <-> In "--verbose" (system_args E)).
Proof.
  unfold openAndTest, bind, get_this, put_this, webpage_create_call, page_open_call.
  cbn [pages set_pages set_out set_this out this].
  rewrite lookup_app_r by reflexivity. rewrite Nat.sub_diag. cbn [lookup list_lookup].
  eexists _, _. split; [reflexivity|]. split.
  { cbn [pages set_pages set_out].
    rewrite insert_app_r_alt by reflexivity. rewrite Nat.sub_diag. reflexivity. }
  cbn [set_loading pg_bDebug pg_bVerbose].
  assert (Hargs : forall flag,
            (array_indexOf String.eqb (system_args E) flag >? -1) = true
            <-> In flag (system_args E)).
  { intros flag. apply array_indexOf_In. intros y z. apply String.eqb_eq. }
  generalize (default empty_phantom (cf_phantom (_config (this st)))) as ph.
  intros ph.
  repeat split; try (apply Hargs); try (intros H; apply Hargs; exact H).
  all: destruct (ph_debug ph), (ph_verbose ph); intros; congruence.
Qed.

(** ** The Test Queue/Runner *)

Lemma feedRunnerWithTests_queue (decls : feeder) (q : list test) :
  feedRunnerWithTests decls q
  = q ++ map (fun d => {| testName := fst d; testFn := snd d |}) decls.
Proof.
  unfold feedRunnerWithTests. revert q.
  induction decls as [|d decls IH]; intros q; simpl.
  - now rewrite app_nil_r.
  - rewrite IH. unfold testRunner. now rewrite <- app_assoc.
Qed.

Lemma testRunner_start_drains (decls : feeder) (pid : nat) (testArgs : jsval) :
  forall (st : state) (p : page),
    pages st !! pid = Some p ->
    testRunner_start pid testArgs
      (map (fun d => {| testName := fst d; testFn := snd d |}) decls) st
    = (Ok tt,
       set_out (rev (fst (spec_drain pid testArgs decls (pg_window p))) ++ out st)
         (set_pages
            (<[pid := set_window (snd (spec_drain pid testArgs decls (pg_window p))) p]>
               (pages st)) st)).
Proof.
  induction decls as [|d decls IH]; intros st p Hp.
  - simpl. unfold ret. rewrite set_window_id, list_insert_id by exact Hp.
    rewrite set_pages_id. now destruct st.
  - cbn [map testRunner_start spec_drain fst snd].
    unfold page_evaluate_test_call, bind at 1 2, in_page at 1. rewrite Hp.
    cbn [testFn testName].
    destruct (client_wrapWithTryCatch E (snd d) testArgs (pg_window p)) as [ok w1].
    msimpl.
    match goal with
    | |- testRunner_start _ _ _ ?s = _ =>
        rewrite (IH s (set_window w1 p))
    end.
    + cbn [pages set_pages set_out out pg_window set_window].
      rewrite list_insert_insert_eq.
      unfold verdict_line. cbn [rev]. rewrite <- !app_assoc. reflexivity.
    + cbn [pages set_pages set_out]. apply list_lookup_insert_eq.
      eapply lookup_lt_Some. exact Hp.
Qed.

Lemma spec_drain_evaluated pid testArgs (decls : feeder) (w : Window) :
  evaluated_tests (fst (spec_drain pid testArgs decls w)) = map fst decls.
Proof.
  revert w; induction decls as [|d decls IH]; intros w; [reflexivity|].
  cbn [spec_drain fst map]. unfold evaluated_tests in *. cbn [omap list_omap].
  now rewrite IH.
Qed.

Lemma spec_drain_logged pid testArgs (decls : feeder) (w : Window) :
  length (logged_lines (fst (spec_drain pid testArgs decls w))) = length decls.
Proof.
  revert w; induction decls as [|d decls IH]; intros w; [reflexivity|].
  cbn [spec_drain fst]. unfold logged_lines in *. cbn [omap list_omap length].
  now rewrite IH.
Qed.

(** C6: draining the queue filled by a gathering function evaluates the
    declared tests in declaration order, each one once and each in the page
    as its predecessors left it, whatever their verdicts were, and prints
    one OK or FAIL line with the test's name after each. *)
Theorem testRunner_start_fifo (pid : nat) (testArgs : jsval) (decls : feeder)
  (st : state) (p : page) :
  pages st !! pid = Some p ->
  exists st',
    testRunner_start pid testArgs (feedRunnerWithTests decls []) st = (Ok tt, st')
    /\ trace st' = trace st ++ fst (spec_drain pid testArgs decls (pg_window p))
    /\ pages st'
       = <[pid := set_window (snd (spec_drain pid testArgs decls (pg_window p))) p]>
           (pages st)
    /\ this st' = this st
    /\ exited st' = exited st
    /\ evaluated_tests (fst (spec_drain pid testArgs decls (pg_window p)))
       = map fst decls
    /\ length (logged_lines (fst (spec_drain pid testArgs decls (pg_window p))))
       = length decls.
Proof.
  intros Hp. rewrite feedRunnerWithTests_queue. cbn [app].
  rewrite (testRunner_start_drains decls pid testArgs st p Hp).
  eexists. split; [reflexivity|].
  unfold trace. cbn [out set_out pages set_pages this exited].
  rewrite rev_app_distr, rev_involutive.
  repeat split; auto using spec_drain_evaluated, spec_drain_logged.
Qed.

(** ** Callbacks that leave the schedule alone *)

Lemma qrel_refl P st : qrel P st st.
Proof. repeat split. now exists []. Qed.

Lemma qrel_trans P st1 st2 st3 : qrel P st1 st2 -> qrel P st2 st3 -> qrel P st1 st3.
Proof.
  intros (Ht & Hx & Hp & evs & Ho & Hf) (Ht' & Hx' & Hp' & evs' & Ho' & Hf').
  repeat split; try congruence.
  exists (evs' ++ evs). split.
  - rewrite Ho', Ho. now rewrite app_assoc.
  - rewrite forallb_app, Hf, Hf'. reflexivity.
Qed.

Lemma qrel_mono (P Q : event -> bool) st st' :
  (forall e, P e = true -> Q e = true) -> qrel P st st' -> qrel Q st st'.
Proof.
  intros HPQ (Ht & Hx & Hp & evs & Ho & Hf). repeat split; auto.
  exists evs. split; [exact Ho|].
  rewrite forallb_forall in *. auto.
Qed.

Lemma qrel_emit P e st : P e = true -> qrel P st (set_out (e :: out st) st).
Proof.
  intros He. repeat split. exists [e]. split; [reflexivity|].
  simpl. now rewrite He.
Qed.

Lemma quiet_ret {A} P (a : A) : quiet P (ret a).
Proof. intros st. apply qrel_refl. Qed.

Lemma quiet_throw {A} P msg : quiet P (@throw A msg).
Proof. intros st. apply qrel_refl. Qed.

Lemma quiet_get_this P : quiet P get_this.
Proof. intros st. apply qrel_refl. Qed.

Lemma quiet_emit P e : P e = true -> quiet P (emit e).
Proof. intros He st. now apply qrel_emit. Qed.

Lemma quiet_bind {A B} P (c : M A) (k : A -> M B) :
  quiet P c -> (forall a, quiet P (k a)) -> quiet P (bind c k).
Proof.
  intros Hc Hk st. unfold bind. specialize (Hc st).
  destruct (c st) as [[a|msg] st1]; [|exact Hc].
  eapply qrel_trans; [exact Hc|]. apply Hk.
Qed.

Lemma pinfo_set_window w p : pinfo (set_window w p) = pinfo p.
Proof. reflexivity. Qed.

Lemma map_pinfo_insert_window (ps : list page) pid p w :
  ps !! pid = Some p ->
  map pinfo (<[pid := set_window w p]> ps) = map pinfo ps.
Proof.
  intros Hp. change (map pinfo) with (fmap (M:=list) pinfo).
  rewrite list_fmap_insert, pinfo_set_window.
  apply list_insert_id. now rewrite list_lookup_fmap, Hp.
Qed.

Lemma quiet_in_page {A} P pid (f : Window -> A * Window) : quiet P (in_page pid f).
Proof.
  intros st. unfold in_page.
  destruct (pages st !! pid) as [p|] eqn:Hp; [|apply qrel_refl].
  destruct (f (pg_window p)) as [a w]. repeat split.
  - simpl. now apply map_pinfo_insert_window.
  - now exists [].
Qed.

Lemma quiet_verbose_log P bVerbose msg :
  (forall s, P (console_log s) = true) -> quiet P (verbose_log bVerbose msg).
Proof.
  intros HP. unfold verbose_log.
  destruct (truthy bVerbose); [apply quiet_emit, HP | apply quiet_ret].
Qed.

Lemma quiet_page_injectJs_call P pid site path :
  (forall b, P (page_injectJs pid site path b) = true) ->
  quiet P (page_injectJs_call pid site path).
Proof.
  intros HP st. unfold page_injectJs_call.
  destruct (pages st !! pid) as [p|] eqn:Hp; [|apply qrel_refl].
  destruct (injectJs E pid path (pg_window p)) as [w|].
  - repeat split.
    + simpl. now apply map_pinfo_insert_window.
    + exists [page_injectJs pid site path true]. split; [reflexivity|].
      simpl. now rewrite HP.
  - now apply qrel_emit.
Qed.

Lemma quiet_inject_loop P pid site bVerbose paths :
  (forall s, P (console_log s) = true) ->
  (forall path b, P (page_injectJs pid site path b) = true) ->
  quiet P (inject_loop pid site bVerbose paths).
Proof.
  intros Hlog Hinj. induction paths as [|path paths IH]; simpl.
  - apply quiet_ret.
  - apply quiet_bind; [now apply quiet_verbose_log|]. intros _.
    apply quiet_bind; [now apply quiet_page_injectJs_call|]. intros [|].
    + exact IH.
    + apply quiet_throw.
Qed.

Lemma quiet_testRunner_start P pid testArgs q :
  (forall s, P (console_log s) = true) ->
  (forall n ok, P (page_evaluate_test pid n ok) = true) ->
  quiet P (testRunner_start pid testArgs q).
Proof.
  intros Hlog Hev. induction q as [|t q IH]; simpl.
  - apply quiet_ret.
  - apply quiet_bind.
    + unfold page_evaluate_test_call.
      apply quiet_bind; [apply quiet_in_page|]. intros ok.
      apply quiet_bind; [apply quiet_emit, Hev | intros _; apply quiet_ret].
    + intros ok. apply quiet_bind; [apply quiet_emit, Hlog | intros _; exact IH].
Qed.

Lemma quiet_onInitialized pid p : quiet is_calm (onInitialized pid p).
Proof.
  unfold onInitialized. apply quiet_bind; [apply quiet_get_this|]. intros t.
  destruct (_polyfillPaths t); [|apply quiet_throw].
  now apply quiet_inject_loop.
Qed.

Lemma quiet_onError p msg trace : quiet is_calm (onError p msg trace).
Proof.
  unfold onError. apply quiet_bind.
  - destruct (_ && _); [|apply quiet_ret].
    destruct (negb _); [now apply quiet_emit | apply quiet_ret].
  - intros _. destruct (_ >=? _); [now apply quiet_emit | apply quiet_ret].
Qed.

Lemma quiet_onConsoleMessage msg : quiet is_calm (onConsoleMessage msg).
Proof. now apply quiet_emit. Qed.

Lemma quiet_open_callback_prelude pid p status :
  quiet is_prelude (open_callback_prelude pid p status).
Proof.
  unfold open_callback_prelude.
  apply quiet_bind; [now apply quiet_verbose_log|]. intros _.
  apply quiet_bind; [now apply quiet_verbose_log|]. intros _.
  apply quiet_bind; [apply quiet_get_this|]. intros t.
  destruct (_userScriptPaths t); [|apply quiet_throw].
  apply quiet_bind; [now apply quiet_inject_loop|]. intros _.
  apply quiet_bind; [now apply quiet_verbose_log|]. intros _.
  apply quiet_bind; [apply quiet_get_this|]. intros t1.
  apply quiet_bind.
  { destruct (_xunit t1); [now apply quiet_verbose_log | apply quiet_ret]. }
  intros _. apply quiet_bind.
  { unfold page_evaluate_xunit_call.
    apply quiet_bind; [apply quiet_in_page | intros _; now apply quiet_emit]. }
  intros _. apply quiet_bind; [now apply quiet_verbose_log|]. intros _.
  now apply quiet_testRunner_start.
Qed.

(** ** The steps of the schedule, spelled out *)

Lemma openAndTest_spec url feed suiteId done st :
  exists p t,
    openAndTest url feed suiteId done st
    = (Ok tt,
       {| this := t;
          pages := pages st ++ [p];
          out := page_open (length (pages st)) url
                   :: webpage_create (length (pages st)) suiteId :: out st;
          exited := exited st |})
    /\ pinfo p = (suiteId, done, true)
    /\ _registeredSuites t = _registeredSuites (this st)
    /\ _exitCodes t = _exitCodes (this st)
    /\ _polyfillPaths t = _polyfillPaths (this st)
    /\ _userScriptPaths t = _userScriptPaths (this st).
Proof.
  unfold openAndTest, webpage_create_call, page_open_call. msimpl.
  rewrite lookup_app_r by reflexivity. rewrite Nat.sub_diag. cbn [lookup list_lookup].
  rewrite insert_app_r_alt by reflexivity. rewrite Nat.sub_diag. cbn [insert list_insert].
  eexists _, _. split; [reflexivity|]. repeat split.
Qed.

Lemma _startSuite_spec n st a :
  _registeredSuites (this st) !! n = Some a ->
  a_pushed a = [] ->
  exists p t logs,
    _startSuite n st
    = (Ok tt,
       {| this := t;
          pages := pages st ++ [p];
          out := page_open (length (pages st)) (a_url a)
                   :: webpage_create (length (pages st)) n :: logs ++ out st;
          exited := exited st |})
    /\ pinfo p = (n, cb_of (length (_registeredSuites (this st))) n, true)
    /\ _registeredSuites t
       = <[n := started_args (length (_registeredSuites (this st))) n a]>
           (_registeredSuites (this st))
    /\ _exitCodes t = _exitCodes (this st)
    /\ _polyfillPaths t = _polyfillPaths (this st)
    /\ _userScriptPaths t = _userScriptPaths (this st)
    /\ List.filter is_sched logs = [].
Proof.
  intros Ha Hpushed. unfold _startSuite, _getSuiteDoneCb. msimpl. rewrite Ha.
  rewrite Hpushed. cbn [app hd fst snd].
  destruct (0 <? n)%nat; msimpl.
  all: match goal with
       | |- context [openAndTest ?u ?f ?i ?d ?s] =>
           destruct (openAndTest_spec u f i d s) as (p & t & Heq & Hp & Hs & Hc & Hpf & Hus);
           rewrite Heq
       end.
  all: cbn [this pages out exited set_this set_registeredSuites _registeredSuites
              _exitCodes _polyfillPaths _userScriptPaths] in *.
  - exists p, t, [console_log
                    ("Starting test suite " +:+ str_of_nat (n + 1) +:+ "/"
                     +:+ str_of_nat (length (_registeredSuites (this st))) +:+ ": "
                     +:+ styled yellow (a_url a) +:+ nl);
                  console_log (br +:+ nl)].
    split; [reflexivity|]. unfold started_args. rewrite Hpushed.
    repeat split; assumption.
  - exists p, t, [console_log
                    ("Starting test suite " +:+ str_of_nat (n + 1) +:+ "/"
                     +:+ str_of_nat (length (_registeredSuites (this st))) +:+ ": "
                     +:+ styled yellow (a_url a) +:+ nl)].
    split; [reflexivity|]. unfold started_args. rewrite Hpushed.
    repeat split; assumption.
Qed.

(** The function returned by [_getSuiteDoneCb(n)] first records the exit
    code, then starts the next suite if there is one and ends the run
    otherwise. *)
Lemma suiteDoneCb_spec (cb : done_cb) (exitCode : Z) (st : state) :
  suiteDoneCb cb exitCode st
  = (if (cb_n cb + 1 <? cb_nSuites cb)%nat then _startSuite (cb_n cb + 1) else finalize)
      (set_this (set_exitCodes (_exitCodes (this st) ++ [exitCode]) (this st))
         (set_out (suite_done (cb_n cb) exitCode :: out st) st)).
Proof.
  unfold suiteDoneCb, finalize. msimpl.
  destruct (cb_n cb + 1 <? cb_nSuites cb)%nat; reflexivity.
Qed.

Lemma finalize_spec (st : state) :
  exists line,
    finalize st
    = (Ok tt,
       {| this := this st;
          pages := pages st;
          out := phantom_exit (final_code (_exitCodes (this st)))
                   :: console_log line :: out st;
          exited := Some (final_code (_exitCodes (this st))) |}).
Proof.
  unfold finalize, final_code. msimpl. unfold set_exited, set_out. simpl.
  eexists. reflexivity.
Qed.

(** The [page.open] callback is its first part followed by the reading of
    the counters. *)
Lemma open_callback_split pid p status st :
  open_callback pid p status st
  = (open_callback_prelude pid p status ;;
     t2 <- get_this ;;
     onTestSuiteFinished pid (pg_suiteId p) (length (_registeredSuites t2))
       (suiteDoneCb (pg_done p))) st.
Proof.
  unfold open_callback, open_callback_prelude.
  cbv beta zeta delta [bind get_this].
  repeat (cbv beta iota delta [ret throw];
          once (match goal with
                | |- context [_userScriptPaths (this ?s)] =>
                    destruct (_userScriptPaths (this s))
                | |- context [_xunit (this ?s)] => destruct (_xunit (this s))
                | |- context [match ?c ?s with pair _ _ => _ end] =>
                    is_var s; destruct (c s) as [[?|?] ?]
                end));
    reflexivity.
Qed.

(** ** The shape of a schedule *)

Lemma schedule_snoc_done (urls : list string) :
  forall (n : nat) (codes : list Z) (c : Z),
    length urls = S (length codes) ->
    schedule n urls (codes ++ [c])
    = schedule n urls codes ++ [suite_done (n + length codes) c].
Proof.
  induction urls as [|u urls IH]; intros n codes c Hlen; [discriminate|].
  destruct codes as [|c0 codes]; simpl in *.
  - destruct urls; [|discriminate]. simpl. now rewrite Nat.add_0_r.
  - rewrite IH by lia. now rewrite Nat.add_succ_r.
Qed.

Lemma schedule_snoc_start (urls : list string) :
  forall (n : nat) (codes : list Z) (u : string),
    length urls = length codes ->
    schedule n (urls ++ [u]) codes
    = schedule n urls codes
        ++ [webpage_create (n + length codes) (n + length codes);
            page_open (n + length codes) u].
Proof.
  induction urls as [|u0 urls IH]; intros n codes u Hlen;
    destruct codes as [|c0 codes]; try discriminate; simpl in *.
  - now rewrite Nat.add_0_r.
  - rewrite IH by lia. now rewrite Nat.add_succ_r.
Qed.

(** In a schedule the page of suite [n + 1] comes after the callback of
    suite [n]. *)
Lemma schedule_ordered (urls : list string) :
  forall (m : nat) (codes : list Z) (tail l1 l2 : list event) (pid n : nat),
    (forall e, In e tail -> creations [e] = []) ->
    schedule m urls codes ++ tail = l1 ++ webpage_create pid (S n) :: l2 ->
    (l1 = [] /\ S n = m) \/ exists c, In (suite_done n c) l1.
Proof.
  induction urls as [|u urls IH]; intros m codes tail l1 l2 pid n Htail Heq.
  - simpl in Heq. exfalso.
    assert (Hin : In (webpage_create pid (S n)) tail)
      by (rewrite Heq; apply in_elt).
    apply Htail in Hin. discriminate.
  - simpl in Heq. destruct l1 as [|e1 l1]; simpl in Heq.
    { inversion Heq; subst. now left. }
    inversion Heq as [[He1 Hrest]]; subst e1. clear Heq.
    destruct l1 as [|e2 l1]; simpl in Hrest; [discriminate|].
    inversion Hrest as [[He2 Hrest']]; subst e2. clear Hrest.
    destruct codes as [|c codes]; simpl in Hrest'.
    + exfalso.
      assert (Hin : In (webpage_create pid (S n)) tail)
        by (rewrite Hrest'; apply in_elt).
      apply Htail in Hin. discriminate.
    + destruct l1 as [|e3 l1]; simpl in Hrest'; [discriminate|].
      inversion Hrest' as [[He3 Hrest'']]; subst e3. clear Hrest'.
      destruct (IH _ _ _ _ _ _ _ Htail Hrest'') as [[-> Hn]|[c' Hc']].
      * right. exists c. inversion Hn; subst. simpl. auto.
      * right. exists c'. simpl. auto.
Qed.

Lemma creations_schedule (urls : list string) :
  forall (n : nat) (codes : list Z),
    (length urls <= S (length codes))%nat ->
    creations (schedule n urls codes)
    = map (fun i => (i, i)) (seq n (length urls)).
Proof.
  induction urls as [|u urls IH]; intros n codes Hlen; [reflexivity|].
  cbn [schedule length seq map]. unfold creations in *. cbn [omap list_omap].
  f_equal. destruct codes as [|c codes]; simpl in Hlen.
  - destruct urls; [reflexivity | simpl in Hlen; lia].
  - cbn [omap list_omap]. apply IH. lia.
Qed.

Lemma opens_schedule (urls : list string) :
  forall (n : nat) (codes : list Z),
    (length urls <= S (length codes))%nat ->
    opens (schedule n urls codes) = zip (seq n (length urls)) urls.
Proof.
  induction urls as [|u urls IH]; intros n codes Hlen; [reflexivity|].
  cbn [schedule length seq zip zip_with]. unfold opens in *. cbn [omap list_omap].
  f_equal. destruct codes as [|c codes]; simpl in Hlen.
  - destruct urls; [reflexivity | simpl in Hlen; lia].
  - cbn [omap list_omap]. apply IH. lia.
Qed.

Lemma dones_schedule (urls : list string) :
  forall (n : nat) (codes : list Z),
    (length codes <= length urls)%nat ->
    dones (schedule n urls codes) = zip (seq n (length codes)) codes.
Proof.
  induction urls as [|u urls IH]; intros n codes Hlen.
  - destruct codes; [reflexivity | simpl in Hlen; lia].
  - cbn [schedule]. unfold dones in *. cbn [omap list_omap].
    destruct codes as [|c codes]; [reflexivity|]. simpl in Hlen.
    cbn [omap list_omap length seq zip zip_with]. f_equal. apply IH. lia.
Qed.

(** The projections of a trace see its schedule only. *)
Lemma creations_sched evs : creations (List.filter is_sched evs) = creations evs.
Proof.
  unfold creations. induction evs as [|e evs IH]; [reflexivity|].
  destruct e; simpl; first [exact IH | f_equal; exact IH].
Qed.

Lemma opens_sched evs : opens (List.filter is_sched evs) = opens evs.
Proof.
  unfold opens. induction evs as [|e evs IH]; [reflexivity|].
  destruct e; simpl; first [exact IH | f_equal; exact IH].
Qed.

Lemma dones_sched evs : dones (List.filter is_sched evs) = dones evs.
Proof.
  unfold dones. induction evs as [|e evs IH]; [reflexivity|].
  destruct e; simpl; first [exact IH | f_equal; exact IH].
Qed.

Lemma sched_trace_app (st st' : state) (evs : list event) :
  out st' = evs ++ out st ->
  List.filter is_sched (trace st')
  = List.filter is_sched (trace st) ++ List.filter is_sched (rev evs).
Proof. intros Ho. unfold trace. now rewrite Ho, rev_app_distr, List.filter_app. Qed.

Lemma sched_rev_nil evs :
  List.filter is_sched evs = [] -> List.filter is_sched (rev evs) = [].
Proof.
  intros H. induction evs as [|e evs IH]; [reflexivity|].
  simpl in *. rewrite List.filter_app. destruct (is_sched e) eqn:He; [discriminate|].
  rewrite IH by exact H. simpl. now rewrite He.
Qed.

Lemma sched_quiet_nil (P : event -> bool) evs :
  (forall e, P e = true -> is_sched e = false) ->
  forallb P evs = true -> List.filter is_sched evs = [].
Proof.
  intros HP. induction evs as [|e evs IH]; [reflexivity|]. simpl.
  intros [He Hevs]%andb_prop. rewrite (HP e He). auto.
Qed.

(** ** The registry *)

Lemma started_upto_0 regs : started_upto 0 regs = regs.
Proof.
  unfold started_upto. apply list_eq. intros i.
  rewrite list_lookup_imap. now destruct (regs !! i).
Qed.

Lemma length_started_upto k regs : length (started_upto k regs) = length regs.
Proof. apply length_imap. Qed.

Lemma lookup_started_upto_ge k regs i :
  (k <= i)%nat -> started_upto k regs !! i = regs !! i.
Proof.
  intros Hi. unfold started_upto. rewrite list_lookup_imap.
  destruct (regs !! i); [|reflexivity]. simpl.
  destruct (Nat.ltb_spec i k); [lia | reflexivity].
Qed.

Lemma started_upto_S k regs a :
  regs !! k = Some a ->
  <[k := started_args (length regs) k a]> (started_upto k regs)
  = started_upto (S k) regs.
Proof.
  intros Ha. apply list_eq. intros i. unfold started_upto.
  destruct (decide (i = k)) as [->|Hne].
  - rewrite list_lookup_insert_eq by (rewrite length_imap; eapply lookup_lt_Some, Ha).
    rewrite list_lookup_imap, Ha. simpl.
    destruct (Nat.ltb_spec k (S k)); [reflexivity | lia].
  - rewrite list_lookup_insert_ne by auto. rewrite !list_lookup_imap.
    destruct (regs !! i); [|reflexivity]. simpl.
    destruct (Nat.ltb_spec i k), (Nat.ltb_spec i (S k)); try reflexivity; lia.
Qed.

Lemma registered_pushed setup : Forall (fun a => a_pushed a = []) (registered setup).
Proof.
  unfold registered. induction setup as [|c setup IH]; [constructor|].
  destruct c; simpl; auto.
Qed.

(** The test script's calls never fail, and only [registerSuite] touches the
    registry. *)
Lemma configure_spec (setup : list api_call) :
  forall st,
    is_Some (_polyfillPaths (this st)) ->
    is_Some (_userScriptPaths (this st)) ->
    exists t,
      configure setup st = (Ok tt, set_this t st)
      /\ _registeredSuites t = _registeredSuites (this st) ++ registered setup
      /\ _exitCodes t = _exitCodes (this st)
      /\ is_Some (_polyfillPaths t)
      /\ is_Some (_userScriptPaths t).
Proof.
  induction setup as [|c setup IH]; intros st Hpf Hus.
  - exists (this st). simpl. unfold ret. rewrite set_this_id, app_nil_r. auto.
  - assert (Hc : exists t1,
               call c st = (Ok tt, set_this t1 st)
               /\ _registeredSuites t1
                  = _registeredSuites (this st) ++ registered [c]
               /\ _exitCodes t1 = _exitCodes (this st)
               /\ is_Some (_polyfillPaths t1)
               /\ is_Some (_userScriptPaths t1)).
    { destruct Hpf as [pf Hpf], Hus as [us Hus].
      destruct c; cbn [call]; unfold userScript, polyfill, setConfig, setTestArgs,
        setXUnit, registerSuite; msimpl; rewrite ?Hpf, ?Hus; msimpl;
        eexists; (split; [reflexivity|]); simpl; rewrite ?app_nil_r, ?Hpf, ?Hus;
        repeat split; eauto. }
    destruct Hc as (t1 & Hcall & Hs1 & Hc1 & Hpf1 & Hus1).
    destruct (IH (set_this t1 st) Hpf1 Hus1) as (t & Hcfg & Hs & Hc & Hpf' & Hus').
    exists t.
    change (configure (c :: setup)) with (call c ;; configure setup).
    unfold bind. rewrite Hcall, Hcfg. split; [reflexivity|].
    cbn [this set_this] in *. rewrite Hs, Hs1, Hc, Hc1.
    repeat split; auto.
    rewrite <- app_assoc. f_equal.
    unfold registered. destruct c; reflexivity.
Qed.

(** ** The invariant of a run *)

Lemma qrel_set_out P e st st' :
  P e = true -> qrel P st st' -> qrel P st (set_out (e :: out st') st').
Proof.
  intros He H. eapply qrel_trans; [exact H|]. now apply qrel_emit.
Qed.

Lemma Inv_at_qrel P regs m b st st' :
  (forall e, P e = true -> is_sched e = false) ->
  qrel P st st' -> Inv_at regs m b st -> Inv_at regs m b st'.
Proof.
  intros HP (Ht & Hx & Hp & evs & Ho & Hf) (Hm & Hpages & Hregs & Htr & Hex).
  unfold Inv_at. rewrite Ht, Hx, Hp.
  rewrite (sched_trace_app st st' evs Ho).
  rewrite (sched_rev_nil evs (sched_quiet_nil P evs HP Hf)), app_nil_r.
  auto.
Qed.

Lemma calm_not_sched e : is_calm e = true -> is_sched e = false.
Proof. destruct e; try reflexivity; try discriminate. Qed.

Lemma prelude_not_sched e : is_prelude e = true -> is_sched e = false.
Proof. destruct e; try reflexivity; try discriminate. Qed.

(** Only the page of the last suite started can wait for its load. *)
Lemma Inv_at_loading regs m b st pid p :
  Inv_at regs m b st ->
  pages st !! pid = Some p ->
  pg_loading p = true ->
  pid = m /\ b = true /\ pg_suiteId p = m /\ pg_done p = cb_of (length regs) m
  /\ exited st = None.
Proof.
  intros (Hm & Hpages & Hregs & Htr & Hex) Hp Hl.
  assert (Hi : map pinfo (pages st) !! pid = Some (pinfo p)).
  { change (map pinfo) with (fmap (M:=list) pinfo). now rewrite list_lookup_fmap, Hp. }
  rewrite Hpages in Hi. unfold pinfo in Hi. rewrite Hl in Hi.
  apply lookup_app_Some in Hi as [Hi|[Hlen Hi]].
  - change (map ?f) with (fmap (M:=list) f) in Hi.
    rewrite list_lookup_fmap in Hi.
    destruct (seq 0 m !! pid); simpl in Hi; [inversion Hi | discriminate].
  - rewrite length_map, length_seq in Hlen, Hi.
    destruct (pid - m)%nat as [|k] eqn:Hk; simpl in Hi; [|discriminate].
    inversion Hi. subst b. assert (pid = m) by lia. subst pid.
    repeat split; auto.
    destruct (exited st); [|reflexivity]. destruct Hex as [Hb _]. discriminate.
Qed.

Lemma Inv_at_length regs m b st : Inv_at regs m b st -> length (pages st) = S m.
Proof.
  intros (_ & Hpages & _).
  rewrite <- (length_map pinfo), Hpages, length_app, length_map, length_seq.
  simpl. lia.
Qed.

(** The load callback starts by taking itself off the page. *)
Lemma Inv_at_clear regs m st :
  Inv_at regs m true st -> Inv_at regs m false (snd (clear_loading m st)).
Proof.
  intros (Hm & Hpages & Hregs & Htr & Hex).
  unfold Inv_at, clear_loading. cbn [snd this pages exited set_pages trace out].
  repeat split; try assumption.
  - change (map pinfo) with (fmap (M:=list) pinfo) in *.
    rewrite (list_fmap_alter pinfo (set_loading false) (fun i => (i.1, false)))
      by (apply Forall_forall; reflexivity).
    rewrite Hpages.
    rewrite alter_app_r_alt by (rewrite length_fmap, length_seq; lia).
    rewrite length_fmap, length_seq, Nat.sub_diag. reflexivity.
  - destruct (exited st); [|exact Hex]. destruct Hex as [Hb _]. discriminate.
Qed.

(** A suite's completion callback keeps the invariant: it records the code
    and either starts the next suite or ends the run. *)
Lemma Inv_at_done regs m st code :
  Forall (fun a => a_pushed a = []) regs ->
  Inv_at regs m false st ->
  exited st = None ->
  fst (suiteDoneCb (cb_of (length regs) m) code st) = Ok tt
  /\ Inv regs (snd (suiteDoneCb (cb_of (length regs) m) code st)).
Proof.
  intros Hregs0 HI Hnone.
  pose proof (Inv_at_length _ _ _ _ HI) as Hplen.
  destruct HI as (Hm & Hpages & Hregs & Htr & Hex).
  rewrite Hnone in Hex, Htr. cbn [exit_tail] in Htr. rewrite app_nil_r in Htr.
  rewrite suiteDoneCb_spec. cbn [cb_of cb_n cb_nSuites].
  set (st4 := set_this _ _).
  assert (Hlen4 : length (_registeredSuites (this st4)) = length regs).
  { subst st4. simpl. now rewrite Hregs, length_started_upto. }
  assert (Hurls : length (map a_url (take (S m) regs)) = S m)
    by (rewrite length_map, length_take_le; lia).
  destruct (Nat.ltb_spec (m + 1) (length regs)) as [Hlt|Hge].
  - destruct (lookup_lt_is_Some_2 regs (S m)) as [a Ha]; [lia|].
    assert (Ha4 : _registeredSuites (this st4) !! (m + 1)%nat = Some a).
    { subst st4. simpl. rewrite Hregs, Nat.add_1_r.
      now rewrite lookup_started_upto_ge by lia. }
    assert (Hpa : a_pushed a = []).
    { rewrite Forall_forall in Hregs0. apply Hregs0.
      eapply list_elem_of_lookup_2, Ha. }
    destruct (_startSuite_spec (m + 1) st4 a Ha4 Hpa)
      as (p & t & logs & Heq & Hp & Hs & Hc & _ & _ & Hlogs).
    rewrite Heq. split; [reflexivity|]. cbn [snd].
    exists (S m), true. unfold Inv_at.
    cbn [this pages exited trace out].
    rewrite Hlen4, Nat.add_1_r in *.
    repeat split.
    + lia.
    + subst st4. cbn [pages set_this set_out].
      rewrite map_app, Hpages. cbn [map]. rewrite Hp.
      rewrite seq_S, map_app. reflexivity.
    + rewrite Hs. subst st4. cbn [this set_this set_exitCodes _registeredSuites].
      rewrite Hregs. now apply started_upto_S.
    + rewrite Hc. subst st4. unfold trace in *.
      cbn [this set_this set_exitCodes _exitCodes pages set_out out exited].
      rewrite Hnone.
      cbn [rev]. rewrite rev_app_distr. cbn [rev app].
      rewrite !List.filter_app. rewrite Htr.
      rewrite (sched_rev_nil logs Hlogs). cbn [List.filter is_sched app].
      rewrite (take_S_r regs (S m) a Ha), map_app. cbn [map].
      rewrite schedule_snoc_start by (rewrite length_app; simpl; lia).
      rewrite schedule_snoc_done by lia.
      rewrite length_app, Hex, Hplen. cbn [length].
      rewrite Nat.add_1_r, <- !app_assoc. reflexivity.
    + rewrite Hc. subst st4. cbn [exited set_this set_out] in *. rewrite Hnone.
      cbn. rewrite length_app. simpl. lia.
  - destruct (finalize_spec st4) as [line Heq]. rewrite Heq.
    split; [reflexivity|]. cbn [snd].
    exists m, false. unfold Inv_at. subst st4.
    cbn [this pages exited trace out set_this set_out set_exitCodes _exitCodes
           _registeredSuites].
    repeat split; try assumption; try lia.
    + unfold trace in *. cbn [out rev].
      rewrite !List.filter_app. rewrite Htr.
      cbn [List.filter is_sched app exit_tail].
      rewrite schedule_snoc_done by lia. rewrite Hex.
      rewrite <- !app_assoc. reflexivity.
    + rewrite length_app. simpl. lia.
Qed.

Lemma qrel_exited P st st' : qrel P st st' -> exited st' = exited st.
Proof. now intros (_ & Hx & _). Qed.

Lemma qrel_lookup P st st' pid p :
  qrel P st st' -> pages st !! pid = Some p ->
  exists p', pages st' !! pid = Some p' /\ pinfo p' = pinfo p.
Proof.
  intros (_ & _ & Hp & _) Hl.
  assert (H : map pinfo (pages st') !! pid = Some (pinfo p)).
  { rewrite Hp. change (map pinfo) with (fmap (M:=list) pinfo).
    now rewrite list_lookup_fmap, Hl. }
  change (map pinfo) with (fmap (M:=list) pinfo) in H.
  rewrite list_lookup_fmap in H.
  destruct (pages st' !! pid) as [p'|]; [|discriminate].
  exists p'. split; [reflexivity|]. simpl in H. congruence.
Qed.

Lemma Inv_uncaught regs st msg :
  Inv regs st -> Inv regs (set_out (uncaught msg :: out st) st).
Proof.
  intros (m & b & HI). exists m, b.
  eapply (Inv_at_qrel is_calm); [apply calm_not_sched | | exact HI].
  now apply qrel_emit.
Qed.

(** The [page.open] callback of the suite in flight keeps the invariant,
    whether it throws on the way or reaches the completion callback. *)
Lemma open_callback_Inv regs m st p status :
  Forall (fun a => a_pushed a = []) regs ->
  Inv_at regs m false st ->
  exited st = None ->
  pg_suiteId p = m ->
  pg_done p = cb_of (length regs) m ->
  Inv regs (snd (open_callback m p status st)).
Proof.
  intros Hregs0 HI Hnone Hid Hdone.
  rewrite open_callback_split. unfold bind at 1.
  pose proof (quiet_open_callback_prelude m p status st) as Hq.
  destruct (open_callback_prelude m p status st) as [[[]|msg] st1]; cbn [snd] in *.
  2: { exists m, false. eapply Inv_at_qrel; [apply prelude_not_sched | exact Hq | exact HI]. }
  assert (HI1 : Inv_at regs m false st1)
    by (eapply Inv_at_qrel; [apply prelude_not_sched | exact Hq | exact HI]).
  assert (Hnone1 : exited st1 = None) by (rewrite (qrel_exited _ _ _ Hq); exact Hnone).
  destruct (lookup_lt_is_Some_2 (pages st1) m) as [p1 Hp1].
  { rewrite (Inv_at_length _ _ _ _ HI1). lia. }
  cbv beta iota delta [bind get_this onTestSuiteFinished page_evaluate_tally_call].
  rewrite (in_page_read (fun w => w !! cfg_xunitName CFG) m p1 st1 Hp1).
  msimpl.
  set (st2 := set_out (page_evaluate_tally m (cfg_xunitName CFG) :: out st1) st1).
  assert (Hq2 : qrel (fun e => negb (is_sched e)) st1 st2) by (now apply qrel_emit).
  assert (Hns : forall e, negb (is_sched e) = true -> is_sched e = false)
    by (intros e; now destruct (is_sched e)).
  destruct (pg_window p1 !! cfg_xunitName CFG) as [asserts|]; cbn [snd].
  2: { exists m, false. eapply Inv_at_qrel; [exact Hns | exact Hq2 | exact HI1]. }
  match goal with
  | |- Inv _ (snd (suiteDoneCb _ ?c ?s)) => set (code := c); set (st3 := s)
  end.
  assert (Hq3 : qrel (fun e => negb (is_sched e)) st1 st3).
  { eapply qrel_trans; [exact Hq2|]. apply (qrel_emit _ (console_log _) st2).
    reflexivity. }
  rewrite Hdone.
  apply (Inv_at_done regs m st3 code Hregs0).
  - eapply Inv_at_qrel; [exact Hns | exact Hq3 | exact HI1].
  - rewrite (qrel_exited _ _ _ Hq3). exact Hnone1.
Qed.

(** Every event of the driver keeps the invariant. *)
Lemma Inv_step regs st ev :
  Forall (fun a => a_pushed a = []) regs ->
  Inv regs st -> Inv regs (step st ev).
Proof.
  intros Hregs0 (m & b & HI). unfold step, turn.
  destruct (exited st) eqn:Hx; [now exists m, b|].
  assert (Hcalm : forall c : M unit,
            quiet is_calm c ->
            Inv regs match c st with
                     | (Ok _, st') => st'
                     | (Throw msg, st') => set_out (uncaught msg :: out st') st'
                     end).
  { intros c Hc. specialize (Hc st).
    destruct (c st) as [[[]|msg] st']; cbn [snd] in Hc.
    - exists m, b. eapply Inv_at_qrel; [apply calm_not_sched | exact Hc | exact HI].
    - apply Inv_uncaught. exists m, b.
      eapply Inv_at_qrel; [apply calm_not_sched | exact Hc | exact HI]. }
  destruct ev as [pid|pid status|pid msg tr|pid msg]; cbn [dispatch].
  - destruct (pages st !! pid) as [p|] eqn:Hp.
    + apply (Hcalm (onInitialized pid p)), quiet_onInitialized.
    + now exists m, b.
  - destruct (pages st !! pid) as [p|] eqn:Hp; [|now exists m, b].
    destruct (pg_loading p) eqn:Hl; [|now exists m, b].
    destruct (Inv_at_loading _ _ _ _ _ _ HI Hp Hl) as (-> & -> & Hid & Hdone & _).
    unfold bind at 1.
    pose proof (Inv_at_clear _ _ _ HI) as HI0.
    assert (Hx0 : exited (snd (clear_loading m st)) = None) by exact Hx.
    pose proof (open_callback_Inv regs m _ p status Hregs0 HI0 Hx0 Hid Hdone) as HI'.
    unfold clear_loading at 1. cbn [snd] in HI'. unfold clear_loading in HI'.
    cbn [snd] in HI'.
    destruct (open_callback m p status _) as [[[]|msg] st']; cbn [snd] in HI'.
    + exact HI'.
    + now apply Inv_uncaught.
  - destruct (pages st !! pid) as [p|] eqn:Hp.
    + apply (Hcalm (onError p msg tr)), quiet_onError.
    + now exists m, b.
  - destruct (pages st !! pid) as [p|] eqn:Hp.
    + apply (Hcalm (onConsoleMessage msg)), quiet_onConsoleMessage.
    + now exists m, b.
Qed.

(** ** Runs *)

Lemma initial_sched : List.filter is_sched (trace initial_state) = [].
Proof.
  unfold trace, initial_state, parseCommandLineCfg. cbn [out snd].
  rewrite rev_involutive. now destruct (_ >? _).
Qed.

(** After the test script's calls the registry holds its registrations. *)
Lemma run_start (setup : list api_call) :
  exists t,
    turn (configure setup ;; start) initial_state
    = turn start (set_this t initial_state)
    /\ _registeredSuites t = registered setup
    /\ _exitCodes t = []
    /\ is_Some (_polyfillPaths t)
    /\ is_Some (_userScriptPaths t).
Proof.
  destruct (configure_spec setup initial_state) as (t & Hcfg & Hs & Hc & Hpf & Hus);
    [now eexists | now eexists |].
  exists t. unfold turn, bind. cbn [exited initial_state set_this].
  rewrite Hcfg. auto.
Qed.

Lemma steps_exited (events : list driver_event) st c :
  exited st = Some c -> fold_left step events st = st.
Proof.
  intros Hx. induction events as [|ev events IH]; [reflexivity|].
  simpl. unfold step at 2, turn. rewrite Hx. exact IH.
Qed.

Lemma start_Inv (setup : list api_call) :
  registered setup <> [] ->
  Inv (registered setup) (turn (configure setup ;; start) initial_state).
Proof.
  intros Hne. destruct (run_start setup) as (t & -> & Hs & Hc & _).
  unfold turn, start. cbn [exited initial_state set_this]. msimpl. rewrite Hs.
  destruct (registered setup) as [|a regs] eqn:Hregs; [contradiction|].
  cbn [length Nat.ltb Nat.leb].
  pose proof (registered_pushed setup) as Hp0. rewrite Hregs in Hp0.
  destruct (_startSuite_spec 0 (set_this t initial_state) a)
    as (p & t' & logs & Heq & Hp & Hs' & Hc' & _ & _ & Hlogs).
  { cbn [this set_this]. now rewrite Hs. }
  { now inversion Hp0. }
  rewrite Heq. exists 0%nat, true. unfold Inv_at.
  cbn [this pages exited out set_this initial_state] in *.
  rewrite Hs in Hs', Hp. rewrite Hs', Hc', Hc. cbn [length] in *.
  repeat split.
  - lia.
  - cbn. now rewrite Hp.
  - now rewrite <- (started_upto_S 0 (a :: regs) a), started_upto_0.
  - unfold trace. cbn [out rev]. rewrite rev_app_distr, !List.filter_app.
    pose proof initial_sched as Hi. unfold trace, initial_state in Hi.
    cbn [out] in Hi. rewrite Hi, (sched_rev_nil logs Hlogs). reflexivity.
Qed.

(** The invariant holds all along a run with at least one suite. *)
Lemma run_Inv (setup : list api_call) (events : list driver_event) :
  registered setup <> [] -> Inv (registered setup) (run setup events).
Proof.
  intros Hne. unfold run.
  generalize (start_Inv setup Hne).
  generalize (turn (configure setup ;; start) initial_state) as st.
  induction events as [|ev events IH]; intros st HI; [exact HI|].
  simpl. apply IH. apply Inv_step; [apply registered_pushed | exact HI].
Qed.

(** ** The Suite Orchestrator *)

(** C2: in a run with at least one registered suite, once the process has
    exited, its status is 99 exactly when one of the recorded exit codes is
    99 and 0 exactly when none is; by then every registered suite has
    recorded its code, the one its completion callback was called with. *)
Theorem final_exit_status (setup : list api_call) (events : list driver_event) (c : Z) :
  registered setup <> [] ->
  exited (run setup events) = Some c ->
  (c = 99 <-> In 99 (_exitCodes (this (run setup events))))
  /\ (c = 0 <-> ~ In 99 (_exitCodes (this (run setup events))))
  /\ length (_exitCodes (this (run setup events))) = length (registered setup)
  /\ map snd (dones (trace (run setup events))) = _exitCodes (this (run setup events)).
Proof.
  intros Hne Hx. destruct (run_Inv setup events Hne) as (m & b & HI).
  destruct HI as (Hm & Hpages & Hregs & Htr & Hex). rewrite Hx in Hex, Htr.
  destruct Hex as (_ & HN & Hlen & ->).
  assert (H99 : (array_indexOf Z.eqb (_exitCodes (this (run setup events))) 99 >? -1)
                = true <-> In 99 (_exitCodes (this (run setup events))))
    by (apply array_indexOf_In; intros y z; apply Z.eqb_eq).
  unfold final_code. repeat split.
  - destruct (_ >? _); [intros _; now apply H99 | discriminate].
  - intros Hin. apply H99 in Hin. now rewrite Hin.
  - destruct (_ >? _); [discriminate | intros _ Hin; apply H99 in Hin; discriminate].
  - intros Hnin. destruct (_ >? _); [exfalso; apply Hnin; now apply H99 | reflexivity].
  - lia.
  - rewrite <- dones_sched, Htr. unfold dones at 1.
    rewrite omap_app. cbn [exit_tail omap list_omap]. rewrite app_nil_r.
    fold (dones (schedule 0 (map a_url (take (S m) (registered setup)))
                   (_exitCodes (this (run setup events))))).
    rewrite dones_schedule by (rewrite length_map, length_take_le; lia).
    change (map snd) with (fmap (M:=list) (@snd nat Z)).
    apply snd_zip. rewrite length_seq. lia.
Qed.

(** C3: when the test script registers no suite, [start()] ends the process
    with status 98, after printing one line of error, and no page is ever
    created, whatever the driver sends afterwards. *)
Theorem start_without_suites (setup : list api_call) (events : list driver_event) :
  registered setup = [] ->
  exited (run setup events) = Some 98
  /\ pages (run setup events) = []
  /\ trace (run setup events)
     = snd (parseCommandLineCfg (system_args E))
         ++ [console_error "No suites registered!"; phantom_exit 98]
  /\ creations (trace (run setup events)) = [].
Proof.
  intros Hnone. unfold run.
  destruct (run_start setup) as (t & -> & Hs & Hc & _).
  assert (Hstart : turn start (set_this t initial_state)
                   = {| this := t; pages := [];
                        out := phantom_exit 98 :: console_error "No suites registered!"
                                 :: out initial_state;
                        exited := Some 98 |}).
  { unfold turn, start. cbn [exited initial_state set_this]. msimpl.
    rewrite Hs, Hnone. reflexivity. }
  rewrite Hstart. rewrite (steps_exited events _ 98) by reflexivity.
  unfold trace. cbn [exited pages out initial_state rev].
  rewrite rev_involutive, <- app_assoc.
  repeat split.
  unfold creations, parseCommandLineCfg. cbn [snd]. now destruct (_ >? _).
Qed.

(** C7, as the code has it: [registerSuite] appends the descriptor to the
    registry and returns, in every state: there is no check on whether
    [start()] has been called.  In particular, at any moment of a run that
    [start()] began with [N] suites the call succeeds, leaves [N + 1]
    entries in the registry and touches nothing else. *)
Theorem registerSuite_appends (setup : list api_call) (events : list driver_event)
  (url : string) (gatherTests : feeder) :
  registered setup <> [] ->
  (forall st,
      registerSuite url gatherTests st
      = (Ok tt,
         set_this
           (set_registeredSuites
              (_registeredSuites (this st)
                 ++ [ {| a_url := url; a_feed := gatherTests; a_pushed := [] |} ])
              (this st)) st))
  /\ exists st',
      registerSuite url gatherTests (run setup events) = (Ok tt, st')
      /\ length (_registeredSuites (this st')) = S (length (registered setup))
      /\ last (_registeredSuites (this st'))
         = Some {| a_url := url; a_feed := gatherTests; a_pushed := [] |}
      /\ _exitCodes (this st') = _exitCodes (this (run setup events))
      /\ pages st' = pages (run setup events)
      /\ out st' = out (run setup events)
      /\ exited st' = exited (run setup events).
Proof.
  intros Hne. split; [reflexivity|].
  destruct (run_Inv setup events Hne) as (m & b & _ & _ & Hregs & _).
  eexists. split; [reflexivity|].
  cbn [this pages out exited set_this set_registeredSuites _registeredSuites _exitCodes].
  rewrite Hregs, length_app, length_started_upto, last_snoc. cbn [length].
  repeat split. lia.
Qed.

(** Reading the counters: without them the callback throws, with them it
    prints the summary and calls [done]. *)
Lemma onTestSuiteFinished_cases pid suite_id suite_count (done : Z -> M unit) st p :
  pages st !! pid = Some p ->
  (pg_window p !! cfg_xunitName CFG = None
   /\ onTestSuiteFinished pid suite_id suite_count done st
      = (Throw "TypeError: undefined is not an object (evaluating asserts._badAsserts)",
         set_out (page_evaluate_tally pid (cfg_xunitName CFG) :: out st) st))
  \/ (exists asserts line,
         pg_window p !! cfg_xunitName CFG = Some asserts
         /\ onTestSuiteFinished pid suite_id suite_count done st
            = done (if _badAsserts asserts >? 0 then 99 else 0)
                (set_out (console_log line
                            :: page_evaluate_tally pid (cfg_xunitName CFG) :: out st) st)).
Proof.
  intros Hp.
  cbv beta iota delta [bind onTestSuiteFinished page_evaluate_tally_call].
  rewrite (in_page_read (fun w => w !! cfg_xunitName CFG) pid p st Hp).
  msimpl.
  destruct (pg_window p !! cfg_xunitName CFG) as [asserts|].
  - right. eexists asserts, _. split; [reflexivity|]. reflexivity.
  - left. split; reflexivity.
Qed.

Lemma step_load (st : state) (pid : nat) (p : page) (status : string) :
  pages st !! pid = Some p -> pg_loading p = true -> exited st = None ->
  step st (LoadFinished pid status)
  = match open_callback pid p status (snd (clear_loading pid st)) with
    | (Ok _, st') => st'
    | (Throw msg, st') => set_out (uncaught msg :: out st') st'
    end.
Proof.
  intros Hp Hl Hx. unfold step, turn. rewrite Hx. cbn [dispatch].
  rewrite Hp, Hl. reflexivity.
Qed.

Lemma Inv_at_last regs m b st :
  Inv_at regs m b st ->
  exists p, pages st !! m = Some p /\ pinfo p = (m, cb_of (length regs) m, b).
Proof.
  intros (_ & Hpages & _).
  assert (H : map pinfo (pages st) !! m = Some (m, cb_of (length regs) m, b)).
  { rewrite Hpages, lookup_app_r by (rewrite length_map, length_seq; lia).
    now rewrite length_map, length_seq, Nat.sub_diag. }
  change (map pinfo) with (fmap (M:=list) pinfo) in H.
  rewrite list_lookup_fmap in H.
  destruct (pages st !! m) as [p|]; [|discriminate].
  exists p. split; [reflexivity|]. cbn in H. congruence.
Qed.

(** Every page of a run belongs to the suite of its number, and holds the
    completion callback made for that suite. *)
Lemma Inv_at_pinfo regs m b st pid p :
  Inv_at regs m b st ->
  pages st !! pid = Some p ->
  pg_suiteId p = pid /\ pg_done p = cb_of (length regs) pid.
Proof.
  intros (_ & Hpages & _) Hp.
  assert (Hi : map pinfo (pages st) !! pid = Some (pinfo p)).
  { change (map pinfo) with (fmap (M:=list) pinfo). now rewrite list_lookup_fmap, Hp. }
  rewrite Hpages in Hi. unfold pinfo in Hi.
  apply lookup_app_Some in Hi as [Hi|[Hlen Hi]].
  - change (map ?f) with (fmap (M:=list) f) in Hi.
    rewrite list_lookup_fmap in Hi.
    destruct (seq 0 m !! pid) as [i|] eqn:Hs; simpl in Hi; [|discriminate].
    apply lookup_seq in Hs as [-> _]. injection Hi as -> -> _. auto.
  - rewrite length_map, length_seq in Hlen, Hi.
    destruct (pid - m)%nat as [|k] eqn:Hk; simpl in Hi; [|discriminate].
    assert (pid = m) by lia. subst pid. injection Hi as -> -> _. auto.
Qed.

(** What a completion callback adds to the trace: its own mark first, then
    the page of the next suite, opened on the url registered for it, or,
    after the last suite, the exit. *)
Lemma suiteDoneCb_trace regs m st code :
  Forall (fun a => a_pushed a = []) regs ->
  Inv_at regs m false st ->
  exited st = None ->
  exists evs2,
    trace (snd (suiteDoneCb (cb_of (length regs) m) code st))
    = trace st ++ suite_done m code :: evs2
    /\ _exitCodes (this (snd (suiteDoneCb (cb_of (length regs) m) code st)))
       = _exitCodes (this st) ++ [code]
    /\ ((S m < length regs)%nat ->
        exists a,
          regs !! S m = Some a
          /\ List.filter is_sched evs2
             = [webpage_create (S m) (S m); page_open (S m) (a_url a)]
          /\ length (pages (snd (suiteDoneCb (cb_of (length regs) m) code st)))
             = S (S m)
          /\ exited (snd (suiteDoneCb (cb_of (length regs) m) code st)) = None)
    /\ (S m = length regs ->
        List.filter is_sched evs2
        = [phantom_exit (final_code (_exitCodes (this st) ++ [code]))]
        /\ length (pages (snd (suiteDoneCb (cb_of (length regs) m) code st))) = S m
        /\ exited (snd (suiteDoneCb (cb_of (length regs) m) code st))
           = Some (final_code (_exitCodes (this st) ++ [code]))).
Proof.
  intros Hregs0 HI Hnone.
  pose proof (Inv_at_length _ _ _ _ HI) as Hplen.
  destruct HI as (Hm & Hpages & Hregs & Htr & Hex).
  rewrite suiteDoneCb_spec. cbn [cb_of cb_n cb_nSuites].
  set (st4 := set_this _ _).
  destruct (Nat.ltb_spec (m + 1) (length regs)) as [Hlt|Hge].
  - destruct (lookup_lt_is_Some_2 regs (S m)) as [a Ha]; [lia|].
    assert (Ha4 : _registeredSuites (this st4) !! (m + 1)%nat = Some a).
    { subst st4. simpl. rewrite Hregs, Nat.add_1_r.
      now rewrite lookup_started_upto_ge by lia. }
    assert (Hpa : a_pushed a = []).
    { rewrite Forall_forall in Hregs0. apply Hregs0.
      eapply list_elem_of_lookup_2, Ha. }
    destruct (_startSuite_spec (m + 1) st4 a Ha4 Hpa)
      as (p & t & logs & -> & Hp & _ & Hc & _ & _ & Hlogs).
    subst st4.
    cbn [snd this exited pages out set_this set_out set_exitCodes _exitCodes] in *.
    exists (rev logs ++ [webpage_create (S m) (S m); page_open (S m) (a_url a)]).
    split; [|split; [exact Hc|split; [|lia]]].
    + unfold trace. cbn [out rev]. rewrite Hplen, Nat.add_1_r.
      rewrite rev_app_distr. cbn [rev]. now rewrite <- !app_assoc.
    + intros _. exists a. split; [exact Ha|].
      rewrite List.filter_app, (sched_rev_nil logs Hlogs).
      split; [reflexivity|]. split; [|exact Hnone].
      rewrite length_app, Hplen. cbn. lia.
  - destruct (finalize_spec st4) as [line ->].
    subst st4.
    cbn [snd this exited pages out set_this set_out set_exitCodes _exitCodes].
    exists [console_log line;
            phantom_exit (final_code (_exitCodes (this st) ++ [code]))].
    split; [|split; [reflexivity|split; [lia|]]].
    + unfold trace. cbn [out rev]. now rewrite <- !app_assoc.
    + intros _. split; [reflexivity|]. split; [exact Hplen|reflexivity].
Qed.

(** When the load of the suite in flight finishes, the [page.open]
    callback either throws before it reaches the completion callback, and
    then nothing is scheduled and no code is recorded, or it calls the
    completion callback once, with 0 or 99: the code is recorded, and then
    the page of the next suite is created and opened, or, after the last
    suite, the process exits. *)
Lemma load_outcome regs m st status :
  Forall (fun a => a_pushed a = []) regs ->
  Inv_at regs m true st ->
  exited st = None ->
  (exists evs msg,
      trace (step st (LoadFinished m status)) = trace st ++ evs ++ [uncaught msg]
      /\ List.filter is_sched evs = []
      /\ _exitCodes (this (step st (LoadFinished m status))) = _exitCodes (this st)
      /\ length (pages (step st (LoadFinished m status))) = length (pages st)
      /\ exited (step st (LoadFinished m status)) = None)
  \/ (exists c evs1 evs2,
         (c = 0 \/ c = 99)
         /\ trace (step st (LoadFinished m status))
            = trace st ++ evs1 ++ suite_done m c :: evs2
         /\ List.filter is_sched evs1 = []
         /\ _exitCodes (this (step st (LoadFinished m status)))
            = _exitCodes (this st) ++ [c]
         /\ ((S m < length regs)%nat ->
             exists a,
               regs !! S m = Some a
               /\ List.filter is_sched evs2
                  = [webpage_create (S m) (S m); page_open (S m) (a_url a)]
               /\ length (pages (step st (LoadFinished m status))) = S (length (pages st))
               /\ exited (step st (LoadFinished m status)) = None)
         /\ (S m = length regs ->
             List.filter is_sched evs2
             = [phantom_exit (final_code (_exitCodes (this st) ++ [c]))]
             /\ length (pages (step st (LoadFinished m status))) = length (pages st)
             /\ exited (step st (LoadFinished m status))
                = Some (final_code (_exitCodes (this st) ++ [c])))).
Proof.
  intros Hregs0 HI Hx.
  destruct (Inv_at_last _ _ _ _ HI) as (p & Hp & Hpi).
  unfold pinfo in Hpi. injection Hpi as Hid Hdone Hl.
  pose proof (Inv_at_length _ _ _ _ HI) as Hplen.
  remember (step st (LoadFinished m status)) as stF eqn:HF.
  rewrite (step_load st m p status Hp Hl Hx) in HF.
  pose proof (Inv_at_clear _ _ _ HI) as HI0.
  set (st0 := snd (clear_loading m st)) in *.
  assert (Ho0 : out st0 = out st) by reflexivity.
  assert (Ht0 : this st0 = this st) by reflexivity.
  pose proof (quiet_open_callback_prelude m p status st0) as Hq.
  rewrite open_callback_split in HF. unfold bind at 1 in HF.
  destruct (open_callback_prelude m p status st0) as [[[]|msg] st2]; cbn [snd] in Hq.
  2:{ left. subst stF. destruct Hq as (Ht & Hx2 & Hpi & evs & Ho & Hf).
      exists (rev evs), msg. cbn [this pages exited set_out].
      split; [|split; [|split; [|split]]].
      - unfold trace. cbn [out set_out rev]. rewrite Ho, Ho0, rev_app_distr.
        now rewrite <- app_assoc.
      - apply sched_rev_nil, (sched_quiet_nil is_prelude); auto using prelude_not_sched.
      - now rewrite Ht.
      - rewrite <- (length_map pinfo), Hpi, length_map.
        now rewrite (Inv_at_length _ _ _ _ HI0).
      - now rewrite Hx2. }
  assert (HI2 : Inv_at regs m false st2)
    by (eapply Inv_at_qrel; [apply prelude_not_sched | exact Hq | exact HI0]).
  pose proof (Inv_at_length _ _ _ _ HI2) as Hplen2.
  destruct (Inv_at_last _ _ _ _ HI2) as (p2 & Hp2 & _).
  destruct Hq as (Ht & Hx2 & Hpi & evs & Ho & Hf).
  assert (Hsched : List.filter is_sched (rev evs) = [])
    by (apply sched_rev_nil, (sched_quiet_nil is_prelude); auto using prelude_not_sched).
  unfold bind at 1, get_this at 1 in HF.
  destruct (onTestSuiteFinished_cases m (pg_suiteId p)
              (length (_registeredSuites (this st2))) (suiteDoneCb (pg_done p)) st2 p2 Hp2)
    as [[_ Hfin]|(asserts & line & _ & Hfin)]; rewrite Hfin in HF; clear Hfin.
  { left. subst stF.
    exists (rev evs ++ [page_evaluate_tally m (cfg_xunitName CFG)]),
      "TypeError: undefined is not an object (evaluating asserts._badAsserts)".
    cbn [this pages exited set_out].
    split; [|split; [|split; [|split]]].
    - unfold trace. cbn [out set_out rev]. rewrite Ho, Ho0, rev_app_distr.
      now rewrite <- !app_assoc.
    - now rewrite List.filter_app, Hsched.
    - now rewrite Ht.
    - now rewrite Hplen2.
    - now rewrite Hx2. }
  right.
  set (code := if _badAsserts asserts >? 0 then 99 else 0) in *.
  set (st3 := set_out _ st2) in *.
  assert (Hq3 : qrel (fun e => negb (is_sched e)) st2 st3).
  { subst st3.
    eapply qrel_trans;
      [now apply (qrel_emit _ (page_evaluate_tally m (cfg_xunitName CFG)))|].
    exact (qrel_emit _ (console_log line)
             (set_out (page_evaluate_tally m (cfg_xunitName CFG) :: out st2) st2) eq_refl). }
  assert (HI3 : Inv_at regs m false st3).
  { apply (Inv_at_qrel (fun e => negb (is_sched e)) regs m false st2 st3);
      [|exact Hq3|exact HI2].
    intros e. cbv beta. now destruct (is_sched e). }
  assert (Hx3 : exited st3 = None) by (rewrite (qrel_exited _ _ _ Hq3), Hx2; exact Hx).
  rewrite Hdone in HF.
  destruct (Inv_at_done regs m st3 code Hregs0 HI3 Hx3) as [Hok _].
  destruct (suiteDoneCb_trace regs m st3 code Hregs0 HI3 Hx3)
    as (evs2 & Htr & Hc & Hnext & Hlast).
  destruct (suiteDoneCb (cb_of (length regs) m) code st3) as [[[]|msg] st'];
    cbn [fst snd] in *; [|discriminate].
  subst stF.
  exists code, (rev evs ++ [page_evaluate_tally m (cfg_xunitName CFG); console_log line]),
    evs2.
  split; [subst code; destruct (_ >? _); auto|].
  split; [|split; [|split; [|split]]].
  - rewrite Htr. unfold trace. subst st3. cbn [out set_out rev].
    rewrite Ho, Ho0, rev_app_distr. now rewrite <- !app_assoc.
  - now rewrite List.filter_app, Hsched.
  - rewrite Hc. subst st3. cbn [this set_out]. now rewrite Ht.
  - intros Hlt. destruct (Hnext Hlt) as (a & Ha & Hs & Hlen & Hx').
    exists a. rewrite Hplen. auto.
  - intros Heq. destruct (Hlast Heq) as (Hs & Hlen & Hx').
    subst st3. cbn [this set_out] in *. rewrite Ht, Ht0 in *. rewrite Hplen. auto.
Qed.

(** C8: in a run with at least one registered suite the pages made so far
    are those of suites 0, 1, ... in registration order, one per suite, each
    opened on the url registered for it, and all suites but the last one
    started have recorded their code; the page of suite [n + 1] is created
    only after the completion callback of suite [n] has been entered; the
    callbacks entered are those of the suites in order and their codes are
    the recorded ones; the callback that the page of suite [n] holds first
    records its code and then starts suite [n + 1] if that suite is
    registered and ends the run otherwise; and when the load of the suite
    in flight finishes, either the [page.open] callback throws before it
    calls the completion callback, and nothing is scheduled, or it calls it
    once: the code is recorded and then the page of the next suite is
    created and opened, or, after the last suite, the process exits. *)
Theorem suites_run_in_order (setup : list api_call) (events : list driver_event) :
  registered setup <> [] ->
  ((1 <= length (pages (run setup events)) <= length (registered setup))%nat
   /\ creations (trace (run setup events))
      = map (fun i => (i, i)) (seq 0 (length (pages (run setup events))))
   /\ opens (trace (run setup events))
      = zip (seq 0 (length (pages (run setup events))))
          (map a_url (take (length (pages (run setup events))) (registered setup)))
   /\ ((exited (run setup events) = None
        /\ S (length (_exitCodes (this (run setup events))))
           = length (pages (run setup events)))
       \/ (exited (run setup events)
           = Some (final_code (_exitCodes (this (run setup events))))
           /\ length (_exitCodes (this (run setup events)))
              = length (registered setup)
           /\ length (pages (run setup events)) = length (registered setup))))
  /\ dones (trace (run setup events))
     = zip (seq 0 (length (_exitCodes (this (run setup events)))))
         (_exitCodes (this (run setup events)))
  /\ (forall l1 l2 pid n,
         trace (run setup events) = l1 ++ webpage_create pid (S n) :: l2 ->
         exists c, In (suite_done n c) l1)
  /\ (forall pid p,
         pages (run setup events) !! pid = Some p ->
         pg_suiteId p = pid
         /\ forall exitCode st,
             suiteDoneCb (pg_done p) exitCode st
             = (if (S pid <? length (registered setup))%nat then _startSuite (S pid)
                else finalize)
                 (set_this (set_exitCodes (_exitCodes (this st) ++ [exitCode]) (this st))
                    (set_out (suite_done pid exitCode :: out st) st)))
  /\ (forall pid p status,
         pages (run setup events) !! pid = Some p ->
         pg_loading p = true ->
         (exists evs msg,
             trace (run setup (events ++ [LoadFinished pid status]))
             = trace (run setup events) ++ evs ++ [uncaught msg]
             /\ List.filter is_sched evs = []
             /\ _exitCodes (this (run setup (events ++ [LoadFinished pid status])))
                = _exitCodes (this (run setup events))
             /\ length (pages (run setup (events ++ [LoadFinished pid status])))
                = length (pages (run setup events))
             /\ exited (run setup (events ++ [LoadFinished pid status])) = None)
         \/ (exists c evs1 evs2,
                (c = 0 \/ c = 99)
                /\ trace (run setup (events ++ [LoadFinished pid status]))
                   = trace (run setup events) ++ evs1 ++ suite_done pid c :: evs2
                /\ List.filter is_sched evs1 = []
                /\ _exitCodes (this (run setup (events ++ [LoadFinished pid status])))
                   = _exitCodes (this (run setup events)) ++ [c]
                /\ ((S pid < length (registered setup))%nat ->
                    exists a,
                      registered setup !! S pid = Some a
                      /\ List.filter is_sched evs2
                         = [webpage_create (S pid) (S pid); page_open (S pid) (a_url a)]
                      /\ length (pages (run setup (events ++ [LoadFinished pid status])))
                         = S (length (pages (run setup events)))
                      /\ exited (run setup (events ++ [LoadFinished pid status])) = None)
                /\ (S pid = length (registered setup) ->
                    List.filter is_sched evs2
                    = [phantom_exit
                         (final_code (_exitCodes (this (run setup events)) ++ [c]))]
                    /\ length (pages (run setup (events ++ [LoadFinished pid status])))
                       = length (pages (run setup events))
                    /\ exited (run setup (events ++ [LoadFinished pid status]))
                       = Some (final_code
                                 (_exitCodes (this (run setup events)) ++ [c]))))).
Proof.
  intros Hne. destruct (run_Inv setup events Hne) as (m & b & HI).
  pose proof (Inv_at_length _ _ _ _ HI) as Hplen.
  assert (Hstep : forall ev, run setup (events ++ [ev]) = step (run setup events) ev)
    by (intros ev; unfold run; now rewrite fold_left_app).
  set (st := run setup events) in *.
  split; [|split; [|split; [|split]]].
  5:{ intros pid p status Hp Hl. rewrite Hstep.
      destruct (Inv_at_loading _ _ _ _ _ _ HI Hp Hl) as (-> & -> & _ & _ & Hx).
      rewrite Hplen.
      destruct (load_outcome (registered setup) m st status (registered_pushed setup) HI Hx)
        as [H|H]; [left | right]; rewrite Hplen in H; exact H. }
  4:{ intros pid p Hp.
      destruct (Inv_at_pinfo _ _ _ _ _ _ HI Hp) as [Hid Hdone].
      split; [exact Hid|]. intros exitCode st0.
      rewrite Hdone, suiteDoneCb_spec. cbn [cb_of cb_n cb_nSuites].
      now rewrite Nat.add_1_r. }
  all: destruct HI as (Hm & Hpages & Hregs & Htr & Hex).
  all: assert (Hurls : length (map a_url (take (S m) (registered setup))) = S m)
         by (rewrite length_map, length_take_le; lia).
  all: assert (Hcodes : (m <= length (_exitCodes (this st)) <= S m)%nat)
         by (destruct (exited st); [destruct Hex as (_ & _ & -> & _)|]; lia).
  all: assert (Htail : forall {A} (f : event -> option A),
             (forall c, f (phantom_exit c) = None) ->
             omap f (List.filter is_sched (trace st))
             = omap f (schedule 0 (map a_url (take (S m) (registered setup)))
                         (_exitCodes (this st))))
         by (intros A f Hf; rewrite Htr, omap_app;
             destruct (exited st); cbn [exit_tail omap list_omap]; rewrite ?Hf;
             now rewrite app_nil_r).
  - rewrite Hplen. split; [lia|]. split; [|split].
    + rewrite <- creations_sched. unfold creations at 1.
      rewrite Htail by reflexivity.
      fold (creations (schedule 0 (map a_url (take (S m) (registered setup)))
                         (_exitCodes (this st)))).
      rewrite creations_schedule by lia. now rewrite Hurls.
    + rewrite <- opens_sched. unfold opens at 1.
      rewrite Htail by reflexivity.
      fold (opens (schedule 0 (map a_url (take (S m) (registered setup)))
                     (_exitCodes (this st)))).
      rewrite opens_schedule by lia. now rewrite Hurls.
    + destruct (exited st) as [c|].
      * right. destruct Hex as (_ & HN & Hlen & ->). repeat split; lia.
      * left. split; [reflexivity|]. lia.
  - rewrite <- dones_sched. unfold dones at 1.
    rewrite Htail by reflexivity.
    fold (dones (schedule 0 (map a_url (take (S m) (registered setup)))
                   (_exitCodes (this st)))).
    apply dones_schedule. lia.
  - intros l1 l2 pid n Heq.
    rewrite Heq, List.filter_app in Htr. cbn [List.filter is_sched] in Htr.
    symmetry in Htr.
    apply schedule_ordered in Htr as [[_ Hn]|[c Hc]].
    + discriminate.
    + exists c. now apply List.filter_In in Hc as [Hc _].
    + intros e He. destruct (exited st); simpl in He; [|contradiction].
      destruct He as [<-|[]]. reflexivity.
Qed.

(** ** Failing injections *)

Lemma injections_app site evs1 evs2 :
  injections site (evs1 ++ evs2) = injections site evs1 ++ injections site evs2.
Proof. unfold injections. apply omap_app. Qed.

(** The verbose log prints its line or nothing. *)
Lemma verbose_log_spec bVerbose msg st :
  exists logs,
    verbose_log bVerbose msg st = (Ok tt, set_out (logs ++ out st) st)
    /\ forallb is_log logs = true.
Proof.
  unfold verbose_log. destruct (truthy bVerbose).
  - exists [console_log msg]. now split.
  - exists []. unfold ret. split; [now destruct st | reflexivity].
Qed.

Lemma log_lines_rev (logs : list event) (site : inject_site) :
  forallb is_log logs = true ->
  injections site (rev logs) = [] /\ forallb is_abort (rev logs) = true.
Proof.
  induction logs as [|e logs IH]; [now split|].
  simpl. intros [He Hl]%andb_prop. destruct (IH Hl) as [Hi Ha].
  rewrite injections_app, forallb_app, Hi, Ha.
  destruct e; try discriminate. now split.
Qed.

(** The injection loop stops at the first path that the driver refuses:
    the paths before it are injected, the ones after it are not asked for. *)
Lemma inject_loop_fails pid site bVerbose (pre : list string) (bad : string)
  (post : list string) :
  (forall path, In path pre -> forall w, is_Some (injectJs E pid path w)) ->
  (forall w, injectJs E pid bad w = None) ->
  forall st p,
    pages st !! pid = Some p ->
    exists st' evs,
      inject_loop pid site bVerbose (pre ++ bad :: post) st
      = (Throw ("Can't inject " +:+ site_name site +:+ " into the page..."), st')
      /\ out st' = rev evs ++ out st
      /\ injections site evs = map (fun path => (path, true)) pre ++ [(bad, false)]
      /\ forallb is_abort evs = true.
Proof.
  intros Hpre Hbad. induction pre as [|path pre IH]; intros st p Hp;
    cbn [app inject_loop]; unfold bind at 1;
    match goal with
    | |- context [verbose_log ?b ?m ?s0] =>
        destruct (verbose_log_spec b m s0) as (logs & -> & Hlogs)
    end;
    destruct (log_lines_rev logs site Hlogs) as [Hli Hla];
    unfold bind at 1, page_injectJs_call at 1; cbn [pages set_out]; rewrite Hp.
  - rewrite Hbad.
    eexists _, (rev logs ++ [page_injectJs pid site bad false]).
    split; [reflexivity|]. cbn [out set_out].
    rewrite rev_app_distr, rev_involutive, injections_app, forallb_app, Hli, Hla.
    repeat split. cbn. now destruct site.
  - destruct (Hpre path (or_introl eq_refl) (pg_window p)) as [w ->].
    match goal with
    | |- context [inject_loop _ _ _ _ ?s] =>
        destruct (IH (fun q Hq => Hpre q (or_intror Hq)) s (set_window w p))
          as (st' & evs & -> & Ho' & Hinj & Hab)
    end.
    { cbn [pages set_pages set_out]. apply list_lookup_insert_eq.
      eapply lookup_lt_Some, Hp. }
    exists st', (rev logs ++ page_injectJs pid site path true :: evs).
    split; [reflexivity|]. cbn [out set_out set_pages] in Ho'.
    change (page_injectJs pid site path true :: evs)
      with ([page_injectJs pid site path true] ++ evs).
    rewrite !injections_app, !forallb_app, Hli, Hla, Hinj, Hab.
    repeat split.
    + rewrite Ho', !rev_app_distr, rev_involutive. cbn [rev app].
      now rewrite <- !app_assoc.
    + cbn. now destruct site.
Qed.

Lemma forallb_rev {A} (f : A -> bool) (l : list A) :
  forallb f (rev l) = forallb f l.
Proof.
  induction l as [|a l IH]; [reflexivity|]. cbn [rev forallb].
  rewrite forallb_app, IH. cbn. now rewrite andb_true_r, andb_comm.
Qed.

Lemma trace_app st st' evs : out st' = rev evs ++ out st -> trace st' = trace st ++ evs.
Proof. intros H. unfold trace. now rewrite H, rev_app_distr, rev_involutive. Qed.

(** The [page.open] callback throws at the first user script that the
    driver refuses, before anything is evaluated in the page. *)
Lemma open_callback_fails pid p p0 status (pre : list string) (bad : string)
  (post : list string) st :
  pages st !! pid = Some p0 ->
  _userScriptPaths (this st) = Some (pre ++ bad :: post) ->
  (forall path, In path pre -> forall w, is_Some (injectJs E pid path w)) ->
  (forall w, injectJs E pid bad w = None) ->
  exists st' evs,
    open_callback pid p status st
    = (Throw "Can't inject userscript into the page...", st')
    /\ out st' = rev evs ++ out st
    /\ injections UserScript evs = map (fun path => (path, true)) pre ++ [(bad, false)]
    /\ forallb is_abort evs = true
    /\ qrel is_prelude st st'.
Proof.
  intros Hp0 Hus Hpre Hbad.
  pose proof (quiet_open_callback_prelude pid p status st) as Hq.
  rewrite open_callback_split. unfold bind at 1.
  unfold open_callback_prelude in *. cbv beta zeta in Hq |- *.
  destruct (verbose_log_spec (pg_bVerbose p) " Initializing the test:" st)
    as (l1 & Hl1 & Hf1).
  unfold bind at 1 in Hq. unfold bind at 1. rewrite Hl1 in Hq |- *.
  destruct (verbose_log_spec (pg_bVerbose p) (" * Page loaded with status " +:+ status)
              (set_out (l1 ++ out st) st)) as (l2 & Hl2 & Hf2).
  unfold bind at 1 in Hq. unfold bind at 1. rewrite Hl2 in Hq |- *.
  unfold bind at 1, get_this at 1 in Hq. unfold bind at 1, get_this at 1.
  cbn [this set_out] in Hq |- *. rewrite Hus in Hq |- *.
  unfold bind at 1 in Hq. unfold bind at 1.
  match type of Hq with
  | context [inject_loop _ _ _ _ ?s] =>
      destruct (inject_loop_fails pid UserScript (pg_bVerbose p) pre bad post
                  Hpre Hbad s p0 Hp0)
        as (st' & evs & Heq & Ho & Hinj & Hab)
  end.
  rewrite Heq in Hq |- *. cbn [snd] in Hq.
  exists st', (rev l1 ++ rev l2 ++ evs). split; [reflexivity|].
  destruct (log_lines_rev l1 UserScript Hf1) as [Hi1 Ha1].
  destruct (log_lines_rev l2 UserScript Hf2) as [Hi2 Ha2].
  rewrite !injections_app, !forallb_app, Hi1, Hi2, Ha1, Ha2.
  repeat split; try assumption; try apply Hq.
  rewrite Ho. cbn [out set_out]. rewrite !rev_app_distr, !rev_involutive.
  now rewrite <- !app_assoc.
Qed.

(** While no page waits for its load, the callbacks only print and inject
    polyfills. *)
Lemma step_calm regs m st ev :
  Inv_at regs m false st -> qrel is_calm st (step st ev).
Proof.
  intros HI. unfold step, turn.
  destruct (exited st) eqn:Hx; [apply qrel_refl|].
  assert (Hcalm : forall c : M unit,
            quiet is_calm c ->
            qrel is_calm st
              match c st with
              | (Ok _, st') => st'
              | (Throw msg, st') => set_out (uncaught msg :: out st') st'
              end).
  { intros c Hc. specialize (Hc st).
    destruct (c st) as [[[]|msg] st']; cbn [snd] in Hc; [exact Hc|].
    now apply qrel_set_out. }
  destruct ev as [pid|pid status|pid msg tr|pid msg]; cbn [dispatch].
  - destruct (pages st !! pid) as [p|] eqn:Hp; [|apply qrel_refl].
    apply (Hcalm (onInitialized pid p)), quiet_onInitialized.
  - destruct (pages st !! pid) as [p|] eqn:Hp; [|apply qrel_refl].
    destruct (pg_loading p) eqn:Hl; [|apply qrel_refl].
    destruct (Inv_at_loading _ _ _ _ _ _ HI Hp Hl) as (_ & Hb & _). discriminate.
  - destruct (pages st !! pid) as [p|] eqn:Hp; [|apply qrel_refl].
    apply (Hcalm (onError p msg tr)), quiet_onError.
  - destruct (pages st !! pid) as [p|] eqn:Hp; [|apply qrel_refl].
    apply (Hcalm (onConsoleMessage msg)), quiet_onConsoleMessage.
Qed.

Lemma steps_calm regs m events :
  forall st, Inv_at regs m false st -> qrel is_calm st (fold_left step events st).
Proof.
  induction events as [|ev events IH]; intros st HI; [apply qrel_refl|].
  simpl. pose proof (step_calm regs m st ev HI) as Hq.
  eapply qrel_trans; [exact Hq|]. apply IH.
  eapply Inv_at_qrel; [apply calm_not_sched | exact Hq | exact HI].
Qed.

(** X12: what a refused injection does.  When the driver refuses a
    polyfill, [page.onInitialized] throws at that polyfill, having injected
    the ones before it and none after it, and changes nothing else; when the
    driver refuses a user script, the [page.open] callback throws at that
    script: from then on the run only prints and injects polyfills, so no
    later user script, no assertion library and no test is evaluated, the
    counters are not read, no exit code is recorded, no page is created for
    a later suite and the process does not exit. *)
Theorem failed_injection_throws :
  (forall st pid p pre bad post,
      pages st !! pid = Some p ->
      _polyfillPaths (this st) = Some (pre ++ bad :: post) ->
      (forall path, In path pre -> forall w, is_Some (injectJs E pid path w)) ->
      (forall w, injectJs E pid bad w = None) ->
      exists st' evs,
        onInitialized pid p st
        = (Throw "Can't inject polyfill into the page...", st')
        /\ trace st' = trace st ++ evs
        /\ injections Polyfill evs
           = map (fun path => (path, true)) pre ++ [(bad, false)]
        /\ forallb is_calm evs = true
        /\ this st' = this st
        /\ exited st' = exited st
        /\ map pinfo (pages st') = map pinfo (pages st))
  /\ (forall setup events1 events2 pid p status pre bad post,
      registered setup <> [] ->
      pages (run setup events1) !! pid = Some p ->
      pg_loading p = true ->
      _userScriptPaths (this (run setup events1)) = Some (pre ++ bad :: post) ->
      (forall path, In path pre -> forall w, is_Some (injectJs E pid path w)) ->
      (forall w, injectJs E pid bad w = None) ->
      exists evs1 evs2,
        trace (run setup (events1 ++ LoadFinished pid status :: events2))
        = trace (run setup events1)
            ++ evs1 ++ uncaught "Can't inject userscript into the page..." :: evs2
        /\ injections UserScript evs1
           = map (fun path => (path, true)) pre ++ [(bad, false)]
        /\ forallb is_abort evs1 = true
        /\ forallb is_calm evs2 = true
        /\ _exitCodes (this (run setup (events1 ++ LoadFinished pid status :: events2)))
           = _exitCodes (this (run setup events1))
        /\ exited (run setup (events1 ++ LoadFinished pid status :: events2)) = None
        /\ length (pages (run setup (events1 ++ LoadFinished pid status :: events2)))
           = length (pages (run setup events1))).
Proof.
  split.
  - intros st pid p pre bad post Hp Hpf Hpre Hbad.
    pose proof (quiet_onInitialized pid p st) as Hq.
    unfold onInitialized in *. unfold bind at 1, get_this at 1 in Hq.
    unfold bind at 1, get_this at 1. rewrite Hpf in Hq |- *.
    destruct (inject_loop_fails pid Polyfill (pg_bVerbose p) pre bad post
                Hpre Hbad st p Hp)
      as (st' & evs & Heq & Ho & Hinj & Hab).
    rewrite Heq in Hq |- *. cbn [snd] in Hq.
    destruct Hq as (Ht & Hx & Hpi & evs' & Ho' & Hcalm).
    exists st', evs. split; [reflexivity|].
    assert (evs' = rev evs) as -> by (eapply app_inv_tail; rewrite <- Ho', Ho; reflexivity).
    rewrite forallb_rev in Hcalm.
    repeat split; auto using trace_app.
  - intros setup events1 events2 pid p status pre bad post Hne Hp Hl Hus Hpre Hbad.
    destruct (run_Inv setup events1 Hne) as (m & b & HI).
    destruct (Inv_at_loading _ _ _ _ _ _ HI Hp Hl) as (-> & -> & Hid & Hdone & Hx).
    assert (Hrun : run setup (events1 ++ LoadFinished m status :: events2)
                   = fold_left step events2
                       (step (run setup events1) (LoadFinished m status))).
    { unfold run. now rewrite fold_left_app. }
    rewrite Hrun. set (st1 := run setup events1) in *.
    pose proof (Inv_at_clear _ _ _ HI) as HI0.
    destruct (lookup_lt_is_Some_2 (pages (snd (clear_loading m st1))) m) as [p0 Hp0].
    { rewrite (Inv_at_length _ _ _ _ HI0). lia. }
    destruct (open_callback_fails m p p0 status pre bad post
                (snd (clear_loading m st1)) Hp0 Hus Hpre Hbad)
      as (st' & evs & Heq & Ho & Hinj & Hab & Hq).
    assert (Hstep : step st1 (LoadFinished m status)
                    = set_out (uncaught "Can't inject userscript into the page..."
                                 :: out st') st').
    { unfold step, turn. rewrite Hx. cbn [dispatch]. rewrite Hp, Hl.
      unfold bind at 1. unfold clear_loading at 1. cbn [snd] in Heq.
      unfold clear_loading in Heq. cbn [snd] in Heq. now rewrite Heq. }
    rewrite Hstep.
    set (st2 := set_out _ st').
    assert (HI2 : Inv_at (registered setup) m false st2).
    { eapply (Inv_at_qrel (fun e => negb (is_sched e))).
      - intros e. now destruct (is_sched e).
      - apply qrel_set_out; [reflexivity|].
        eapply qrel_mono; [|exact Hq]. intros e He.
        now rewrite (prelude_not_sched e He).
      - exact HI0. }
    pose proof (steps_calm _ _ events2 st2 HI2) as (Ht & Hx3 & Hpi & evs2 & Ho2 & Hcalm).
    exists evs, (rev evs2).
    destruct Hq as (Ht' & Hx' & Hpi' & _).
    repeat split.
    + unfold trace. rewrite Ho2. subst st2. cbn [out set_out]. rewrite Ho.
      unfold clear_loading. cbn [snd out set_pages].
      rewrite rev_app_distr. cbn [rev]. rewrite rev_app_distr, rev_involutive.
      now rewrite <- !app_assoc.
    + exact Hinj.
    + exact Hab.
    + now rewrite forallb_rev.
    + rewrite Ht. subst st2. cbn [this set_out]. now rewrite Ht'.
    + rewrite Hx3. subst st2. cbn [exited set_out]. rewrite Hx'. exact Hx.
    + rewrite <- !(length_map pinfo). rewrite Hpi. subst st2. cbn [pages set_out].
      rewrite Hpi'. rewrite !length_map. unfold clear_loading. cbn [snd pages set_pages].
      apply length_alter.
Qed.

(** * Further properties *)

(** ** The command line *)

Lemma append_assoc (a b c : string) : (a +:+ b) +:+ c = a +:+ b +:+ c.
Proof.
  induction a as [|x a IH]; [reflexivity|].
  change (String x ((a +:+ b) +:+ c) = String x (a +:+ b +:+ c)). now rewrite IH.
Qed.

Lemma match_xunitName_Some (arg cap : string) :
  match_xunitName arg = Some cap ->
  cap <> "" /\ exists pre post, arg = pre +:+ "--xunitName=" +:+ post.
Proof.
  induction arg as [|c arg IH]; [discriminate|].
  cbn [match_xunitName].
  destruct (String.prefix "--xunitName=" (String c arg)) eqn:Hp.
  - destruct (String.eqb (take_line (slice 12 (String c arg))) "") eqn:He.
    + intros H. destruct (IH H) as (Hne & pre & post & ->).
      split; [exact Hne|]. now exists (String c pre), post.
    + intros [= <-]. split; [now apply String.eqb_neq|].
      apply prefix_app in Hp as [post Hp]. now exists "", post.
  - intros H. destruct (IH H) as (Hne & pre & post & ->).
    split; [exact Hne|]. now exists (String c pre), post.
Qed.

Lemma take_line_one_line (s : string) : one_line s = true -> take_line s = s.
Proof.
  induction s as [|c s IH]; [reflexivity|]. cbn [one_line take_line].
  destruct (terminator_at (String c s)); [discriminate|].
  cbn. intros H. now rewrite IH.
Qed.

Lemma match_xunitName_flag (name : string) :
  name <> "" -> one_line name = true ->
  match_xunitName ("--xunitName=" +:+ name) = Some name.
Proof.
  intros Hne Hl. cbv [String.append]. cbn [match_xunitName].
  match goal with
  | |- context [String.prefix ?a ?b] =>
      assert (String.prefix a b = true) as -> by (apply prefix_app; now exists name)
  end.
  match goal with
  | |- context [slice 12 ?a] =>
      assert (slice 12 a = name) as -> by (destruct name; reflexivity)
  end.
  rewrite (take_line_one_line name Hl).
  apply String.eqb_neq in Hne. now rewrite Hne.
Qed.

(** X1: the name of the counters' variable is never empty; it is [assert] when
    no argument contains [--xunitName=]. *)
Theorem xunitName_default (aCmdArgs : list string) :
  String.eqb (cfg_xunitName (fst (parseCommandLineCfg aCmdArgs))) "" = false
  /\ ((forall arg pre post,
          In arg aCmdArgs -> arg <> pre +:+ "--xunitName=" +:+ post) ->
      cfg_xunitName (fst (parseCommandLineCfg aCmdArgs)) = "assert").
Proof.
  unfold parseCommandLineCfg. cbn [fst cfg_xunitName].
  set (f := fun (acc : option string) arg =>
              match match_xunitName arg with Some m => Some m | None => acc end).
  assert (H : forall args acc,
             (forall m, acc = Some m -> m <> "") ->
             (forall m, fold_left f args acc = Some m -> m <> "")
             /\ ((forall arg pre post,
                     In arg args -> arg <> pre +:+ "--xunitName=" +:+ post) ->
                 fold_left f args acc = acc)).
  { induction args as [|arg args IH]; intros acc Hacc; [now split|].
    cbn [fold_left]. destruct (IH (f acc arg)) as [IH1 IH2].
    { intros m. unfold f. destruct (match_xunitName arg) as [cap|] eqn:Hm.
      - intros [= <-]. now apply (match_xunitName_Some arg cap).
      - apply Hacc. }
    split; [exact IH1|]. intros Hno. rewrite IH2.
    - unfold f. destruct (match_xunitName arg) as [cap|] eqn:Hm; [|reflexivity].
      destruct (match_xunitName_Some arg cap Hm) as (_ & pre & post & Heq).
      exfalso. now apply (Hno arg pre post (or_introl eq_refl)).
    - intros a pre post Hin. apply Hno. now right. }
  destruct (H aCmdArgs None) as [H1 H2]; [discriminate|]. split.
  - destruct (fold_left f aCmdArgs None) as [m|] eqn:Hm; [|reflexivity].
    apply String.eqb_neq. now apply H1.
  - intros Hno. now rewrite H2.
Qed.

(** X2: the last argument that carries a name decides: after [--xunitName=NAME]
    with a non-empty one-line [NAME], arguments that do not contain
    [--xunitName=] leave [NAME] in place, whatever came before. *)
Theorem xunitName_last_wins (before after : list string) (name : string) :
  name <> "" ->
  one_line name = true ->
  (forall arg pre post, In arg after -> arg <> pre +:+ "--xunitName=" +:+ post) ->
  cfg_xunitName
    (fst (parseCommandLineCfg (before ++ ("--xunitName=" +:+ name) :: after)))
  = name.
Proof.
  intros Hne Hl Hafter. unfold parseCommandLineCfg. cbn [fst cfg_xunitName].
  rewrite fold_left_app. cbn [fold_left].
  rewrite (match_xunitName_flag name Hne Hl).
  assert (H : forall args acc,
             (forall arg pre post,
                 In arg args -> arg <> pre +:+ "--xunitName=" +:+ post) ->
             fold_left (fun (acc : option string) arg =>
                          match match_xunitName arg with
                          | Some m => Some m
                          | None => acc
                          end) args acc = acc).
  { induction args as [|arg args IH]; intros acc Hno; [reflexivity|].
    cbn [fold_left]. rewrite IH by (intros a pre post Hin; apply Hno; now right).
    destruct (match_xunitName arg) as [cap|] eqn:Hm; [|reflexivity].
    destruct (match_xunitName_Some arg cap Hm) as (_ & pre & post & Heq).
    exfalso. now apply (Hno arg pre post (or_introl eq_refl)). }
  now rewrite H.
Qed.

(** X3: a flag of the command line is on exactly when it is one of the
    arguments, as a whole argument and wherever it stands; the arguments are
    printed exactly when [--debug] is among them. *)
Theorem parseCommandLineCfg_flags (aCmdArgs : list string) :
  (cfg_color (fst (parseCommandLineCfg aCmdArgs)) = true <-> In "--color" aCmdArgs)
  /\ (cfg_debug (fst (parseCommandLineCfg aCmdArgs)) = true <-> In "--debug" aCmdArgs)
  /\ (cfg_verbose (fst (parseCommandLineCfg aCmdArgs)) = true <-> In "--verbose" aCmdArgs)
  /\ (In "--debug" aCmdArgs ->
      snd (parseCommandLineCfg aCmdArgs)
      = [console_log ("PhantomJS command line args : " +:+ join " " aCmdArgs)])
  /\ (snd (parseCommandLineCfg aCmdArgs) = [] <-> ~ In "--debug" aCmdArgs).
Proof.
  unfold parseCommandLineCfg. cbn [fst snd cfg_color cfg_debug cfg_verbose].
  pose proof (array_indexOf_In String.eqb aCmdArgs "--debug" String.eqb_eq) as Hd.
  split; [apply array_indexOf_In, String.eqb_eq|].
  split; [exact Hd|].
  split; [apply array_indexOf_In, String.eqb_eq|].
  destruct (array_indexOf String.eqb aCmdArgs "--debug" >? -1).
  - split; [reflexivity|]. split; [discriminate|]. intros Hn. exfalso. now apply Hn, Hd.
  - split; [intros Hin; apply Hd in Hin; discriminate|].
    split; [|reflexivity]. intros _ Hin. apply Hd in Hin. discriminate.
Qed.

(** ** Console messages of the page *)

Lemma lines_nonempty (s : string) : lines s <> [].
Proof.
  destruct s as [|c s]; [discriminate|]. cbn.
  destruct (Ascii.eqb c LF); [discriminate|]. now destruct (lines s).
Qed.

Lemma join_cons_cons sep x y l : join sep (x :: y :: l) = x +:+ sep +:+ join sep (y :: l).
Proof. reflexivity. Qed.

Lemma replace_newlines_join (sep s : string) :
  replace_newlines sep s = join sep (lines s).
Proof.
  induction s as [|c s IH]; [reflexivity|]. cbn [replace_newlines lines].
  pose proof (lines_nonempty s) as Hne.
  destruct (lines s) as [|l ls]; [contradiction|].
  destruct (Ascii.eqb c LF).
  - rewrite join_cons_cons, IH. reflexivity.
  - rewrite IH. destruct ls; reflexivity.
Qed.

Lemma lines_join (s : string) : join nl (lines s) = s.
Proof.
  induction s as [|c s IH]; [reflexivity|]. cbn [lines].
  pose proof (lines_nonempty s) as Hne.
  destruct (lines s) as [|l ls]; [contradiction|].
  destruct (Ascii.eqb_spec c LF) as [->|Hc].
  - rewrite join_cons_cons, IH. reflexivity.
  - rewrite <- IH. destruct ls; reflexivity.
Qed.

Lemma join_padded (pad : string) (l : string) (ls : list string) :
  pad +:+ join (nl +:+ pad) (l :: ls) = join nl (map (String.append pad) (l :: ls)).
Proof.
  revert l; induction ls as [|y ls IH]; intros l; [reflexivity|].
  rewrite join_cons_cons. cbn [map]. rewrite join_cons_cons.
  change ((pad +:+ y) :: map (String.append pad) ls)
    with (map (String.append pad) (y :: ls)).
  rewrite <- (IH y). now rewrite !append_assoc.
Qed.

(** X4: [page.onConsoleMessage] forwards a message of the page as one
    [console.log] call in which every line of the message, empty ones
    included, is prefixed with the padding; the lines are the pieces of the
    message between its line feeds. *)
Theorem onConsoleMessage_lines (msg : string) (st : state) :
  onConsoleMessage msg st
  = (Ok tt,
     set_out (console_log (join nl (map (String.append "  >>> ") (lines msg)))
                :: out st) st)
  /\ join nl (lines msg) = msg
  /\ length (lines msg)
     = S (length (List.filter (Ascii.eqb LF) (list_ascii_of_string msg))).
Proof.
  split; [|split].
  - unfold onConsoleMessage, console_log_call, emit.
    rewrite replace_newlines_join.
    pose proof (lines_nonempty msg) as Hne.
    destruct (lines msg) as [|l ls]; [contradiction|].
    now rewrite join_padded.
  - apply lines_join.
  - induction msg as [|c msg IH]; [reflexivity|]. cbn [lines list_ascii_of_string List.filter].
    pose proof (lines_nonempty msg) as Hne.
    rewrite (Ascii.eqb_sym LF c).
    destruct (lines msg) as [|l ls]; [contradiction|].
    destruct (Ascii.eqb c LF); cbn [length] in *; lia.
Qed.

(** ** The test script's calls *)

Lemma configure_settings (setup : list api_call) :
  forall st pf us,
    _polyfillPaths (this st) = Some pf ->
    _userScriptPaths (this st) = Some us ->
    exists t,
      configure setup st = (Ok tt, set_this t st)
      /\ _polyfillPaths t = Some (pf ++ polyfills_of setup)
      /\ _userScriptPaths t = Some (us ++ userScripts_of setup)
      /\ _config t
         = fold_left (fun acc c => match c with call_setConfig o => o | _ => acc end)
             setup (_config (this st))
      /\ _xunit t
         = fold_left (fun acc c => match c with call_setXUnit x => Some x | _ => acc end)
             setup (_xunit (this st)).
Proof.
  induction setup as [|c setup IH]; intros st pf us Hpf Hus.
  - exists (this st). cbn. unfold ret. rewrite set_this_id, !app_nil_r. auto.
  - change (configure (c :: setup)) with (call c ;; configure setup).
    unfold bind.
    assert (Hc : exists t1 pf1 us1,
               call c st = (Ok tt, set_this t1 st)
               /\ _polyfillPaths t1 = Some pf1 /\ _userScriptPaths t1 = Some us1
               /\ pf1 ++ polyfills_of setup = pf ++ polyfills_of (c :: setup)
               /\ us1 ++ userScripts_of setup = us ++ userScripts_of (c :: setup)
               /\ _config t1 = match c with call_setConfig o => o | _ => _config (this st) end
               /\ _xunit t1
                  = match c with call_setXUnit x => Some x | _ => _xunit (this st) end).
    { destruct c; cbn [call]; unfold userScript, polyfill, setConfig, setTestArgs,
        setXUnit, registerSuite; msimpl; rewrite ?Hpf, ?Hus; msimpl.
      - exists (set_userScriptPaths (Some (us ++ [path])) (this st)), pf, (us ++ [path]).
        cbn. rewrite <- app_assoc. repeat split; auto.
      - exists (set_polyfillPaths (Some (pf ++ [path])) (this st)), (pf ++ [path]), us.
        cbn. rewrite <- app_assoc. repeat split; auto.
      - eexists _, pf, us. split; [reflexivity|]. repeat split; auto.
      - eexists _, pf, us. split; [reflexivity|]. repeat split; auto.
      - eexists _, pf, us. split; [reflexivity|]. repeat split; auto.
      - eexists _, pf, us. split; [reflexivity|]. repeat split; auto. }
    destruct Hc as (t1 & pf1 & us1 & -> & Hpf1 & Hus1 & Epf & Eus & Hcf & Hx).
    destruct (IH (set_this t1 st) pf1 us1 Hpf1 Hus1) as (t & -> & Hpf' & Hus' & Hcf' & Hx').
    exists t. split; [reflexivity|]. cbn [this set_this fold_left] in *.
    rewrite Hpf', Hus', Hcf', Hx', Epf, Eus, Hcf, Hx. repeat split.
Qed.

(** X5: the calls a test script makes before [start()] never throw, and what
    they configure accumulates in call order: the polyfills and the user
    scripts in the order they were added, the suites in the order they
    were registered, the configuration object and the assertion library of
    the last call that set one; no page is made and nothing is printed. *)
Theorem configure_collects (setup : list api_call) :
  exists t,
    configure setup initial_state = (Ok tt, set_this t initial_state)
    /\ _polyfillPaths t = Some (polyfills_of setup)
    /\ _userScriptPaths t = Some (userScripts_of setup)
    /\ _registeredSuites t = registered setup
    /\ _config t = config_of setup
    /\ _xunit t = xunit_of setup
    /\ _exitCodes t = [].
Proof.
  destruct (configure_settings setup initial_state [] [] eq_refl eq_refl)
    as (t & Heq & Hpf & Hus & Hcf & Hx).
  destruct (configure_spec setup initial_state) as (t' & Heq' & Hs & Hc & _);
    [now eexists | now eexists |].
  rewrite Heq in Heq'. assert (t' = t) as -> by (now inversion Heq').
  exists t. repeat split; auto.
Qed.

(** ** The exit status *)

Lemma run_empty (setup : list api_call) (events : list driver_event) :
  registered setup = [] -> exited (run setup events) = Some 98.
Proof.
  intros Hnone. unfold run.
  destruct (run_start setup) as (t & -> & Hs & Hc & _).
  assert (Hstart : exited (turn start (set_this t initial_state)) = Some 98).
  { unfold turn, start. cbn [exited initial_state set_this]. msimpl.
    rewrite Hs, Hnone. reflexivity. }
  now rewrite (steps_exited events _ 98).
Qed.

(** X6: whatever the test script and the driver do, the process exits, if it
    does, with 98, 0 or 99: with 98 exactly when no suite was registered,
    and otherwise with 0 or 99. *)
Theorem exit_status_values (setup : list api_call) (events : list driver_event) (c : Z) :
  exited (run setup events) = Some c ->
  (registered setup = [] /\ c = 98)
  \/ (registered setup <> [] /\ (c = 0 \/ c = 99)).
Proof.
  intros Hx. destruct (registered setup) as [|a regs] eqn:Hregs.
  - left. split; [reflexivity|].
    rewrite (run_empty setup events Hregs) in Hx. now inversion Hx.
  - right. split; [discriminate|].
    destruct (run_Inv setup events) as (m & b & _ & _ & _ & _ & Hex);
      [rewrite Hregs; discriminate|].
    rewrite Hx in Hex. destruct Hex as (_ & _ & _ & ->).
    unfold final_code. destruct (_ >? _); auto.
Qed.

(** ** Callbacks do not read the output *)

Lemma regular_on_mono {A} (P Q : event -> bool) st (c : M A) :
  (forall e, P e = true -> Q e = true) -> regular_on P st c -> regular_on Q st c.
Proof.
  intros HPQ (evs & Ho & Hf & Hs & Hob). exists evs. repeat split; auto.
  rewrite forallb_forall in *. auto.
Qed.

Lemma regular_on_ret {A} P st (a : A) : regular_on P st (ret a).
Proof. exists []. repeat split. Qed.

Lemma regular_on_throw {A} P st msg : regular_on P st (@throw A msg).
Proof. exists []. repeat split. Qed.

Lemma regular_on_emit P st e : P e = true -> regular_on P st (emit e).
Proof. intros He. exists [e]. repeat split. cbn. now rewrite He. Qed.

Lemma regular_on_put P st t :
  settings t = settings (this st) -> regular_on P st (put_this t).
Proof. intros Hs. exists []. repeat split. exact Hs. Qed.

Lemma regular_on_get {A} P st (k : tester -> M A) :
  regular_on P st (k (this st)) -> regular_on P st (bind get_this k).
Proof. intros H. exact H. Qed.

Lemma regular_on_bind {A B} P st (c : M A) (k : A -> M B) :
  regular_on P st c ->
  (forall a, fst (c st) = Ok a -> regular_on P (snd (c st)) (k a)) ->
  regular_on P st (bind c k).
Proof.
  intros (evs1 & Ho1 & Hf1 & Hs1 & Hob1) Hk. unfold regular_on, bind.
  destruct (c st) as [[a|msg] st1] eqn:Hc; cbn [fst snd] in *.
  - destruct (Hk a eq_refl) as (evs2 & Ho2 & Hf2 & Hs2 & Hob2).
    exists (evs2 ++ evs1). destruct (k a st1) as [r2 st2] eqn:Hka; cbn [fst snd] in *.
    repeat split.
    + now rewrite Ho2, Ho1, app_assoc.
    + now rewrite forallb_app, Hf1, Hf2.
    + congruence.
    + intros o. rewrite Hob1, Hob2. now rewrite app_assoc.
  - exists evs1. repeat split; auto. intros o. now rewrite Hob1.
Qed.

Lemma regular_on_in_page {A} P st pid (f : Window -> A * Window) :
  regular_on P st (in_page pid f).
Proof.
  exists []. unfold in_page. cbn [pages set_out].
  destruct (pages st !! pid) as [p|]; [|repeat split].
  destruct (f (pg_window p)) as [a w]. repeat split.
Qed.

Lemma regular_on_verbose_log P st bVerbose msg :
  (forall s, P (console_log s) = true) -> regular_on P st (verbose_log bVerbose msg).
Proof.
  intros HP. unfold verbose_log.
  destruct (truthy bVerbose); [apply regular_on_emit, HP | apply regular_on_ret].
Qed.

Lemma regular_on_page_injectJs_call P st pid site path :
  (forall b, P (page_injectJs pid site path b) = true) ->
  regular_on P st (page_injectJs_call pid site path).
Proof.
  intros HP. unfold regular_on, page_injectJs_call. cbn [pages set_out].
  destruct (pages st !! pid) as [p|]; [|exists []; repeat split].
  destruct (injectJs E pid path (pg_window p)) as [w|];
    eexists [_]; repeat split; cbn; now rewrite HP.
Qed.

Lemma regular_on_inject_loop P pid site bVerbose paths :
  (forall s, P (console_log s) = true) ->
  (forall path b, P (page_injectJs pid site path b) = true) ->
  forall st, regular_on P st (inject_loop pid site bVerbose paths).
Proof.
  intros Hlog Hinj. induction paths as [|path paths IH]; intros st; cbn [inject_loop].
  - apply regular_on_ret.
  - apply regular_on_bind; [now apply regular_on_verbose_log|]. intros _ _.
    apply regular_on_bind; [now apply regular_on_page_injectJs_call|]. intros [|] _.
    + apply IH.
    + apply regular_on_throw.
Qed.

Lemma regular_on_testRunner_start P pid testArgs q :
  (forall s, P (console_log s) = true) ->
  (forall n ok, P (page_evaluate_test pid n ok) = true) ->
  forall st, regular_on P st (testRunner_start pid testArgs q).
Proof.
  intros Hlog Hev. induction q as [|t q IH]; intros st; cbn [testRunner_start].
  - apply regular_on_ret.
  - apply regular_on_bind.
    + unfold page_evaluate_test_call.
      apply regular_on_bind; [apply regular_on_in_page|]. intros ok _.
      apply regular_on_bind; [apply regular_on_emit, Hev|]. intros _ _.
      apply regular_on_ret.
    + intros ok _.
      apply regular_on_bind; [apply regular_on_emit, Hlog|]. intros _ _. apply IH.
Qed.

Lemma regular_on_onInitialized pid p st : regular_on is_calm st (onInitialized pid p).
Proof.
  unfold onInitialized. apply regular_on_get.
  destruct (_polyfillPaths (this st)); [|apply regular_on_throw].
  now apply regular_on_inject_loop.
Qed.

Lemma regular_on_onError p msg trace st : regular_on is_console st (onError p msg trace).
Proof.
  unfold onError. apply regular_on_bind.
  - destruct (_ && _); [|apply regular_on_ret].
    destruct (negb _); [now apply regular_on_emit | apply regular_on_ret].
  - intros _ _. destruct (_ >=? _); [now apply regular_on_emit | apply regular_on_ret].
Qed.

Lemma regular_on_onConsoleMessage msg st : regular_on is_console st (onConsoleMessage msg).
Proof. now apply regular_on_emit. Qed.

Lemma regular_on_open_callback_prelude pid p status st :
  regular_on is_prelude st (open_callback_prelude pid p status).
Proof.
  unfold open_callback_prelude.
  apply regular_on_bind; [now apply regular_on_verbose_log|]. intros _ _.
  apply regular_on_bind; [now apply regular_on_verbose_log|]. intros _ _.
  apply regular_on_get.
  destruct (_userScriptPaths _); [|apply regular_on_throw].
  apply regular_on_bind; [now apply regular_on_inject_loop|]. intros _ _.
  apply regular_on_bind; [now apply regular_on_verbose_log|]. intros _ _.
  apply regular_on_get.
  apply regular_on_bind.
  { destruct (_xunit _); [now apply regular_on_verbose_log | apply regular_on_ret]. }
  intros _ _. apply regular_on_bind.
  { unfold page_evaluate_xunit_call.
    apply regular_on_bind; [apply regular_on_in_page|]. intros _ _.
    now apply regular_on_emit. }
  intros _ _. apply regular_on_bind; [now apply regular_on_verbose_log|]. intros _ _.
  now apply regular_on_testRunner_start.
Qed.

Lemma regular_on_openAndTest url feed suiteId done st :
  regular_on is_tail st (openAndTest url feed suiteId done).
Proof.
  unfold openAndTest. apply regular_on_get.
  apply regular_on_bind; [now apply regular_on_put|]. intros _ _.
  apply regular_on_bind.
  - eexists [_]. unfold webpage_create_call. cbn. repeat split.
  - intros pid _. unfold regular_on, page_open_call. cbn [pages set_out].
    match goal with |- context [?l !! pid] => destruct (l !! pid) end;
      [eexists [_] | exists []]; repeat split.
Qed.

Lemma regular_on_startSuite n st : regular_on is_tail st (_startSuite n).
Proof.
  unfold _startSuite. apply regular_on_get.
  destruct (_registeredSuites (this st) !! n) as [a|]; [|apply regular_on_throw].
  apply regular_on_bind.
  { destruct (0 <? n)%nat; [now apply regular_on_emit | apply regular_on_ret]. }
  intros _ _. apply regular_on_bind; [now apply regular_on_emit|]. intros _ _.
  apply regular_on_bind.
  { unfold _getSuiteDoneCb. apply regular_on_get, regular_on_ret. }
  intros cb _. apply regular_on_get.
  apply regular_on_bind; [now apply regular_on_put|]. intros _ _.
  apply regular_on_openAndTest.
Qed.

Lemma regular_on_suiteDoneCb cb exitCode st :
  regular_on is_tail st (suiteDoneCb cb exitCode).
Proof.
  unfold suiteDoneCb.
  apply regular_on_bind; [now apply regular_on_emit|]. intros _ _.
  apply regular_on_get.
  apply regular_on_bind; [now apply regular_on_put|]. intros _ _.
  destruct (_ <? _)%nat; [apply regular_on_startSuite|].
  apply regular_on_get.
  apply regular_on_bind.
  { destruct (_ >? _); now apply regular_on_emit. }
  intros _ _. eexists [_]. unfold phantom_exit_call. cbn. repeat split.
Qed.

Lemma regular_on_onTestSuiteFinished pid suite_id suite_count cb st :
  regular_on is_tail st (onTestSuiteFinished pid suite_id suite_count (suiteDoneCb cb)).
Proof.
  unfold onTestSuiteFinished. apply regular_on_bind.
  { unfold page_evaluate_tally_call.
    apply regular_on_bind; [apply regular_on_in_page|]. intros a _.
    apply regular_on_bind; [now apply regular_on_emit|]. intros _ _.
    apply regular_on_ret. }
  intros [asserts|] _; [|apply regular_on_throw].
  apply regular_on_bind; [now apply regular_on_emit|]. intros _ _.
  apply regular_on_suiteDoneCb.
Qed.

Lemma regular_on_open_callback pid p status st :
  regular_on (fun e => is_prelude e || is_tail e) st (open_callback pid p status).
Proof.
  assert (H : regular_on (fun e => is_prelude e || is_tail e) st
                (open_callback_prelude pid p status ;;
                 t2 <- get_this ;;
                 onTestSuiteFinished pid (pg_suiteId p) (length (_registeredSuites t2))
                   (suiteDoneCb (pg_done p)))).
  { apply regular_on_bind.
    - eapply regular_on_mono; [|apply regular_on_open_callback_prelude].
      intros e ->. reflexivity.
    - intros _ _. apply regular_on_get.
      eapply regular_on_mono; [|apply regular_on_onTestSuiteFinished].
      intros e ->. apply orb_true_r. }
  destruct H as (evs & Ho & Hf & Hs & Hob).
  exists evs. rewrite open_callback_split. repeat split; auto.
  intros o. rewrite open_callback_split. apply Hob.
Qed.

Lemma regular_on_start st : regular_on is_tail st start.
Proof.
  unfold start. apply regular_on_get.
  destruct (_ <? _)%nat; [apply regular_on_startSuite|].
  apply regular_on_bind; [now apply regular_on_emit|]. intros _ _.
  eexists [_]. unfold phantom_exit_call. cbn. repeat split.
Qed.

(** One turn of the event loop adds to the output, keeps the settings and
    does not depend on what the output held. *)
Lemma step_regular (st : state) (ev : driver_event) :
  exists evs,
    out (step st ev) = evs ++ out st
    /\ settings (this (step st ev)) = settings (this st)
    /\ forall o, step (set_out o st) ev = set_out (evs ++ o) (step st ev).
Proof.
  unfold step, turn. cbn [exited set_out].
  destruct (exited st) eqn:Hx.
  { exists []. repeat split. }
  assert (H : regular_on (fun _ => true) st (dispatch ev)).
  { unfold regular_on, dispatch. cbn [pages set_out].
    destruct ev as [pid|pid status|pid msg tr|pid msg];
      (destruct (pages st !! pid) as [p|]; [|exists []; repeat split]).
    - eapply regular_on_mono; [|apply regular_on_onInitialized]. reflexivity.
    - destruct (pg_loading p); [|exists []; repeat split].
      apply regular_on_bind.
      + exists []. unfold clear_loading. repeat split.
      + intros _ _. eapply regular_on_mono; [|apply regular_on_open_callback].
        reflexivity.
    - eapply regular_on_mono; [|apply regular_on_onError]. reflexivity.
    - eapply regular_on_mono; [|apply regular_on_onConsoleMessage]. reflexivity. }
  destruct H as (evs & Ho & _ & Hs & Hob).
  destruct (dispatch ev st) as [[[]|msg] st'] eqn:Hd; cbn [fst snd] in *.
  - exists evs. repeat split; auto. intros o. now rewrite Hob.
  - exists (uncaught msg :: evs). cbn [out set_out this]. rewrite Ho.
    repeat split; auto. intros o. now rewrite Hob.
Qed.

(** ** Page errors and console messages *)

Lemma set_out_id st : set_out (out st) st = st.
Proof. now destruct st. Qed.

Lemma onError_emits p msg tr st :
  exists evs,
    onError p msg tr st = (Ok tt, set_out (evs ++ out st) st)
    /\ forallb is_console evs = true.
Proof.
  unfold onError. msimpl.
  destruct (truthy (pg_bDebug p) && negb (indexOf msg magicString >=? 0));
    [destruct (negb _)|]; msimpl;
    destruct (indexOf msg magicString >=? 0); msimpl;
    first [ exists [] ; split; [cbn [app]; now rewrite set_out_id | reflexivity]
          | eexists [_]; split; reflexivity
          | eexists [_; _]; split; reflexivity ].
Qed.

Lemma noise_step (st : state) (ev : driver_event) :
  is_noise ev = true ->
  exists evs,
    step st ev = set_out (evs ++ out st) st /\ forallb is_console evs = true.
Proof.
  intros Hn. unfold step, turn.
  destruct (exited st);
    [exists []; split; [cbn [app]; now rewrite set_out_id | reflexivity]|].
  destruct ev as [pid|pid status|pid msg tr|pid msg]; try discriminate; cbn [dispatch];
    (destruct (pages st !! pid) as [p|];
     [|exists []; split; [cbn [app]; now rewrite set_out_id | reflexivity]]).
  - destruct (onError_emits p msg tr st) as (evs & -> & Hf). now exists evs.
  - eexists [_]. split; reflexivity.
Qed.

Lemma console_filtered (evs : list event) :
  forallb is_console evs = true ->
  List.filter (fun e => negb (is_console e)) evs = [].
Proof.
  induction evs as [|e evs IH]; [reflexivity|]. cbn.
  intros [-> H]%andb_prop. cbn. auto.
Qed.

Lemma steps_without_noise (events : list driver_event) :
  forall st1 st2,
    this st1 = this st2 -> pages st1 = pages st2 -> exited st1 = exited st2 ->
    List.filter (fun e => negb (is_console e)) (out st1)
    = List.filter (fun e => negb (is_console e)) (out st2) ->
    this (fold_left step events st1)
    = this (fold_left step (List.filter (fun ev => negb (is_noise ev)) events) st2)
    /\ pages (fold_left step events st1)
       = pages (fold_left step (List.filter (fun ev => negb (is_noise ev)) events) st2)
    /\ exited (fold_left step events st1)
       = exited (fold_left step (List.filter (fun ev => negb (is_noise ev)) events) st2)
    /\ List.filter (fun e => negb (is_console e)) (out (fold_left step events st1))
       = List.filter (fun e => negb (is_console e))
           (out (fold_left step (List.filter (fun ev => negb (is_noise ev)) events) st2)).
Proof.
  induction events as [|ev events IH]; intros st1 st2 Ht Hp Hx Ho; [auto|].
  cbn [fold_left List.filter]. destruct (is_noise ev) eqn:Hn; cbn [negb fold_left].
  - destruct (noise_step st1 ev Hn) as (evs & -> & Hf).
    apply IH; auto. cbn [out set_out].
    now rewrite List.filter_app, (console_filtered evs Hf).
  - destruct (step_regular st2 ev) as (evs & Ho2 & _ & Hob).
    assert (Hst1 : st1 = set_out (out st1) st2).
    { destruct st1, st2. cbn in *. now subst. }
    rewrite Hst1, Hob. apply IH; auto. cbn [out set_out].
    now rewrite Ho2, !List.filter_app, Ho.
Qed.

(** X7: the errors and the console messages of the pages change nothing but
    what is printed: a run with them and the run without them end with the
    same module object (registry, recorded exit codes), the same pages with
    the same counters, the same exit status, and, console lines apart, the
    same trace. *)
Theorem page_reports_only_print (setup : list api_call) (events : list driver_event) :
  this (run setup events)
  = this (run setup (List.filter (fun ev => negb (is_noise ev)) events))
  /\ pages (run setup events)
     = pages (run setup (List.filter (fun ev => negb (is_noise ev)) events))
  /\ exited (run setup events)
     = exited (run setup (List.filter (fun ev => negb (is_noise ev)) events))
  /\ List.filter (fun e => negb (is_console e)) (trace (run setup events))
     = List.filter (fun e => negb (is_console e))
         (trace (run setup (List.filter (fun ev => negb (is_noise ev)) events))).
Proof.
  unfold run, trace. rewrite !List.filter_rev.
  destruct (steps_without_noise events
              (turn (configure setup ;; start) initial_state)
              (turn (configure setup ;; start) initial_state))
    as (Ht & Hp & Hx & Ho); auto.
  rewrite Ho. auto.
Qed.

(** ** A load that goes well *)

(** The settings of the module stay what the test script made them. *)
Lemma run_settings (setup : list api_call) (events : list driver_event) :
  _polyfillPaths (this (run setup events)) = Some (polyfills_of setup)
  /\ _userScriptPaths (this (run setup events)) = Some (userScripts_of setup)
  /\ _xunit (this (run setup events)) = xunit_of setup.
Proof.
  destruct (configure_settings setup initial_state [] [] eq_refl eq_refl)
    as (t & Heq & Hpf & Hus & _ & Hx).
  assert (H0 : settings (this (turn (configure setup ;; start) initial_state))
               = settings t).
  { unfold turn, bind. cbn [exited initial_state]. rewrite Heq.
    destruct (regular_on_start (set_this t initial_state)) as (evs & _ & _ & Hs & _).
    destruct (start (set_this t initial_state)) as [[[]|msg] st']; exact Hs. }
  assert (H : settings (this (run setup events)) = settings t).
  { unfold run. rewrite <- H0.
    generalize (turn (configure setup ;; start) initial_state) as st.
    induction events as [|ev events IH]; intros st; [reflexivity|].
    cbn [fold_left]. rewrite IH.
    now destruct (step_regular st ev) as (evs & _ & Hs & _). }
  unfold settings in H. inversion H as [[H1 H2 H3 H4]].
  rewrite H3, H4, H1. auto.
Qed.

(** When the driver accepts every path, the injection loop injects them
    all, in order, and returns. *)
Lemma inject_loop_ok pid site bVerbose (paths : list string) :
  (forall path, In path paths -> forall w, is_Some (injectJs E pid path w)) ->
  forall st p,
    pages st !! pid = Some p ->
    exists st' evs p',
      inject_loop pid site bVerbose paths st = (Ok tt, st')
      /\ out st' = rev evs ++ out st
      /\ injections site evs = map (fun path => (path, true)) paths
      /\ forallb is_abort evs = true
      /\ pages st' !! pid = Some p'
      /\ this st' = this st.
Proof.
  induction paths as [|path paths IH]; intros Hall st p Hp; cbn [inject_loop].
  - exists st, [], p. repeat split. exact Hp.
  - unfold bind at 1.
    destruct (verbose_log_spec bVerbose
                (" * Injecting the " +:+ site_name site +:+ "... (" +:+ path +:+ ")") st)
      as (logs & -> & Hlogs).
    destruct (log_lines_rev logs site Hlogs) as [Hli Hla].
    unfold bind at 1, page_injectJs_call at 1. cbn [pages set_out]. rewrite Hp.
    destruct (Hall path (or_introl eq_refl) (pg_window p)) as [w ->].
    match goal with
    | |- context [inject_loop _ _ _ _ ?s] =>
        destruct (IH (fun q Hq => Hall q (or_intror Hq)) s (set_window w p))
          as (st' & evs & p' & -> & Ho' & Hinj & Hab & Hp' & Ht')
    end.
    { cbn [pages set_pages set_out]. apply list_lookup_insert_eq.
      eapply lookup_lt_Some, Hp. }
    exists st', (rev logs ++ page_injectJs pid site path true :: evs), p'.
    split; [reflexivity|]. cbn [out set_out set_pages this] in Ho', Ht'.
    change (page_injectJs pid site path true :: evs)
      with ([page_injectJs pid site path true] ++ evs).
    rewrite !injections_app, !forallb_app, Hli, Hla, Hinj, Hab.
    repeat split; auto.
    + rewrite Ho', !rev_app_distr, rev_involutive. cbn [rev app].
      now rewrite <- !app_assoc.
    + cbn. now destruct site.
Qed.

Lemma calm_no_userscript (evs : list event) :
  forallb is_calm evs = true -> injections UserScript evs = [].
Proof.
  induction evs as [|e evs IH]; [reflexivity|]. cbn [forallb].
  intros [He H]%andb_prop. change (e :: evs) with ([e] ++ evs).
  rewrite injections_app, (IH H), app_nil_r.
  destruct e as [| | | |? [] ? ?| | | | | |]; try discriminate; reflexivity.
Qed.

(** X8: in a run, when the driver accepts the polyfills, [page.onInitialized]
    injects every path given to [polyfill], in the order of the calls, and
    does nothing else but log. *)
Theorem polyfills_in_call_order (setup : list api_call) (events : list driver_event)
  (pid : nat) (p : page) :
  pages (run setup events) !! pid = Some p ->
  exited (run setup events) = None ->
  (forall path, In path (polyfills_of setup) ->
                forall w, is_Some (injectJs E pid path w)) ->
  exists evs,
    trace (run setup (events ++ [Initialized pid])) = trace (run setup events) ++ evs
    /\ injections Polyfill evs = map (fun path => (path, true)) (polyfills_of setup)
    /\ injections UserScript evs = []
    /\ forallb is_abort evs = true
    /\ this (run setup (events ++ [Initialized pid])) = this (run setup events)
    /\ exited (run setup (events ++ [Initialized pid])) = None.
Proof.
  intros Hp Hx Hall.
  assert (Hrun : run setup (events ++ [Initialized pid])
                 = step (run setup events) (Initialized pid)).
  { unfold run. now rewrite fold_left_app. }
  rewrite Hrun. set (st := run setup events) in *.
  destruct (run_settings setup events) as (Hpf & _ & _). fold st in Hpf.
  pose proof (quiet_onInitialized pid p st) as Hq.
  destruct (inject_loop_ok pid Polyfill (pg_bVerbose p) (polyfills_of setup)
              Hall st p Hp) as (st' & evs & p' & Heq & Ho & Hinj & Hab & _ & Ht).
  assert (Hinit : onInitialized pid p st = (Ok tt, st')).
  { unfold onInitialized, bind, get_this. now rewrite Hpf, Heq. }
  assert (Hstep : step st (Initialized pid) = st').
  { unfold step, turn. rewrite Hx. cbn [dispatch]. now rewrite Hp, Hinit. }
  rewrite Hstep. rewrite Hinit in Hq. cbn [snd] in Hq.
  destruct Hq as (_ & Hx' & _ & evs' & Ho' & Hcalm).
  assert (evs' = rev evs) as -> by (eapply app_inv_tail; rewrite <- Ho', Ho; reflexivity).
  rewrite forallb_rev in Hcalm.
  exists evs. repeat split; auto using trace_app, calm_no_userscript.
  now rewrite Hx'.
Qed.





(** ** Runs that complete *)











(** ** Runs that stall *)


End PhantomTester.

(** * The properties at work on sample runs *)

(** The counters of [sample_page] read (2, 1): the callback gets 99. *)
Lemma onTestSuiteFinished_exit_code_witness :
  exists code line,
    onTestSuiteFinished (sample_env [] "") 0 0 1 phantom_exit_call sample_state
    = phantom_exit_call code
        (set_out (console_log line
                    :: page_evaluate_tally 0 (cfg_xunitName (CFG (sample_env [] "")))
                    :: out sample_state) sample_state)
    /\ (code = 99 <-> 1 > 0)
    /\ (code = 0 <-> ~ 1 > 0)
    /\ (2 = 0 -> 1 = 0 -> code = 0).
Proof.
  apply (onTestSuiteFinished_exit_code (sample_env [] "") 0 0 1 phantom_exit_call
           sample_state sample_page 2 1); reflexivity.
Defined.

(** Two suites, the first with a failing test: the run exits with 99. *)
Lemma final_exit_status_witness :
  (99 = 99
   <-> In 99 (_exitCodes
                (this (run (sample_env [] "") two_suites
                         [LoadFinished 0 "success"; LoadFinished 1 "success"]))))
  /\ (99 = 0
      <-> ~ In 99 (_exitCodes
                     (this (run (sample_env [] "") two_suites
                              [LoadFinished 0 "success"; LoadFinished 1 "success"]))))
  /\ length (_exitCodes
               (this (run (sample_env [] "") two_suites
                        [LoadFinished 0 "success"; LoadFinished 1 "success"])))
     = length (registered two_suites)
  /\ map snd (dones (trace (run (sample_env [] "") two_suites
                              [LoadFinished 0 "success"; LoadFinished 1 "success"])))
     = _exitCodes
         (this (run (sample_env [] "") two_suites
                  [LoadFinished 0 "success"; LoadFinished 1 "success"])).
Proof.
  apply (final_exit_status (sample_env [] "") two_suites
           [LoadFinished 0 "success"; LoadFinished 1 "success"] 99).
  - discriminate.
  - vm_compute. reflexivity.
Defined.

(** A test script that registers nothing. *)
Lemma start_without_suites_witness :
  exited (run (sample_env [] "") [call_polyfill "pf.js"] [Initialized 0])
  = Some 98
  /\ pages (run (sample_env [] "") [call_polyfill "pf.js"] [Initialized 0]) = []
  /\ trace (run (sample_env [] "") [call_polyfill "pf.js"] [Initialized 0])
     = snd (parseCommandLineCfg (system_args (sample_env [] "")))
         ++ [console_error "No suites registered!"; phantom_exit 98]
  /\ creations (trace (run (sample_env [] "") [call_polyfill "pf.js"] [Initialized 0]))
     = [].
Proof.
  apply (start_without_suites (sample_env [] "") [call_polyfill "pf.js"] [Initialized 0]).
  reflexivity.
Defined.

(** An assertion failure as the page reports it. *)
Lemma onError_assert_fail_witness :
  exists line,
    onError sample_page "Error: ASSERT_FAIL: 1 != 2" (Some [sample_frame]) sample_state
    = (Ok tt, set_out (console_error line :: out sample_state) sample_state)
    /\ (forall rest,
           "Error: ASSERT_FAIL: 1 != 2" = "Error: " +:+ rest ->
           line = rest /\ indexOf rest magicString >= 0).
Proof.
  apply (onError_assert_fail sample_page "Error: ASSERT_FAIL: 1 != 2"
           (Some [sample_frame]) sample_state).
  vm_compute. discriminate.
Defined.

(** C4, the claim as stated fails: for the message
    "Error: ASSERT_FAIL: 1 != 2" the line printed is "ASSERT_FAIL: 1 != 2",
    which still starts with the marker, and not the message without the
    marker. *)
Lemma onError_keeps_the_marker :
  onError sample_page "Error: ASSERT_FAIL: 1 != 2" None sample_state
  = (Ok tt, set_out [console_error "ASSERT_FAIL: 1 != 2"] sample_state)
  /\ spec_strip_marker "Error: ASSERT_FAIL: 1 != 2" = "Error: : 1 != 2"
  /\ indexOf "ASSERT_FAIL: 1 != 2" magicString = 0.
Proof. repeat split. Qed.


(** On a page made under [debug_state], whose ignore-list holds
    "ResizeObserver": an error is printed with its frame, an ignored one is
    not, and a frame without a file and without a function is printed with
    its source URL alone. *)
Example onError_follows_the_configuration :
  map (fun p =>
         (out (snd (onError p "TypeError: boom"
                      (Some [sample_frame; bare_frame]) sample_state)),
          out (snd (onError p "ResizeObserver loop limit exceeded"
                      (Some [sample_frame]) sample_state))))
    (drop 1 (pages (snd (openAndTest (sample_env [] "") "http://b/" [] 1
                           {| cb_n := 1; cb_nSuites := 2 |} debug_state))))
  = [([console_error
         ("PHANTOM ERROR: TypeError: boom" +:+ nl
          +:+ " -> a.js: 12 (in function f)" +:+ nl
          +:+ " -> http://a/lib.js: 3" +:+ nl)],
      [])].
Proof. reflexivity. Qed.

(** What is printed for that error, and that an ignored one prints
    nothing. *)
Example onError_prints_the_stack :
  onError sample_page "TypeError: boom" (Some [sample_frame]) sample_state
  = (Ok tt,
     set_out [console_error
                ("PHANTOM ERROR: TypeError: boom" +:+ nl
                 +:+ " -> a.js: 12 (in function f)" +:+ nl)] sample_state)
  /\ onError sample_page "ResizeObserver loop limit exceeded" None sample_state
     = (Ok tt, sample_state).
Proof. split; reflexivity. Qed.

(** A queue of three tests, the second of which throws. *)
Lemma testRunner_start_fifo_witness :
  exists st',
    testRunner_start (sample_env [] "") 0 (JObj [])
      (feedRunnerWithTests [("t1", passing); ("t2", failing); ("t3", passing)] [])
      sample_state
    = (Ok tt, st')
    /\ trace st'
       = trace sample_state
           ++ fst (spec_drain (sample_env [] "") 0 (JObj [])
                     [("t1", passing); ("t2", failing); ("t3", passing)]
                     (pg_window sample_page))
    /\ pages st'
       = <[0%nat := set_window
                      (snd (spec_drain (sample_env [] "") 0 (JObj [])
                              [("t1", passing); ("t2", failing); ("t3", passing)]
                              (pg_window sample_page))) sample_page]>
           (pages sample_state)
    /\ this st' = this sample_state
    /\ exited st' = exited sample_state
    /\ evaluated_tests
         (fst (spec_drain (sample_env [] "") 0 (JObj [])
                 [("t1", passing); ("t2", failing); ("t3", passing)]
                 (pg_window sample_page)))
       = map fst [("t1", passing); ("t2", failing); ("t3", passing)]
    /\ length
         (logged_lines
            (fst (spec_drain (sample_env [] "") 0 (JObj [])
                    [("t1", passing); ("t2", failing); ("t3", passing)]
                    (pg_window sample_page))))
       = length [("t1", passing); ("t2", failing); ("t3", passing)].
Proof.
  apply (testRunner_start_fifo (sample_env [] "") 0 (JObj [])
           [("t1", passing); ("t2", failing); ("t3", passing)]
           sample_state sample_page).
  reflexivity.
Defined.

(** With the failure barrier of the specification, the test after a failing
    one still runs, and the counters of the page end at 4 good and 2 bad. *)
Example drain_after_a_failure :
  fst (spec_drain (sample_env [] "") 0 (JObj [])
         [("t1", passing); ("t2", failing); ("t3", passing)] (pg_window sample_page))
  = [page_evaluate_test 0 "t1" (JBool true); console_log " [ OK ] t1";
     page_evaluate_test 0 "t2" (JBool false); console_log " [FAIL] t2";
     page_evaluate_test 0 "t3" (JBool true); console_log " [ OK ] t3"]
  /\ snd (spec_drain (sample_env [] "") 0 (JObj [])
            [("t1", passing); ("t2", failing); ("t3", passing)] (pg_window sample_page))
     !! "assert"
     = Some {| _goodAsserts := 4; _badAsserts := 2 |}.
Proof. split; vm_compute; reflexivity. Qed.

(** Registering a second suite while the first is loading. *)
Lemma registerSuite_appends_witness :
  (forall st,
      registerSuite "http://c/" [] st
      = (Ok tt,
         set_this
           (set_registeredSuites
              (_registeredSuites (this st)
                 ++ [ {| a_url := "http://c/"; a_feed := []; a_pushed := [] |} ])
              (this st)) st))
  /\ exists st',
      registerSuite "http://c/" [] (run (sample_env [] "") one_suite [Initialized 0])
      = (Ok tt, st')
      /\ length (_registeredSuites (this st')) = S (length (registered one_suite))
      /\ last (_registeredSuites (this st'))
         = Some {| a_url := "http://c/"; a_feed := []; a_pushed := [] |}
      /\ _exitCodes (this st')
         = _exitCodes (this (run (sample_env [] "") one_suite [Initialized 0]))
      /\ pages st' = pages (run (sample_env [] "") one_suite [Initialized 0])
      /\ out st' = out (run (sample_env [] "") one_suite [Initialized 0])
      /\ exited st' = exited (run (sample_env [] "") one_suite [Initialized 0]).
Proof.
  apply (registerSuite_appends (sample_env [] "") one_suite [Initialized 0] "http://c/" []).
  discriminate.
Defined.

(** C7, the claim as stated fails: after [start()] has opened the page of
    the only suite, [registerSuite] returns normally and the registry has
    two entries. *)
Lemma registerSuite_after_start_succeeds :
  opens (trace (run (sample_env [] "") one_suite [])) = [(0%nat, "http://a/")]
  /\ fst (registerSuite "http://c/" [] (run (sample_env [] "") one_suite [])) = Ok tt
  /\ map a_url
       (_registeredSuites
          (this (snd (registerSuite "http://c/" []
                        (run (sample_env [] "") one_suite [])))))
     = ["http://a/"; "http://c/"].
Proof. repeat split. Qed.

(** Two suites, the first of which has run: the page of the second one
    waits for its load. *)
Lemma suites_run_in_order_witness :
  ((1 <= length (pages (run (sample_env [] "") two_suites
      [LoadFinished 0 "success"])) <= length (registered two_suites))%nat
   /\ creations (trace (run (sample_env [] "") two_suites [LoadFinished 0 "success"]))
      = map (fun i => (i, i)) (seq 0 (length (pages (run (sample_env [] "") two_suites
          [LoadFinished 0 "success"]))))
   /\ opens (trace (run (sample_env [] "") two_suites [LoadFinished 0 "success"]))
      = zip (seq 0 (length (pages (run (sample_env [] "") two_suites
          [LoadFinished 0 "success"]))))
          (map a_url (take (length (pages (run (sample_env [] "") two_suites
              [LoadFinished 0 "success"]))) (registered two_suites)))
   /\ ((exited (run (sample_env [] "") two_suites [LoadFinished 0 "success"]) = None
        /\ S (length (_exitCodes (this (run (sample_env [] "") two_suites
            [LoadFinished 0 "success"]))))
           = length (pages (run (sample_env [] "") two_suites [LoadFinished 0 "success"])))
       \/ (exited (run (sample_env [] "") two_suites [LoadFinished 0 "success"])
           = Some (final_code (_exitCodes (this (run (sample_env [] "") two_suites
               [LoadFinished 0 "success"]))))
           /\ length (_exitCodes (this (run (sample_env [] "") two_suites
               [LoadFinished 0 "success"])))
              = length (registered two_suites)
           /\ length (pages (run (sample_env [] "") two_suites
               [LoadFinished 0 "success"])) = length (registered two_suites))))
  /\ dones (trace (run (sample_env [] "") two_suites [LoadFinished 0 "success"]))
     = zip (seq 0 (length (_exitCodes (this (run (sample_env [] "") two_suites
         [LoadFinished 0 "success"])))))
         (_exitCodes (this (run (sample_env [] "") two_suites [LoadFinished 0 "success"])))
  /\ (forall l1 l2 pid n,
         trace (run (sample_env [] "") two_suites
             [LoadFinished 0 "success"]) = l1 ++ webpage_create pid (S n) :: l2 ->
         exists c, In (suite_done n c) l1)
  /\ (forall pid p,
         pages (run (sample_env [] "") two_suites [LoadFinished 0 "success"]) !! pid = Some p ->
         pg_suiteId p = pid
         /\ forall exitCode st,
             suiteDoneCb (sample_env [] "") (pg_done p) exitCode st
             = (if (S pid <? length (registered two_suites))%nat
                then _startSuite (sample_env [] "") (S pid)
                else finalize (sample_env [] ""))
                 (set_this (set_exitCodes (_exitCodes (this st) ++ [exitCode]) (this st))
                    (set_out (suite_done pid exitCode :: out st) st)))
  /\ (forall pid p status,
         pages (run (sample_env [] "") two_suites [LoadFinished 0 "success"]) !! pid = Some p ->
         pg_loading p = true ->
         (exists evs msg,
             trace (run (sample_env [] "") two_suites ([LoadFinished 0 "success"] ++
                 [LoadFinished pid status]))
             = trace (run (sample_env [] "") two_suites
                 [LoadFinished 0 "success"]) ++ evs ++ [uncaught msg]
             /\ List.filter is_sched evs = []
             /\ _exitCodes (this (run (sample_env [] "") two_suites ([LoadFinished 0 "success"] ++
                 [LoadFinished pid status])))
                = _exitCodes (this (run (sample_env [] "") two_suites [LoadFinished 0 "success"]))
             /\ length (pages (run (sample_env [] "") two_suites ([LoadFinished 0 "success"] ++
                 [LoadFinished pid status])))
                = length (pages (run (sample_env [] "") two_suites [LoadFinished 0 "success"]))
             /\ exited (run (sample_env [] "") two_suites ([LoadFinished 0 "success"] ++
                 [LoadFinished pid status])) = None)
         \/ (exists c evs1 evs2,
                (c = 0 \/ c = 99)
                /\ trace (run (sample_env [] "") two_suites ([LoadFinished 0 "success"] ++
                    [LoadFinished pid status]))
                   = trace (run (sample_env [] "") two_suites
                       [LoadFinished 0 "success"]) ++ evs1 ++ suite_done pid c :: evs2
                /\ List.filter is_sched evs1 = []
                /\ _exitCodes (this (run (sample_env [] "") two_suites
                    ([LoadFinished 0 "success"] ++ [LoadFinished pid status])))
                   = _exitCodes (this (run (sample_env [] "") two_suites
                       [LoadFinished 0 "success"])) ++ [c]
                /\ ((S pid < length (registered two_suites))%nat ->
                    exists a,
                      registered two_suites !! S pid = Some a
                      /\ List.filter is_sched evs2
                         = [webpage_create (S pid) (S pid); page_open (S pid) (a_url a)]
                      /\ length (pages (run (sample_env [] "") two_suites
                          ([LoadFinished 0 "success"] ++ [LoadFinished pid status])))
                         = S (length (pages (run (sample_env [] "") two_suites
                             [LoadFinished 0 "success"])))
                      /\ exited (run (sample_env [] "") two_suites ([LoadFinished 0 "success"] ++
                          [LoadFinished pid status])) = None)
                /\ (S pid = length (registered two_suites) ->
                    List.filter is_sched evs2
                    = [phantom_exit
                         (final_code (_exitCodes (this (run (sample_env [] "") two_suites
                             [LoadFinished 0 "success"])) ++ [c]))]
                    /\ length (pages (run (sample_env [] "") two_suites
                        ([LoadFinished 0 "success"] ++ [LoadFinished pid status])))
                       = length (pages (run (sample_env [] "") two_suites
                           [LoadFinished 0 "success"]))
                    /\ exited (run (sample_env [] "") two_suites ([LoadFinished 0 "success"] ++
                        [LoadFinished pid status]))
                       = Some (final_code
                                 (_exitCodes (this (run (sample_env [] "") two_suites
                                     [LoadFinished 0 "success"])) ++ [c]))))).
Proof.
  apply (suites_run_in_order (sample_env [] "") two_suites [LoadFinished 0 "success"]).
  discriminate.
Defined.

(** The schedule of that run: the second page comes after the first
    suite's callback, and the codes recorded are 99 and 0. *)
Example two_suites_schedule :
  List.filter is_sched
    (trace (run (sample_env [] "") two_suites
              [LoadFinished 0 "success"; LoadFinished 1 "success"]))
  = [webpage_create 0 0; page_open 0 "http://a/"; suite_done 0 99;
     webpage_create 1 1; page_open 1 "http://b/"; suite_done 1 0;
     phantom_exit 99]
  /\ _exitCodes (this (run (sample_env [] "") two_suites
                         [LoadFinished 0 "success"; LoadFinished 1 "success"]))
     = [99; 0].
Proof. split; vm_compute; reflexivity. Qed.

(** The driver refuses the user script of the only suite. *)
Lemma failed_injection_throws_witness :
  exists evs1 evs2,
    trace (run (sample_env [] "us.js") one_suite
             ([Initialized 0]
                ++ LoadFinished 0 "success"
                     :: [PageError 0 "TypeError: boom" None; LoadFinished 0 "success"]))
    = trace (run (sample_env [] "us.js") one_suite [Initialized 0])
        ++ evs1 ++ uncaught "Can't inject userscript into the page..." :: evs2
    /\ injections UserScript evs1 = map (fun path => (path, true)) [] ++ [("us.js", false)]
    /\ forallb is_abort evs1 = true
    /\ forallb is_calm evs2 = true
    /\ _exitCodes
         (this (run (sample_env [] "us.js") one_suite
                  ([Initialized 0]
                     ++ LoadFinished 0 "success"
                          :: [PageError 0 "TypeError: boom" None;
                              LoadFinished 0 "success"])))
       = _exitCodes (this (run (sample_env [] "us.js") one_suite [Initialized 0]))
    /\ exited (run (sample_env [] "us.js") one_suite
                 ([Initialized 0]
                    ++ LoadFinished 0 "success"
                         :: [PageError 0 "TypeError: boom" None;
                             LoadFinished 0 "success"]))
       = None
    /\ length (pages (run (sample_env [] "us.js") one_suite
                        ([Initialized 0]
                           ++ LoadFinished 0 "success"
                                :: [PageError 0 "TypeError: boom" None;
                                    LoadFinished 0 "success"])))
       = length (pages (run (sample_env [] "us.js") one_suite [Initialized 0])).
Proof.
  refine (proj2 (failed_injection_throws (sample_env [] "us.js"))
            one_suite [Initialized 0]
            [PageError 0 "TypeError: boom" None; LoadFinished 0 "success"]
            0%nat
            (default sample_page
               (pages (run (sample_env [] "us.js") one_suite [Initialized 0]) !! 0%nat))
            "success" [] "us.js" [] _ _ _ _ _ _).
  - discriminate.
  - reflexivity.
  - reflexivity.
  - reflexivity.
  - intros path [].
  - intros w. reflexivity.
Defined.

(** What that run leaves in the output. *)
Example userscript_failure_trace :
  trace (run (sample_env [] "us.js") one_suite
           [Initialized 0; LoadFinished 0 "success";
            PageError 0 "TypeError: boom" None; LoadFinished 0 "success"])
  = [console_log ("Starting test suite 1/1: http://a/" +:+ nl);
     webpage_create 0 0; page_open 0 "http://a/";
     page_injectJs 0 Polyfill "pf.js" true;
     page_injectJs 0 UserScript "us.js" false;
     uncaught "Can't inject userscript into the page..."].
Proof. vm_compute. reflexivity. Qed.

(** The driver refuses the polyfill of the sample script:
    [page.onInitialized] throws, and when the load finishes the [page.open]
    callback still injects the user script and the assertion library, runs
    the three tests and ends the run with status 99. *)
Example polyfill_failure_does_not_stop_the_suite :
  trace (run (sample_env [] "pf.js") one_suite
           [Initialized 0; LoadFinished 0 "success"])
  = [console_log ("Starting test suite 1/1: http://a/" +:+ nl);
     webpage_create 0 0; page_open 0 "http://a/";
     page_injectJs 0 Polyfill "pf.js" false;
     uncaught "Can't inject polyfill into the page...";
     page_injectJs 0 UserScript "us.js" true;
     page_evaluate_xunit 0 "assert";
     page_evaluate_test 0 "t1" (JBool true); console_log " [ OK ] t1";
     page_evaluate_test 0 "t2" (JBool false); console_log " [FAIL] t2";
     page_evaluate_test 0 "t3" (JBool true); console_log " [ OK ] t3";
     page_evaluate_tally 0 "assert";
     console_log (nl +:+ "  Test suite 1/1 finished: 2 asserts OK; 1 asserts KO" +:+ nl);
     suite_done 0 99;
     console_log "All suites finished; there were some failures.";
     phantom_exit 99]
  /\ exited (run (sample_env [] "pf.js") one_suite
               [Initialized 0; LoadFinished 0 "success"])
     = Some 99.
Proof. split; vm_compute; reflexivity. Qed.

(** C9: the claim fails on the code.  The driver refuses the polyfill on
    both pages of a script with two suites of passing tests: each time
    [page.onInitialized] throws, and each time the [page.open] callback
    still injects the user script, evaluates the assertion library and the
    test, and the run ends with status 0.  When the driver refuses the user
    script instead, the [page.open] callback of the first suite throws and
    the suite stops there, but nothing ends the run: the second suite
    is never started and the process does not exit. *)
Theorem injection_failure_does_not_abort :
  trace (run (sample_env [] "pf.js") green_suites
           [Initialized 0; LoadFinished 0 "success";
            Initialized 1; LoadFinished 1 "success"])
  = [console_log ("Starting test suite 1/2: http://a/" +:+ nl);
     webpage_create 0 0; page_open 0 "http://a/";
     page_injectJs 0 Polyfill "pf.js" false;
     uncaught "Can't inject polyfill into the page...";
     page_injectJs 0 UserScript "us.js" true;
     page_evaluate_xunit 0 "assert";
     page_evaluate_test 0 "t1" (JBool true); console_log " [ OK ] t1";
     page_evaluate_tally 0 "assert";
     console_log (nl +:+ "  Test suite 1/2 finished: 1 asserts OK" +:+ nl);
     suite_done 0 0;
     console_log (br +:+ nl);
     console_log ("Starting test suite 2/2: http://b/" +:+ nl);
     webpage_create 1 1; page_open 1 "http://b/";
     page_injectJs 1 Polyfill "pf.js" false;
     uncaught "Can't inject polyfill into the page...";
     page_injectJs 1 UserScript "us.js" true;
     page_evaluate_xunit 1 "assert";
     page_evaluate_test 1 "t1" (JBool true); console_log " [ OK ] t1";
     page_evaluate_tally 1 "assert";
     console_log (nl +:+ "  Test suite 2/2 finished: 1 asserts OK" +:+ nl);
     suite_done 1 0;
     console_log "All suites finished; OK";
     phantom_exit 0]
  /\ exited (run (sample_env [] "pf.js") green_suites
               [Initialized 0; LoadFinished 0 "success";
                Initialized 1; LoadFinished 1 "success"])
     = Some 0
  /\ trace (run (sample_env [] "us.js") green_suites
              [Initialized 0; LoadFinished 0 "success";
               Initialized 1; LoadFinished 1 "success"])
     = [console_log ("Starting test suite 1/2: http://a/" +:+ nl);
        webpage_create 0 0; page_open 0 "http://a/";
        page_injectJs 0 Polyfill "pf.js" true;
        page_injectJs 0 UserScript "us.js" false;
        uncaught "Can't inject userscript into the page..."]
  /\ exited (run (sample_env [] "us.js") green_suites
               [Initialized 0; LoadFinished 0 "success";
                Initialized 1; LoadFinished 1 "success"])
     = None.
Proof. repeat split; vm_compute; reflexivity. Qed.

(** [phantom.debug] set to [false] in the suite configuration, [--debug] on
    the command line. *)
Lemma openAndTest_flags_witness :
  exists p st',
    openAndTest (sample_env ["phantom-tester.js"; "--debug"] "") "http://a/" [] 1
      {| cb_n := 1; cb_nSuites := 2 |} sample_state
    = (Ok tt, st')
    /\ pages st' = pages sample_state ++ [p]
    /\ (ph_debug (default empty_phantom (cf_phantom (_config (this sample_state))))
        <> JUndefined ->
        pg_bDebug p
        = ph_debug (default empty_phantom (cf_phantom (_config (this sample_state)))))
    /\ (ph_debug (default empty_phantom (cf_phantom (_config (this sample_state))))
        = JBool false ->
        pg_bDebug p = JBool false)
    /\ (ph_debug (default empty_phantom (cf_phantom (_config (this sample_state))))
        = JUndefined ->
        pg_bDebug p
        = JBool (cfg_debug (CFG (sample_env ["phantom-tester.js"; "--debug"] ""))))
    /\ (cfg_debug (CFG (sample_env ["phantom-tester.js"; "--debug"] "")) = true
        <-> In "--debug" (system_args (sample_env ["phantom-tester.js"; "--debug"] "")))
    /\ (ph_verbose (default empty_phantom (cf_phantom (_config (this sample_state))))
        <> JUndefined ->
        pg_bVerbose p
        = ph_verbose (default empty_phantom (cf_phantom (_config (this sample_state)))))
    /\ (ph_verbose (default empty_phantom (cf_phantom (_config (this sample_state))))
        = JBool false ->
        pg_bVerbose p = JBool false)
    /\ (ph_verbose (default empty_phantom (cf_phantom (_config (this sample_state))))
        = JUndefined ->
        pg_bVerbose p
        = JBool (cfg_verbose (CFG (sample_env ["phantom-tester.js"; "--debug"] ""))))
    /\ (cfg_verbose (CFG (sample_env ["phantom-tester.js"; "--debug"] "")) = true
        <-> In "--verbose"
              (system_args (sample_env ["phantom-tester.js"; "--debug"] ""))).
Proof.
  exact (openAndTest_flags (sample_env ["phantom-tester.js"; "--debug"] "")
           "http://a/" [] 1 {| cb_n := 1; cb_nSuites := 2 |} sample_state).
Defined.

(** There the page gets a debug flag that is off and a verbose flag that is
    off too, as [--verbose] was not given. *)
Example suite_debug_false_wins :
  map (fun p => (pg_bDebug p, pg_bVerbose p))
    (pages (snd (openAndTest (sample_env ["phantom-tester.js"; "--debug"] "")
                   "http://a/" [] 1 {| cb_n := 1; cb_nSuites := 2 |} sample_state)))
  = [(JBool true, JBool false); (JBool false, JBool false)]
  /\ cfg_debug (CFG (sample_env ["phantom-tester.js"; "--debug"] "")) = true.
Proof. split; reflexivity. Qed.

(** The command line: flags are found anywhere, the last [--xunitName]
    wins, and the name defaults to [assert]. *)
Example parseCommandLineCfg_sample :
  fst (parseCommandLineCfg
         ["phantom-tester.js"; "--xunitName=t"; "--color"; "--xunitName=check"])
  = {| cfg_color := true; cfg_debug := false; cfg_verbose := false;
       cfg_xunitName := "check" |}
  /\ parseCommandLineCfg ["phantom-tester.js"; "--debug"]
     = ({| cfg_color := false; cfg_debug := true; cfg_verbose := false;
           cfg_xunitName := "assert" |},
        [console_log "PhantomJS command line args : phantom-tester.js --debug"]).
Proof. split; reflexivity. Qed.

(** ** Samples for the further properties *)

(** A later [--xunitName] overrides an earlier one, and flags after it do
    not. *)
Lemma xunitName_last_wins_witness :
  cfg_xunitName
    (fst (parseCommandLineCfg
            (["phantom-tester.js"; "--xunitName=assert2"]
               ++ ("--xunitName=" +:+ "expect") :: ["--verbose"])))
  = "expect".
Proof.
  apply (xunitName_last_wins ["phantom-tester.js"; "--xunitName=assert2"] ["--verbose"]
           "expect").
  - discriminate.
  - reflexivity.
  - intros arg pre post [<-|[]] Heq.
    assert (H : indexOf "--verbose" "--xunitName=" >= 0)
      by (apply indexOf_contains; exists pre, post; exact Heq).
    vm_compute in H. now apply H.
Defined.

(** Two suites, the first of which fails: the process exits with 99. *)
Lemma exit_status_values_witness :
  (registered two_suites = [] /\ 99 = 98)
  \/ (registered two_suites <> [] /\ (99 = 0 \/ 99 = 99)).
Proof.
  apply (exit_status_values (sample_env [] "") two_suites
           [LoadFinished 0 "success"; LoadFinished 1 "success"] 99).
  vm_compute. reflexivity.
Defined.

(** The polyfill of the sample script is injected when the page is
    initialized. *)
Lemma polyfills_in_call_order_witness :
  exists evs,
    trace (run (sample_env [] "") one_suite ([] ++ [Initialized 0]))
    = trace (run (sample_env [] "") one_suite []) ++ evs
    /\ injections Polyfill evs = map (fun path => (path, true)) (polyfills_of one_suite)
    /\ injections UserScript evs = []
    /\ forallb is_abort evs = true
    /\ this (run (sample_env [] "") one_suite ([] ++ [Initialized 0]))
       = this (run (sample_env [] "") one_suite [])
    /\ exited (run (sample_env [] "") one_suite ([] ++ [Initialized 0])) = None.
Proof.
  refine (polyfills_in_call_order (sample_env [] "") one_suite [] 0%nat
            (default sample_page (pages (run (sample_env [] "") one_suite []) !! 0%nat))
            _ _ _).
  - reflexivity.
  - reflexivity.
  - intros path [<-|[]] w. now exists w.
Defined.




(** Code units and line terminators: [slice] counts a character of two
    bytes as one code unit, and the name of the counters' variable stops at
    a line separator. *)
Example strings_by_code_units :
  snd (onError sample_page
         (String "195" (String "169" " ASSERT_FAIL x")) None sample_state)
  = set_out [console_error "T_FAIL x"] sample_state
  /\ cfg_xunitName
       (fst (parseCommandLineCfg ["phantom-tester.js"; "--xunitName=a" +:+ LS +:+ "b"]))
     = "a"
  /\ one_line ("a" +:+ LS +:+ "b") = false.
Proof. repeat split. Qed.

(** The flags of a command line, and what [--debug] prints. *)
Example parseCommandLineCfg_flags_sample :
  cfg_color (fst (parseCommandLineCfg ["phantom-tester.js"; "--color=1"; "--verbose"]))
  = false
  /\ cfg_verbose (fst (parseCommandLineCfg ["phantom-tester.js"; "--color=1"; "--verbose"]))
     = true
  /\ snd (parseCommandLineCfg ["phantom-tester.js"; "--color=1"; "--verbose"]) = [].
Proof. repeat split; reflexivity. Qed.
